(** * Exercise-log tools: import validation and stratification

    A shallow embedding of [tools.py]: the column check, the cleaning of an
    exercise sheet, the month loader, the projection arithmetic and the
    stratification of a month of records into per-rank series, with the
    properties the specification states about them. *)

From Stdlib Require Import QArith Qcanon Ascii.
From stdpp Require Import gmap strings list sorting numbers pretty.

Local Open Scope Z_scope.

(** ** Data model *)

(** A pandas [Timestamp].  [date.today()] and [date(year, month, day)] are
    the values whose time of day is [0] (midnight). *)
Record Timestamp := mkTimestamp {
  ts_year : Z;
  ts_month : Z;
  ts_day : Z;
  ts_time : Z
}.

Global Instance Timestamp_eq_dec : EqDecision Timestamp.
Proof. solve_decision. Defined.

(** [date(year, month, day)] *)
Definition date (year month day : Z) : Timestamp :=
  mkTimestamp year month day 0.

(** One cell of a table.  [NA] stands for every value pandas' [isna] accepts
    ([None], [NaN], [NaT]).  Integers are unbounded and floats are the
    rationals they denote: the 64 bits pandas stores a count in, and the
    rounding of a float, are outside this model. *)
Inductive Cell :=
| NA
| VStr (s : string)
| VInt (n : Z)
| VFloat (q : Qc)
| VTime (t : Timestamp).

Global Instance Cell_eq_dec : EqDecision Cell.
Proof. solve_decision. Defined.

Global Instance Cell_inhabited : Inhabited Cell := populate NA.

Definition isna (c : Cell) : bool :=
  match c with NA => true | _ => false end.

(** A [DataFrame]: the column labels and the rows, each row holding one cell
    per label. *)
Record DataFrame := mkDataFrame {
  columns : list string;
  rows : list (gmap string Cell)
}.

Global Instance DataFrame_eq_dec : EqDecision DataFrame.
Proof. solve_decision. Defined.

(** [pd.DataFrame()] *)
Definition empty_frame : DataFrame := mkDataFrame [] [].

(** The values of column [col], top to bottom. *)
Definition get_col (col : string) (df : DataFrame) : list Cell :=
  (λ r : gmap string Cell, r !!! col) <$> rows df.

(** [df[col] = vals]: overwrite (or add) a column, in place. *)
Definition set_col (col : string) (vals : list Cell) (df : DataFrame) : DataFrame :=
  mkDataFrame
    (if decide (col ∈ columns df) then columns df else columns df ++ [col])
    (zip_with (λ (r : gmap string Cell) (v : Cell), <[col := v]> r) (rows df) vals).

(** The exceptions the tools raise. *)
Inductive Error :=
| RequiredColumnMissing (missing : gset string)
| MissingValues (col : string)
| CannotParseDatetime (col : string)
| CannotCastCount
| SheetNotFound (sheetname : string)
| MoreThanOneTable
| OutsideDesiredYear
| OutsideDesiredMonth
| MoreThanOneMonth
| ExerciseNotFound (exercise : string)
| KeyError (key : string)
| IndexError
| EmptyMax
| IllegalMonth
| InvalidDate
| DateParseError
| TypeError.

Global Instance Error_eq_dec : EqDecision Error.
Proof. solve_decision. Defined.

Inductive Warning :=
| ExtraneousColumns (cols : gset string).

Global Instance Warning_eq_dec : EqDecision Warning.
Proof. solve_decision. Defined.

(** ** Library behaviour the source leaves open

    What pandas does with a cell that is neither absent nor of the target
    type already, and which permutation a default-kind [sort_values]
    picks, is not fixed by [tools.py]. *)
Record Pandas := mkPandas {
  parse_datetime : Cell → option Timestamp;
  parse_int : Cell → option Z;
  (** [argsort] of a key array for [ascending=False], default [kind] *)
  argsort_desc : list Z → list nat
}.

(** ** Effects: the caller's table and the warnings issued *)

Record World := mkWorld {
  frame : DataFrame;
  warned : list Warning
}.

Definition M (A : Type) : Type := World → World * (Error + A).

Definition ret {A} (a : A) : M A := λ w, (w, inr a).

Definition bind {A B} (m : M A) (k : A → M B) : M B :=
  λ w, match m w with
       | (w', inr a) => k a w'
       | (w', inl e) => (w', inl e)
       end.

Definition raise {A} (e : Error) : M A := λ w, (w, inl e).

Definition warn (x : Warning) : M unit :=
  λ w, (mkWorld (frame w) (warned w ++ [x]), inr tt).

Definition get_frame : M DataFrame := λ w, (w, inr (frame w)).

Definition put_frame (df : DataFrame) : M unit :=
  λ w, (mkWorld df (warned w), inr tt).

Global Instance M_ret : MRet M := @ret.
Global Instance M_bind : MBind M := λ A B k m, bind m k.

(** [for x in xs: body] *)
Fixpoint for_each {A} (xs : list A) (body : A → M unit) : M unit :=
  match xs with
  | [] => ret tt
  | x :: xs' => body x ;; for_each xs' body
  end.

(** [df[col]] *)
Definition getitem (col : string) : M (list Cell) :=
  df ← get_frame;
  if decide (col ∈ columns df) then ret (get_col col df) else raise (KeyError col).

(** [df[col] = vals] *)
Definition setitem (col : string) (vals : list Cell) : M unit :=
  df ← get_frame; put_frame (set_col col vals df).

(** ** TOOLS FOR IMPORTING *)

Definition col_names_req : gset string :=
  {[ "date"; "time"; "location"; "exercise"; "count" ]}.

Definition check_columns_existence : M unit :=
  df ← get_frame;
  let col_names : gset string := list_to_set (columns df) in
  (if decide (col_names ⊆ col_names_req) then ret tt
   else warn (ExtraneousColumns (col_names ∖ col_names_req)));;
  (if decide (col_names_req ⊆ col_names) then ret tt
   else raise (RequiredColumnMissing (col_names_req ∖ col_names))).

(** [Series.ffill()] *)
Fixpoint ffill_from (last : Cell) (col : list Cell) : list Cell :=
  match col with
  | [] => []
  | c :: rest =>
      let v := if isna c then last else c in
      v :: ffill_from v rest
  end.

Definition ffill (col : list Cell) : list Cell := ffill_from NA col.

(** Python's [int(x)] on a float: truncation towards zero. *)
Definition trunc (q : Qc) : Z := Z.quot (Qnum q) (Zpos (Qden q)).

(** The monad of a computation that only raises. *)
Global Instance Result_ret : MRet (sum Error) := λ A a, inr a.
Global Instance Result_bind : MBind (sum Error) := λ A B k m,
  match m with
  | inr a => k a
  | inl e => inl e
  end.

Definition lift {A} (r : Error + A) : M A := λ w, (w, r).

(** [Series.unique()]: the distinct values, in order of first appearance. *)
Fixpoint unique `{EqDecision A} (l : list A) : list A :=
  match l with
  | [] => []
  | x :: l' => x :: filter (λ y, y ≠ x) (unique l')
  end.

(** [vals[0]] *)
Definition index0 {A} (vals : list A) : Error + A :=
  match vals with
  | [] => inl IndexError
  | v :: _ => inr v
  end.

(** The [.dt] accessor on one value: [NaN] (here [None]) on [NaT]. *)
Definition dt (field : Timestamp → Z) (c : Cell) : option Z :=
  match c with
  | VTime t => Some (field t)
  | _ => None
  end.

(** The integer held by a cell of an integer column. *)
Definition cell_int (c : Cell) : Z :=
  match c with
  | VInt n => n
  | _ => 0
  end.

(** [df[col].sum()] over a list of rows. *)
Definition sum_col (col : string) (rs : list (gmap string Cell)) : Z :=
  foldr Z.add 0 ((λ r : gmap string Cell, cell_int (r !!! col)) <$> rs).

(** *** The calendar *)

Definition month_names : list string :=
  [""; "January"; "February"; "March"; "April"; "May"; "June"; "July";
   "August"; "September"; "October"; "November"; "December"].

(** [calendar.month_name[month]], negative indices counting from the end. *)
Definition month_name (month : Z) : option string :=
  if decide (0 ≤ month) then month_names !! Z.to_nat month
  else if decide (-13 ≤ month) then month_names !! Z.to_nat (13 + month)
  else None.

Definition isleap (year : Z) : bool :=
  (year mod 4 =? 0) && (negb (year mod 100 =? 0) || (year mod 400 =? 0)).

Definition mdays : list Z := [0; 31; 28; 31; 30; 31; 30; 31; 31; 30; 31; 30; 31].

(** [calendar.monthrange(year, month)[1]] *)
Definition monthrange (year month : Z) : Error + Z :=
  if decide (1 ≤ month ≤ 12) then
    inr (mdays !!! Z.to_nat month + (if (month =? 2) && isleap year then 1 else 0))
  else inl IllegalMonth.

(** [date(year, month, day)], which raises on a day that does not exist. *)
Definition py_date (year month day : Z) : Error + Timestamp :=
  match monthrange year month with
  | inr ndays =>
      if decide (1 ≤ year ≤ 9999 ∧ 1 ≤ day ≤ ndays) then inr (date year month day)
      else inl InvalidDate
  | inl _ => inl InvalidDate
  end.

(** Two digits, zero-padded ([%m], [%d]). *)
Definition pad2 (n : Z) : string :=
  if decide (n < 10) then "0" +:+ pretty n else pretty n.

Definition directive (b : ascii) (t : Timestamp) : string :=
  if decide (b = "Y"%char) then pretty (ts_year t)
  else if decide (b = "m"%char) then pad2 (ts_month t)
  else if decide (b = "d"%char) then pad2 (ts_day t)
  else if decide (b = "%"%char) then "%"
  else String "%" (String b "").

(** [t.strftime(fmt)] for the date directives [%Y], [%m], [%d] and [%%];
    every other character is copied. *)
Fixpoint strftime (fmt : string) (t : Timestamp) : string :=
  match fmt with
  | EmptyString => EmptyString
  | String a rest =>
      if decide (a = "%"%char) then
        match rest with
        | String b rest' => directive b t +:+ strftime rest' t
        | EmptyString => "%"
        end
      else String a (strftime rest t)
  end.

(** The order of timestamps. *)
Definition ts_le (a b : Timestamp) : Prop :=
  ts_year a < ts_year b ∨ (ts_year a = ts_year b ∧
  (ts_month a < ts_month b ∨ (ts_month a = ts_month b ∧
  (ts_day a < ts_day b ∨ (ts_day a = ts_day b ∧ ts_time a ≤ ts_time b))))).

Global Instance ts_le_dec : RelDecision ts_le.
Proof. intros a b. unfold ts_le. apply _. Defined.

Definition row_date (r : gmap string Cell) : option Timestamp :=
  match r !!! "date" with
  | VTime t => Some t
  | _ => None
  end.

(** [groupby('date')]: the groups in ascending order of their key, each
    with its rows in their original order; rows without a date are left
    out. *)
Definition groupby_date (rs : list (gmap string Cell))
  : list (Timestamp * list (gmap string Cell)) :=
  (λ k, (k, filter (λ r : gmap string Cell, r !!! "date" = VTime k) rs))
    <$> merge_sort ts_le (unique (omap row_date rs)).

(** [max(xs)] *)
Definition py_max (xs : list nat) : Error + nat :=
  match xs with
  | [] => inl EmptyMax
  | _ => inr (max_list xs)
  end.

(** *** Tables of a Numbers document *)

(** A table as [rows(values_only=True)] returns it: the first row holds the
    column names (distinct text), the others one cell per column. *)
Record Table := mkTable {
  header : list string;
  body : list (list Cell)
}.

(** [pd.DataFrame(table[1:], columns = table[0])] *)
Definition frame_of_table (t : Table) : DataFrame :=
  mkDataFrame (header t)
    ((λ r, list_to_map (zip (header t) r)) <$> body t).

(** [df.dropna(axis=0, how='all')] *)
Definition dropna_rows (df : DataFrame) : DataFrame :=
  mkDataFrame (columns df)
    (filter (λ r : gmap string Cell,
               forallb (λ c, isna (r !!! c)) (columns df) = false) (rows df)).

(** [df.dropna(axis=1, how='all')] *)
Definition dropna_columns (df : DataFrame) : DataFrame :=
  let keep := filter (λ c, existsb (λ r : gmap string Cell, negb (isna (r !!! c)))
                             (rows df) = true) (columns df) in
  mkDataFrame keep
    ((λ r : gmap string Cell, filter (λ kv, kv.1 ∈ keep) r) <$> rows df).

(** True division of two integers, as the exact quotient; not finite ([inf]
    or [nan] in NumPy) when the divisor is zero. *)
Inductive PyFloat :=
| Finite (q : Qc)
| NotFinite.

Global Instance PyFloat_eq_dec : EqDecision PyFloat.
Proof. solve_decision. Defined.

Definition true_divide (a b : Z) : PyFloat :=
  if decide (b = 0) then NotFinite else Finite (Qc_of_Z a / Qc_of_Z b)%Qc.

Record Projection := mkProjection {
  sum_day : Z;
  sum_month : Z;
  reps_per_day_morning : PyFloat;
  reps_per_day_eod : PyFloat
}.

Global Instance Projection_eq_dec : EqDecision Projection.
Proof. solve_decision. Defined.

Section WithPandas.

Context (pd : Pandas).

(** [pd.to_datetime] on one value: absent becomes [NaT], a timestamp stays. *)
Definition to_datetime_cell (c : Cell) : option Cell :=
  match c with
  | NA => Some NA
  | VTime t => Some (VTime t)
  | _ => VTime <$> parse_datetime pd c
  end.

Definition to_datetime (col : list Cell) : option (list Cell) :=
  mapM to_datetime_cell col.

(** [astype('int')] on one value. *)
Definition astype_int_cell (c : Cell) : option Cell :=
  match c with
  | NA => None
  | VInt n => Some (VInt n)
  | VFloat q => Some (VInt (trunc q))
  | _ => VInt <$> parse_int pd c
  end.

Definition astype_int (col : list Cell) : option (list Cell) :=
  mapM astype_int_cell col.

Definition clean_exercise_sheet : M unit :=
  check_columns_existence;;
  (* check for nonemptiness of time, count columns *)
  for_each ["time"; "count"] (λ col,
    vals ← getitem col;
    if existsb isna vals then raise (MissingValues col) else ret tt);;
  (* forward fill date, location, exercise *)
  d ← getitem "date";
  l ← getitem "location";
  e ← getitem "exercise";
  setitem "date" (ffill d);;
  setitem "location" (ffill l);;
  setitem "exercise" (ffill e);;
  (* cast "date" and "time" to datetime *)
  for_each ["date"; "time"] (λ col,
    vals ← getitem col;
    match to_datetime vals with
    | Some vals' => setitem col vals'
    | None => raise (CannotParseDatetime col)
    end);;
  (* cast "count" as int *)
  vals ← getitem "count";
  match astype_int vals with
  | Some vals' => setitem "count" vals'
  | None => raise CannotCastCount
  end.



(** [rows.sort_values(by=col, ascending=False).reset_index(drop=True)] *)
Definition sort_values_desc (col : string) (rs : list (gmap string Cell))
  : list (gmap string Cell) :=
  (λ i, rs !!! i)
    <$> argsort_desc pd ((λ r : gmap string Cell, cell_int (r !!! col)) <$> rs).

Definition import_exercise_sheet (doc : gmap string (list Table)) (sheetname : string)
  : list Warning * (Error + DataFrame) :=
  (* obtain the specified sheet *)
  match doc !! sheetname with
  | None => ([], inl (SheetNotFound sheetname))
  | Some tables =>
      (* verify that the sheet contains only one table *)
      match tables with
      | [table] =>
          let df := frame_of_table table in
          (* drop the entirely-empty columns and rows *)
          let df := dropna_columns (dropna_rows df) in
          (* clean the imported exercise sheet *)
          let '(w, r) := clean_exercise_sheet (mkWorld df []) in
          (warned w, match r with
                     | inl e => inl e
                     | inr _ => inr (frame w)
                     end)
      | _ => ([], inl MoreThanOneTable)
      end
  end.

(** One of the two loops of [import_month] over the [date] and [time]
    columns. *)
Definition check_field (field : Timestamp → Z) (wanted : Z) (err : Error)
    (df : DataFrame) : Error + unit :=
  foldr (λ col (rest : Error + unit),
           let vals := unique (dt field <$> get_col col df) in
           if decide (1 < length vals)%nat then inl err
           else v ← index0 vals;
                if decide (v ≠ Some wanted) then inl err else rest)
        (inr tt) ["date"; "time"].

(** ["{}-{}".format(year, monthname)] *)
Definition sheet_name (year : Z) (monthname : string) : string :=
  pretty year +:+ "-" +:+ monthname.

Definition import_month (doc : gmap string (list Table)) (year month : Z)
  : list Warning * (Error + DataFrame) :=
  (* obtain sheet name *)
  match month_name month with
  | None => ([], inl IndexError)
  | Some monthname =>
      let sheetname := sheet_name year monthname in
      (* import data *)
      match import_exercise_sheet doc sheetname with
      | (ws, inl e) => (ws, inl e)
      | (ws, inr df) =>
          (ws,
           check_field ts_year year OutsideDesiredYear df;;
           check_field ts_month month OutsideDesiredMonth df;;
           mret df)
      end
  end.

(** ** TOOLS FOR STATISTICS *)

Definition exercise_projection (doc : gmap string (list Table)) (today : Timestamp)
    (exercise : string) (goal_total : Z) : list Warning * (Error + Projection) :=
  let year := ts_year today in
  let month := ts_month today in
  let day := ts_day today in
  match import_month doc year month with
  | (ws, inl e) => (ws, inl e)
  | (ws, inr df) =>
      (ws,
       if decide (VStr exercise ∈ unique (get_col "exercise" df)) then
         let df_subset :=
           filter (λ r : gmap string Cell, r !!! "exercise" = VStr exercise) (rows df) in
         let sum_month := sum_col "count" df_subset in
         let sum_day :=
           sum_col "count"
             (filter (λ r : gmap string Cell, dt ts_day (r !!! "date") = Some day)
                     df_subset) in
         days_in_month ← monthrange year month;
         mret (mkProjection sum_day sum_month
                 (true_divide (goal_total - (sum_month - sum_day))
                              (days_in_month - (day - 1)))
                 (true_divide (goal_total - sum_month) (days_in_month - day)))
       else inl (ExerciseNotFound exercise))
  end.

(** ** TOOLS FOR VISUALIZATION *)

(** The body of the loop over the days: the [n]-th set of that day, or a set
    of zero reps. *)
Definition nth_set_of_day (per_day_dict : gmap string (list (gmap string Cell)))
    (date_format : string) (year month : option Z) (n : nat) (day : Z)
  : Error + gmap string Cell :=
  y ← from_option inr (inl TypeError) year;
  m ← from_option inr (inl TypeError) month;
  d ← py_date y m day;
  let date_key := strftime date_format d in
  mret (match per_day_dict !! date_key ≫= (.!! n) with
        | Some r => {[ "date" := r !!! "date"; "count" := r !!! "count" ]}
        | None => {[ "date" := VStr date_key; "count" := VInt 0 ]}
        end).

(** The frame of the [n]-th sets, one row per day of the day range. *)
Definition nth_set_frame (per_day_dict : gmap string (list (gmap string Cell)))
    (date_format : string) (year month : option Z) (day_range : Z) (n : nat)
  : Error + DataFrame :=
  reps ← mapM (nth_set_of_day per_day_dict date_format year month n)
              (seqZ 1 day_range);
  let df := match reps with
            | [] => empty_frame
            | _ => mkDataFrame ["date"; "count"] reps
            end in
  (* parse data column as dates *)
  if decide ("date" ∈ columns df) then
    match to_datetime (get_col "date" df) with
    | Some dates => mret (set_col "date" dates df)
    | None => inl DateParseError
    end
  else inl (KeyError "date").

(** Group by day, store as dict: the sets of each day under the day's
    formatted date, sorted by reps per set in descending order. *)
Definition group_by_day (date_format : string) (df_filtered : list (gmap string Cell))
  : gmap string (list (gmap string Cell)) :=
  (* group by day *)
  let grouped_by_date := groupby_date df_filtered in
  let per_day_dict : gmap string (list (gmap string Cell)) :=
    foldl (λ d kv, <[strftime date_format kv.1 := kv.2]> d) ∅ grouped_by_date in
  (* sort each day's data by reps per set in descending order *)
  sort_values_desc "count" <$> per_day_dict.

Definition stratify_exercise_month (today : Timestamp) (exercise : string)
    (date_format : string) : M (list DataFrame) :=
  (* check for appropriate data format *)
  clean_exercise_sheet;;
  (* check that the given DataFrame contains only records
     for a single year and month *)
  dates ← getitem "date";
  let years_contained := unique (dt ts_year <$> dates) in
  let months_contained := unique (dt ts_month <$> dates) in
  (if decide (length months_contained ≠ 1%nat ∨ length years_contained ≠ 1%nat)
   then raise MoreThanOneMonth else ret tt);;
  (* get the year and month value in the data *)
  month ← lift (index0 months_contained);
  year ← lift (index0 years_contained);
  (* check that specified exercise appears in the given data *)
  exercises ← getitem "exercise";
  (if decide (VStr exercise ∈ unique exercises) then ret tt
   else raise (ExerciseNotFound exercise));;
  (* filter to specified exercise *)
  df ← get_frame;
  let df_filtered :=
    filter (λ r : gmap string Cell, r !!! "exercise" = VStr exercise) (rows df) in
  let per_day_dict := group_by_day date_format df_filtered in
  (* max number of sets done in a day *)
  let sets_per_day := length <$> (map_to_list per_day_dict).*2 in
  n_sets_max ← lift (py_max sets_per_day);
  (* get day range: if current month: current day;
     if other month: number of days in the month *)
  day_range ← lift (
    if decide (month = Some (ts_month today) ∧ year = Some (ts_year today))
    then inr (ts_day today)
    else m ← from_option inr (inl IllegalMonth) month;
         y ← from_option inr (inl TypeError) year;
         monthrange y m);
  (* for each set number, loop over every day in the month *)
  lift (mapM (nth_set_frame per_day_dict date_format year month day_range)
             (seq 0 n_sets_max)).

End WithPandas.

(** ** What the tools may assume of the library *)

(** [argsort] returns a permutation of the positions that puts the keys in
    descending order.  Nothing is promised on the order of equal keys: the
    default [kind] of pandas' [sort_values] is not a stable one. *)
Definition sorts_descending (pd : Pandas) : Prop :=
  ∀ keys : list Z,
    argsort_desc pd keys ≡ₚ seq 0 (length keys) ∧
    Sorted (λ a b : Z, b ≤ a) ((λ i, keys !!! i) <$> argsort_desc pd keys).

(** ** A reference instance of the library *)

Definition digit_of (a : ascii) : option Z :=
  let n := Z.of_nat (nat_of_ascii a) in
  if decide (48 ≤ n ≤ 57) then Some (n - 48) else None.

Fixpoint decimal_go (s : string) (acc : Z) : option Z :=
  match s with
  | EmptyString => Some acc
  | String a r => d ← digit_of a; decimal_go r (10 * acc + d)
  end.

Definition decimal (s : string) : option Z :=
  match s with
  | EmptyString => None
  | _ => decimal_go s 0
  end.

(** [s.split(sep)] *)
Fixpoint split_on (sep : ascii) (s : string) : list string :=
  match s with
  | EmptyString => [EmptyString]
  | String a r =>
      if decide (a = sep) then EmptyString :: split_on sep r
      else match split_on sep r with
           | w :: ws => String a w :: ws
           | [] => [String a EmptyString]
           end
  end.

(** Dates written [YYYY-MM-DD]. *)
Definition parse_iso_date (c : Cell) : option Timestamp :=
  match c with
  | VStr s =>
      match split_on "-" s with
      | [y; m; d] => y ← decimal y; m ← decimal m; d ← decimal d; Some (date y m d)
      | _ => None
      end
  | _ => None
  end.

Definition parse_decimal (c : Cell) : option Z :=
  match c with
  | VStr s => decimal s
  | _ => None
  end.

(** Insertion sort on the numbered keys.  [before ky kx] tells whether a key
    [kx] goes in front of a key [ky] that is already placed. *)
Fixpoint insert_by (before : Z → Z → bool) (x : nat * Z) (l : list (nat * Z))
  : list (nat * Z) :=
  match l with
  | [] => [x]
  | y :: l' => if before y.2 x.2 then x :: y :: l' else y :: insert_by before x l'
  end.

Definition argsort_by (before : Z → Z → bool) (keys : list Z) : list nat :=
  (foldr (insert_by before) [] (zip (seq 0 (length keys)) keys)).*1.

(** A stable descending [argsort]: equal keys keep their original order. *)
Definition argsort_stable_desc : list Z → list nat :=
  argsort_by (λ ky kx, ky <=? kx).

Definition pandas_ref : Pandas :=
  mkPandas parse_iso_date parse_decimal argsort_stable_desc.

(** A descending [argsort] that is as good by the library's contract and
    puts equal keys in the reverse of their original order. *)
Definition argsort_reversing_desc : list Z → list nat :=
  argsort_by (λ ky kx, ky <? kx).

Definition pandas_rev : Pandas :=
  mkPandas parse_iso_date parse_decimal argsort_reversing_desc.

(** ** Valid inputs *)

(** A date that exists. *)
Definition valid_date (t : Timestamp) : Prop :=
  py_date (ts_year t) (ts_month t) (ts_day t) = inr t.

(** A normalized record: all five fields present and typed, the date a
    calendar date. *)
Definition normalized_row (r : gmap string Cell) : Prop :=
  (∃ d, r !! "date" = Some (VTime d) ∧ valid_date d) ∧
  (∃ t, r !! "time" = Some (VTime t)) ∧
  (∃ l, r !! "location" = Some (VStr l)) ∧
  (∃ e, r !! "exercise" = Some (VStr e)) ∧
  (∃ n, r !! "count" = Some (VInt n)).

Definition normalized (df : DataFrame) : Prop :=
  col_names_req ⊆ list_to_set (C := gset string) (columns df) ∧
  Forall normalized_row (rows df).

(** Every record is dated in the month [(year, month)]. *)
Definition dated_in_month (year month : Z) (df : DataFrame) : Prop :=
  Forall (λ r : gmap string Cell,
            dt ts_year (r !!! "date") = Some year ∧
            dt ts_month (r !!! "date") = Some month) (rows df).

(** The day range the stratifier works out from the current date. *)
Definition day_range_of (today : Timestamp) (year month : Z) : Error + Z :=
  if decide (month = ts_month today ∧ year = ts_year today)
  then inr (ts_day today)
  else monthrange year month.

(** The total logged for [exercise] on [day]. *)
Definition day_total (df : DataFrame) (exercise : string) (day : Timestamp) : Z :=
  sum_col "count"
    (filter (λ r : gmap string Cell,
               r !!! "date" = VTime day ∧ r !!! "exercise" = VStr exercise) (rows df)).

(** The value of a series on a day (1-based). *)
Definition series_at (s : DataFrame) (day : Z) : Z :=
  cell_int (get_col "count" s !!! Z.to_nat (day - 1)).

(** ** Example tables *)

Definition record (d t : Timestamp) (location exercise : string) (count : Z)
  : gmap string Cell :=
  {[ "date" := VTime d; "time" := VTime t; "location" := VStr location;
     "exercise" := VStr exercise; "count" := VInt count ]}.

Definition five_columns : list string :=
  ["date"; "time"; "location"; "exercise"; "count"].

(** Pushups: three sets of 10, 8 and 12 on day 1, one set of 5 on day 2. *)
Definition pushups_month : DataFrame :=
  mkDataFrame five_columns
    [ record (date 2024 11 1) (mkTimestamp 2024 11 1 800) "home" "pushups" 10;
      record (date 2024 11 1) (mkTimestamp 2024 11 1 900) "home" "pushups" 8;
      record (date 2024 11 1) (mkTimestamp 2024 11 1 1000) "home" "pushups" 12;
      record (date 2024 11 2) (mkTimestamp 2024 11 2 800) "home" "pushups" 5 ].

(** ** Running a computation on a table *)

Definition run {A} (m : M A) (df : DataFrame) : World * (Error + A) :=
  m (mkWorld df []).

(** The warnings the column check issues on a table. *)
Definition warnings_of (df : DataFrame) : list Warning :=
  let col_names : gset string := list_to_set (columns df) in
  if decide (col_names ⊆ col_names_req) then []
  else [ExtraneousColumns (col_names ∖ col_names_req)].

(** The table after the forward fill. *)
Definition filled (df : DataFrame) : DataFrame :=
  set_col "exercise" (ffill (get_col "exercise" df))
    (set_col "location" (ffill (get_col "location" df))
       (set_col "date" (ffill (get_col "date" df)) df)).

(** A required column is missing. *)
Definition missing_required (df : DataFrame) : Prop :=
  ∃ c, c ∈ col_names_req ∧ c ∉ columns df.

(** A column other than the five is present. *)
Definition has_extraneous (df : DataFrame) : Prop :=
  ∃ c, c ∈ columns df ∧ c ∉ col_names_req.

(** The table after a successful validation, given the cast columns. *)
Definition cleaned (df : DataFrame) (dates times counts : list Cell) : DataFrame :=
  set_col "count" counts (set_col "time" times (set_col "date" dates (filled df))).

(** The three other columns of the five. *)
Definition fill_columns : list string := ["date"; "location"; "exercise"].

(** A cell [pd.to_datetime] converts. *)
Definition datetime_like (pd : Pandas) (c : Cell) : Prop :=
  is_Some (to_datetime_cell pd c).

(** A cell [astype('int')] converts. *)
Definition int_like (pd : Pandas) (c : Cell) : Prop :=
  is_Some (astype_int_cell pd c).

(** A table whose second row leaves the date to the forward fill. *)
Definition sheet_with_gap : DataFrame :=
  mkDataFrame five_columns
    [ record (date 2024 11 1) (mkTimestamp 2024 11 1 800) "home" "pushups" 10;
      <["date" := NA]>
        (record (date 2024 11 1) (mkTimestamp 2024 11 1 900) "home" "pushups" 8) ].

(** A table whose first row has no location. *)
Definition sheet_without_first_location : DataFrame :=
  mkDataFrame five_columns
    [ <["location" := NA]>
        (record (date 2024 11 1) (mkTimestamp 2024 11 1 800) "home" "pushups" 10);
      record (date 2024 11 1) (mkTimestamp 2024 11 1 900) "gym" "pushups" 8 ].

(** What a run of the validator leaves behind, case by case. *)
Inductive clean_outcome (pd : Pandas) (df : DataFrame) : DataFrame → Error + unit → Prop :=
| clean_missing_column missing :
    ¬ col_names_req ⊆ list_to_set (C := gset string) (columns df) →
    clean_outcome pd df df (inl (RequiredColumnMissing missing))
| clean_missing_values col :
    col_names_req ⊆ list_to_set (C := gset string) (columns df) →
    col = "time" ∨ col = "count" →
    existsb isna (get_col col df) = true →
    clean_outcome pd df df (inl (MissingValues col))
| clean_bad_date :
    to_datetime pd (ffill (get_col "date" df)) = None →
    clean_outcome pd df (filled df) (inl (CannotParseDatetime "date"))
| clean_bad_time d' :
    to_datetime pd (ffill (get_col "date" df)) = Some d' →
    to_datetime pd (get_col "time" df) = None →
    clean_outcome pd df (set_col "date" d' (filled df)) (inl (CannotParseDatetime "time"))
| clean_bad_count d' t' :
    to_datetime pd (ffill (get_col "date" df)) = Some d' →
    to_datetime pd (get_col "time" df) = Some t' →
    astype_int pd (get_col "count" df) = None →
    clean_outcome pd df (set_col "time" t' (set_col "date" d' (filled df)))
      (inl CannotCastCount)
| clean_ok d' t' c' :
    col_names_req ⊆ list_to_set (C := gset string) (columns df) →
    existsb isna (get_col "time" df) = false →
    existsb isna (get_col "count" df) = false →
    to_datetime pd (ffill (get_col "date" df)) = Some d' →
    to_datetime pd (get_col "time" df) = Some t' →
    astype_int pd (get_col "count" df) = Some c' →
    clean_outcome pd df (cleaned df d' t' c') (inr tt).


(** A record whose date and time are both in the month [(year, month)]. *)
Definition row_in_month (year month : Z) (r : gmap string Cell) : Prop :=
  (dt ts_year (r !!! "date") = Some year ∧ dt ts_year (r !!! "time") = Some year) ∧
  (dt ts_month (r !!! "date") = Some month ∧ dt ts_month (r !!! "time") = Some month).

(** The rows of a table of a Numbers sheet, for the five columns. *)
Definition table_row (d t : Timestamp) (location exercise : string) (count : Z)
  : list Cell :=
  [VTime d; VTime t; VStr location; VStr exercise; VInt count].

(** A document with the sheet of November 2024: 90 pushups by day 5, 10 more
    on day 10. *)
Definition november_doc : gmap string (list Table) :=
  {[ "2024-November" :=
       [ mkTable five_columns
           [ table_row (date 2024 11 5) (mkTimestamp 2024 11 5 800) "home" "pushups" 90;
             table_row (date 2024 11 10) (mkTimestamp 2024 11 10 800) "home" "pushups" 10 ] ] ]}.

(** The same sheet with one record of October filed in it. *)
Definition misfiled_doc : gmap string (list Table) :=
  {[ "2024-November" :=
       [ mkTable five_columns
           [ table_row (date 2024 11 5) (mkTimestamp 2024 11 5 800) "home" "pushups" 90;
             table_row (date 2024 10 31) (mkTimestamp 2024 10 31 800) "home" "pushups" 7;
             table_row (date 2024 11 10) (mkTimestamp 2024 11 10 800) "home" "pushups" 10 ] ] ]}.

(** A sheet whose data rows are all empty. *)
Definition blank_doc : gmap string (list Table) :=
  {[ "2024-November" :=
       [ mkTable five_columns [ [NA; NA; NA; NA; NA]; [NA; NA; NA; NA; NA] ] ] ]}.

(** The date format tells the days of a month apart. *)
Definition day_keys_distinct (date_format : string) (year month : Z) : Prop :=
  ∀ d1 d2, 1 ≤ d1 ≤ 31 → 1 ≤ d2 ≤ 31 →
    strftime date_format (date year month d1) = strftime date_format (date year month d2) →
    d1 = d2.

(** A record dated on a day of the month [(year, month)]. *)
Definition day_row (year month : Z) (r : gmap string Cell) : Prop :=
  ∃ d, 1 ≤ d ≤ 31 ∧ r !!! "date" = VTime (date year month d).

(** The default of [date_format]. *)
Definition default_date_format : string := "%Y-%m-%d".

(** The sets of [exercise] on [day], as the stratifier sorts them. *)
Definition day_sets (pd : Pandas) (df : DataFrame) (exercise : string) (day : Timestamp)
  : list (gmap string Cell) :=
  sort_values_desc pd "count"
    (filter (λ r : gmap string Cell, r !!! "date" = VTime day)
       (filter (λ r : gmap string Cell, r !!! "exercise" = VStr exercise) (rows df))).

(** The count of the set of rank [n] (from 0) among [g], or 0. *)
Definition nth_count (g : list (gmap string Cell)) (n : nat) : Z :=
  from_option (λ r : gmap string Cell, cell_int (r !!! "count")) 0 (g !! n).

(** The sum of a list of integers. *)
Definition sum_list_Z (l : list Z) : Z := foldr Z.add 0 l.

(** The counts of a list of sets. *)
Definition counts (g : list (gmap string Cell)) : list Z :=
  (λ r : gmap string Cell, cell_int (r !!! "count")) <$> g.

(** Two sets of ten pushups on the same day. *)
Definition first_ten : gmap string Cell :=
  record (date 2024 11 1) (mkTimestamp 2024 11 1 800) "home" "pushups" 10.

Definition second_ten : gmap string Cell :=
  record (date 2024 11 1) (mkTimestamp 2024 11 1 900) "gym" "pushups" 10.

(** The record sets the sheets of the example documents hold. *)
Definition november_frame : DataFrame :=
  mkDataFrame five_columns
    [ record (date 2024 11 5) (mkTimestamp 2024 11 5 800) "home" "pushups" 90;
      record (date 2024 11 10) (mkTimestamp 2024 11 10 800) "home" "pushups" 10 ].

Definition october_record : gmap string Cell :=
  record (date 2024 10 31) (mkTimestamp 2024 10 31 800) "home" "pushups" 7.

Definition misfiled_frame : DataFrame :=
  mkDataFrame five_columns
    [ record (date 2024 11 5) (mkTimestamp 2024 11 5 800) "home" "pushups" 90;
      october_record;
      record (date 2024 11 10) (mkTimestamp 2024 11 10 800) "home" "pushups" 10 ].

(** A table with a column of notes beside the five. *)
Definition sheet_with_notes : DataFrame :=
  mkDataFrame (five_columns ++ ["notes"])
    [ <["notes" := VStr "easy"]>
        (record (date 2024 11 1) (mkTimestamp 2024 11 1 800) "home" "pushups" 10) ].

(** ** Further notions for the properties *)

(** The absent cells of a column form a block at its top. *)
Definition absent_only_on_top (col : list Cell) : Prop :=
  ∀ i j, (i ≤ j)%nat → col !! j = Some NA → col !! i = Some NA.

(** A cell holding a timestamp. *)
Definition is_timestamp (c : Cell) : Prop := ∃ t, c = VTime t.

(** A cell holding an integer. *)
Definition is_integer (c : Cell) : Prop := ∃ n, c = VInt n.


(** A sheet whose location column is empty throughout. *)
Definition unlocated_doc : gmap string (list Table) :=
  {[ "2024-November" :=
       [ mkTable five_columns
           [ [VTime (date 2024 11 5); VTime (mkTimestamp 2024 11 5 800); NA;
              VStr "pushups"; VInt 90];
             [VTime (date 2024 11 10); VTime (mkTimestamp 2024 11 10 800); NA;
              VStr "pushups"; VInt 10] ] ] ]}.

(** A sheet whose first record has no date. *)
Definition undated_doc : gmap string (list Table) :=
  {[ "2024-November" :=
       [ mkTable five_columns
           [ [NA; VTime (mkTimestamp 2024 11 5 800); VStr "home"; VStr "pushups"; VInt 90];
             table_row (date 2024 11 10) (mkTimestamp 2024 11 10 800) "home" "pushups" 10 ] ] ]}.

(** The record set [undated_doc] yields once validated. *)
Definition undated_frame : DataFrame :=
  mkDataFrame five_columns
    [ <["date" := NA]>
        (record (date 2024 11 5) (mkTimestamp 2024 11 5 800) "home" "pushups" 90);
      record (date 2024 11 10) (mkTimestamp 2024 11 10 800) "home" "pushups" 10 ].

(** A row of a table with no value under any of the table's columns. *)
Definition blank_row (df : DataFrame) (r : gmap string Cell) : Prop :=
  Forall (λ c, r !!! c = NA) (columns df).

(** A column of a table with no value in any row. *)
Definition blank_column (df : DataFrame) (c : string) : Prop :=
  Forall (λ v, v = NA) (get_col c df).

Global Instance blank_row_dec df r : Decision (blank_row df r).
Proof. unfold blank_row. apply _. Defined.

Global Instance blank_column_dec df c : Decision (blank_column df c).
Proof. unfold blank_column. apply _. Defined.

(** A computation that leaves the caller's table and the warnings issued as
    they are. *)
Definition reads_only {A} (m : M A) : Prop := ∀ w, (m w).1 = w.

(** What the stratifier computes, past validation, from the validated
    table: the steps of [stratify_exercise_month] that follow
    [clean_exercise_sheet], none of which writes. *)
Definition strata (pd : Pandas) (today : Timestamp) (exercise date_format : string)
    (df : DataFrame) : Error + list DataFrame :=
  let dates := get_col "date" df in
  let years_contained := unique (dt ts_year <$> dates) in
  let months_contained := unique (dt ts_month <$> dates) in
  if decide (length months_contained ≠ 1%nat ∨ length years_contained ≠ 1%nat)
  then inl MoreThanOneMonth
  else
    month ← index0 months_contained;
    year ← index0 years_contained;
    if decide (VStr exercise ∈ unique (get_col "exercise" df)) then
      let per_day_dict :=
        group_by_day pd date_format
          (filter (λ r : gmap string Cell, r !!! "exercise" = VStr exercise) (rows df)) in
      n_sets_max ← py_max (length <$> (map_to_list per_day_dict).*2);
      day_range ←
        (if decide (month = Some (ts_month today) ∧ year = Some (ts_year today))
         then inr (ts_day today)
         else m ← from_option inr (inl IllegalMonth) month;
              y ← from_option inr (inl TypeError) year;
              monthrange y m);
      mapM (nth_set_frame pd per_day_dict date_format year month day_range)
           (seq 0 n_sets_max)
    else inl (ExerciseNotFound exercise).

(** The records of [exercise] on [day], in the order of the table. *)
Definition day_records (df : DataFrame) (exercise : string) (day : Timestamp)
  : list (gmap string Cell) :=
  filter (λ r : gmap string Cell,
            r !!! "date" = VTime day ∧ r !!! "exercise" = VStr exercise) (rows df).

(** The series the stratifier returns for [pushups_month] on day 2 of the
    month, if it returns any. *)
Definition pushups_series : list DataFrame :=
  match (run (stratify_exercise_month pandas_ref (date 2024 11 2) "pushups"
                default_date_format) pushups_month).2 with
  | inr series => series
  | inl _ => []
  end.

(** ** The stacked bar chart

    [stacked_bar_exercise_month] as the bars it puts on the axes, one
    container per call of [ax.bar].  The figure's title and the rotation of
    the tick labels, which follow the loop and do not read the records, are
    not part of the model. *)

(** One call of [ax.bar(x, height, bottom=bottoms)]: the bars of one series,
    one per day. *)
Record BarContainer := mkBarContainer {
  bar_x : list Cell;
  bar_height : list Z;
  bar_bottom : list Z
}.

Global Instance BarContainer_eq_dec : EqDecision BarContainer.
Proof. solve_decision. Defined.

(** What [stacked_bar_exercise_month] raises: what the loader or the
    stratifier raised, or its own complaint about the series. *)
Inductive ChartError :=
| Raised (e : Error)
| NonuniformLength.

Global Instance ChartError_eq_dec : EqDecision ChartError.
Proof. solve_decision. Defined.

(** [df[col]] on a frame that is read and not written. *)
Definition column (col : string) (df : DataFrame) : Error + list Cell :=
  if decide (col ∈ columns df) then inr (get_col col df) else inl (KeyError col).

(** The loop over the series: each is drawn on the [bottoms] the series
    before it have left, and then raises them by its own counts.  All the
    series have as many rows as [bottoms] has entries when the loop is
    reached, so the sum by position is the sum of the arrays. *)
Fixpoint stack_bars (nth_set_list : list DataFrame) (bottoms : list Z)
  : Error + list BarContainer :=
  match nth_set_list with
  | [] => inr []
  | df :: rest =>
      (* plot the set *)
      x ← column "date" df;
      height ← column "count" df;
      let bars := mkBarContainer x (cell_int <$> height) bottoms in
      (* raise the bottoms of the next set to be plotted *)
      later ← stack_bars rest (zip_with Z.add bottoms (cell_int <$> height));
      mret (bars :: later)
  end.

Definition stacked_bar_exercise_month (pd : Pandas) (doc : gmap string (list Table))
    (today : Timestamp) (exercise : string) (year month : Z)
  : list Warning * (ChartError + list BarContainer) :=
  match import_month pd doc year month with
  | (ws, inl e) => (ws, inl (Raised e))
  | (ws, inr df) =>
      (* stratify the given records *)
      let '(w, r) :=
        stratify_exercise_month pd today exercise default_date_format (mkWorld df ws) in
      (warned w,
       match r with
       | inl e => inl (Raised e)
       | inr nth_set_list =>
           (* obtain the necessary day range *)
           let days_in_df : gset nat :=
             list_to_set ((λ df, length (rows df)) <$> nth_set_list) in
           (* nth_set_list should contain dataframes of all the same length *)
           match elements days_in_df with
           | [day_range] =>
               match stack_bars nth_set_list (replicate day_range 0) with
               | inl e => inl (Raised e)
               | inr bars => inr bars
               end
           | _ => inl NonuniformLength
           end
       end)
  end.

(** The bars of the chart of the pushups of [november_doc] on day 10 of the
    month, if it is drawn. *)
Definition november_bars : list BarContainer :=
  match (stacked_bar_exercise_month pandas_ref november_doc (date 2024 11 10) "pushups"
           2024 11).2 with
  | inr bars => bars
  | inl _ => []
  end.

(** ** The statistics

    [exercise_statistics] as the numbers it prints, before the rounding to
    two places the means go through; the heading and the layout of the
    lines are not part of the model. *)

(** [Series.max()]: [None] stands for the [nan] of an empty series. *)
Definition series_max (xs : list Z) : option Z :=
  match xs with
  | [] => None
  | x :: xs' => Some (foldr Z.max x xs')
  end.

(** [Series.mean()], not finite ([nan]) on an empty series. *)
Definition series_mean (xs : list Z) : PyFloat :=
  match xs with
  | [] => NotFinite
  | _ => Finite (Qc_of_Z (sum_list_Z xs) / Qc_of_Z (Z.of_nat (length xs)))%Qc
  end.

(** [Series.median()]: the middle value in sorted order, or the mean of the
    two middle values. *)
Definition series_median (xs : list Z) : PyFloat :=
  let sorted := merge_sort Z.le xs in
  let n := length sorted in
  if decide (n = 0%nat) then NotFinite
  else if Nat.even n
       then Finite ((Qc_of_Z (sorted !!! (n / 2 - 1)%nat) + Qc_of_Z (sorted !!! (n / 2)%nat))
                    / Qc_of_Z 2)%Qc
       else Finite (Qc_of_Z (sorted !!! (n / 2)%nat)).

(** [day_totals[day]] inside [try], with [0] for a day without a total. *)
Definition day_total_or_zero (day_totals : list (Timestamp * Z)) (day : Timestamp) : Z :=
  match list_find (λ kv : Timestamp * Z, kv.1 = day) day_totals with
  | Some (_, kv) => kv.2
  | None => 0
  end.

Record Statistics := mkStatistics {
  stat_day_range : Z;
  total : Z;
  days_done : nat;
  max_reps_in_set : option Z;
  mean_reps_in_set : PyFloat;
  median_reps_in_set : PyFloat;
  max_reps_in_day : option Z;
  mean_reps_in_day : PyFloat;
  median_reps_in_day : PyFloat;
  mean_reps_in_day_inc : PyFloat;
  median_reps_in_day_inc : PyFloat
}.

Global Instance Statistics_eq_dec : EqDecision Statistics.
Proof. solve_decision. Defined.

Definition exercise_statistics (pd : Pandas) (doc : gmap string (list Table))
    (today : Timestamp) (exercise : string) (year month : Z)
  : list Warning * (Error + Statistics) :=
  match (if decide (year = ts_year today ∧ month = ts_month today)
         then inr (ts_day today)
         else monthrange year month) with
  | inl e => ([], inl e)
  | inr day_range =>
      match import_month pd doc year month with
      | (ws, inl e) => (ws, inl e)
      | (ws, inr df) =>
          (ws,
           (* check that the requested exercise appears in this month's data *)
           if decide (VStr exercise ∈ unique (get_col "exercise" df)) then
             let df_subset :=
               filter (λ r : gmap string Cell, r !!! "exercise" = VStr exercise)
                      (rows df) in
             let reps := counts df_subset in
             (* group by day and sum *)
             let day_totals :=
               (λ kg : Timestamp * list (gmap string Cell), (kg.1, sum_col "count" kg.2))
                 <$> groupby_date df_subset in
             (* fill in void days; [pd.Timestamp(year, month, day)] raises on a
                day that does not exist, as [date(year, month, day)] does *)
             index ← mapM (py_date year month) (seqZ 1 day_range);
             let day_totals_inc := day_total_or_zero day_totals <$> index in
             mret (mkStatistics day_range
                     (sum_col "count" df_subset)
                     (length (unique ((λ r : gmap string Cell, dt ts_day (r !!! "date"))
                                        <$> df_subset)))
                     (series_max reps) (series_mean reps) (series_median reps)
                     (series_max day_totals.*2) (series_mean day_totals.*2)
                     (series_median day_totals.*2)
                     (series_mean day_totals_inc) (series_median day_totals_inc))
           else inl (ExerciseNotFound exercise))
      end
  end.

(** The statistics of the pushups of [november_doc] on day 10 of the month,
    if they are produced. *)
Definition november_statistics : Statistics :=
  match (exercise_statistics pandas_ref november_doc (date 2024 11 10) "pushups"
           2024 11).2 with
  | inr st => st
  | inl _ => mkStatistics 0 0 0 None NotFinite NotFinite None NotFinite NotFinite
               NotFinite NotFinite
  end.

(** ** The cumulative plot

    [cumsum_exercise_plot] as the lines it puts on the axes, one per month.
    The legend and the title, which follow the loop, are not part of the
    model. *)

(** The keyword arguments the function looks at, each a pair of a year and
    a month when present. *)
Record Kwargs := mkKwargs {
  kw_month : option (Z * Z);
  kw_startmonth : option (Z * Z);
  kw_endmonth : option (Z * Z)
}.

(** What [cumsum_exercise_plot] raises: its two complaints about the
    keywords, what [int] or [pd.date_range] raises, or what the month loader
    raised. *)
Inductive PlotError :=
| MonthAlongsideRange
| MonthOrRangeMissing
| InvalidLiteral (s : string)
| DateRangeError
| PlotRaised (e : Error).

Global Instance PlotError_eq_dec : EqDecision PlotError.
Proof. solve_decision. Defined.

(** One call of [ax.plot(x, y, marker=".", label=label)]. *)
Record Line2D := mkLine2D {
  line_x : list Z;
  line_y : list Z;
  line_label : string
}.

Global Instance Line2D_eq_dec : EqDecision Line2D.
Proof. solve_decision. Defined.

(** [Series.cumsum()] *)
Fixpoint cumsum_from (acc : Z) (xs : list Z) : list Z :=
  match xs with
  | [] => []
  | x :: xs' => (acc + x) :: cumsum_from (acc + x) xs'
  end.

Definition cumsum (xs : list Z) : list Z := cumsum_from 0 xs.

(** The body of the loop past the import: the line of one month. *)
Definition cumulative_line (df : DataFrame) (exercise year_month : string) : Line2D :=
  (* filter for specified exercise *)
  let df_filtered :=
    filter (λ r : gmap string Cell, r !!! "exercise" = VStr exercise) (rows df) in
  (* get totals for each day, then cumulative sum to get running total *)
  let day_totals :=
    (λ kg : Timestamp * list (gmap string Cell), (kg.1, sum_col "count" kg.2))
      <$> groupby_date df_filtered in
  (* get isolated "day" column *)
  mkLine2D (ts_day <$> day_totals.*1) (cumsum day_totals.*2) year_month.

(** [int(s)] on a piece of a label: the labels are made of decimal digits
    and hyphens, on which [int] is [decimal]. *)
Definition py_int (s : string) : PlotError + Z :=
  match decimal s with
  | Some n => inr n
  | None => inl (InvalidLiteral s)
  end.

(** The loop over the months. *)
Fixpoint plot_months (pd : Pandas) (doc : gmap string (list Table)) (exercise : string)
    (monthlist : list string) : list Warning * (PlotError + list Line2D) :=
  match monthlist with
  | [] => ([], inr [])
  | year_month :: rest =>
      (* split e.g. "2024-10" on hyphen *)
      match split_on "-" year_month with
      | [] => ([], inl (PlotRaised IndexError))
      | y :: split_rest =>
          match py_int y with
          | inl e => ([], inl e)
          | inr year =>
              match split_rest with
              | [] => ([], inl (PlotRaised IndexError))
              | m :: _ =>
                  match py_int m with
                  | inl e => ([], inl e)
                  | inr month =>
                      (* import data for e.g. "2024-10" *)
                      match import_month pd doc year month with
                      | (ws, inl e) => (ws, inl (PlotRaised e))
                      | (ws, inr df) =>
                          let line := cumulative_line df exercise year_month in
                          match plot_months pd doc exercise rest with
                          | (ws', inl e) => (ws ++ ws', inl e)
                          | (ws', inr lines) => (ws ++ ws', inr (line :: lines))
                          end
                      end
                  end
              end
          end
      end
  end.

(** [date_range_MS start end] stands for
    [pd.date_range(start=start, end=end, freq="MS")] on two dates written
    as text, [None] when it raises. *)
Definition cumsum_exercise_plot (pd : Pandas)
    (date_range_MS : string → string → option (list Timestamp))
    (doc : gmap string (list Table)) (exercise : string) (kwargs : Kwargs)
  : list Warning * (PlotError + list Line2D) :=
  (* making sure that either month is specified, or both startmonth and
     endmonth, but not both *)
  if decide (is_Some (kw_month kwargs) ∧
             (is_Some (kw_startmonth kwargs) ∨ is_Some (kw_endmonth kwargs)))
  then ([], inl MonthAlongsideRange)
  else if decide (kw_month kwargs = None ∧
                  (kw_startmonth kwargs = None ∨ kw_endmonth kwargs = None))
  then ([], inl MonthOrRangeMissing)
  else
    (* get lists of month(s), formatted as e.g. "2024-10" *)
    match kw_month kwargs, kw_startmonth kwargs, kw_endmonth kwargs with
    | Some (year, month), _, _ =>
        (* list containing the single month *)
        plot_months pd doc exercise [pretty year +:+ "-" +:+ pretty month]
    | None, Some (startyear, startmonth), Some (endyear, endmonth) =>
        (* get full dates, for pandas use *)
        let startdate := pretty startyear +:+ "-" +:+ pretty startmonth +:+ "-01" in
        let enddate := pretty endyear +:+ "-" +:+ pretty endmonth +:+ "-01" in
        (* list containing all sheetnames in specified range *)
        match date_range_MS startdate enddate with
        | Some months => plot_months pd doc exercise (strftime "%Y-%m" <$> months)
        | None => ([], inl DateRangeError)
        end
    | None, _, _ => ([], inl MonthOrRangeMissing)
    end.

(** * Properties *)

(** ** Columns of a table *)

Lemma length_get_col col df : length (get_col col df) = length (rows df).
Proof. unfold get_col. by rewrite length_fmap. Qed.

Lemma rows_set_col col vals df :
  rows (set_col col vals df) =
  zip_with (λ (r : gmap string Cell) (v : Cell), <[col := v]> r) (rows df) vals.
Proof. reflexivity. Qed.

Lemma length_rows_set_col col vals df :
  length vals = length (rows df) →
  length (rows (set_col col vals df)) = length (rows df).
Proof. intros Hlen. rewrite rows_set_col, length_zip_with. lia. Qed.

Lemma get_col_set_col_eq col vals df :
  length vals = length (rows df) → get_col col (set_col col vals df) = vals.
Proof.
  unfold get_col. rewrite rows_set_col.
  generalize (rows df). intros rs. revert vals.
  induction rs as [|r rs IH]; intros [|v vals] Hlen; simplify_eq/=; [done|].
  by rewrite lookup_total_insert_eq, IH.
Qed.

Lemma get_col_set_col_ne c col vals df :
  c ≠ col → length vals = length (rows df) →
  get_col c (set_col col vals df) = get_col c df.
Proof.
  intros Hne. unfold get_col. rewrite rows_set_col.
  generalize (rows df). intros rs. revert vals.
  induction rs as [|r rs IH]; intros [|v vals] Hlen; simplify_eq/=; [done|].
  by rewrite lookup_total_insert_ne, IH.
Qed.

Lemma elem_of_columns_set_col c col vals df :
  c ∈ columns df → c ∈ columns (set_col col vals df).
Proof.
  intros Hc. unfold set_col; simpl. case_decide; [done|].
  apply elem_of_app; by left.
Qed.

Lemma set_col_get_col col df :
  col ∈ columns df →
  Forall (λ r : gmap string Cell, is_Some (r !! col)) (rows df) →
  set_col col (get_col col df) df = df.
Proof.
  intros Hc Hrows. destruct df as [cols rs]. unfold set_col, get_col; simpl in *.
  rewrite decide_True by done. f_equal.
  induction Hrows as [|r rs [v Hv] _ IH]; [done|].
  rewrite fmap_cons. cbn [zip_with]. rewrite IH. f_equal. apply insert_id.
  by rewrite lookup_total_alt, Hv.
Qed.

Lemma req_in_columns df c :
  col_names_req ⊆ list_to_set (C := gset string) (columns df) →
  c ∈ col_names_req → c ∈ columns df.
Proof. intros Hsub Hc. apply Hsub in Hc. by apply elem_of_list_to_set in Hc. Qed.

(** ** Forward fill and casts *)

Lemma length_ffill_from last col : length (ffill_from last col) = length col.
Proof. revert last. induction col as [|c col IH]; intros last; simpl; [done|]. by rewrite IH. Qed.

Lemma length_ffill col : length (ffill col) = length col.
Proof. apply length_ffill_from. Qed.

Lemma ffill_from_present last col :
  existsb isna col = false → ffill_from last col = col.
Proof.
  revert last. induction col as [|c col IH]; intros last Hna; simpl in *; [done|].
  apply orb_false_iff in Hna as [Hc Hcol]. rewrite Hc. by rewrite IH.
Qed.

Lemma ffill_present col : existsb isna col = false → ffill col = col.
Proof. apply ffill_from_present. Qed.

(** The first row has no source to fill from. *)
Lemma ffill_first_absent col : head col = Some NA → head (ffill col) = Some NA.
Proof. destruct col as [|c col]; simpl; [done|]. by intros [= ->]. Qed.

(** After the fill a cell is absent only if every cell above it was. *)
Lemma ffill_from_cells last col c :
  c ∈ ffill_from last col → c = last ∨ (c ∈ col ∧ c ≠ NA).
Proof.
  revert last. induction col as [|x col IH]; intros last; simpl.
  - by intros ?%elem_of_nil.
  - intros [->|Hc]%elem_of_cons.
    + destruct x; simpl; auto; right; (split; [left|done]).
    + apply IH in Hc as [->|[Hc Hna]].
      * destruct x; simpl; auto; right; (split; [left|done]).
      * right. split; [by right|done].
Qed.

Lemma elem_of_ffill_from last col c :
  c ∈ col → c ≠ NA → c ∈ ffill_from last col.
Proof.
  revert last. induction col as [|x col IH]; intros last; simpl.
  - by intros ?%elem_of_nil.
  - intros [->|Hc]%elem_of_cons Hna.
    + destruct x; try done; left.
    + right. by apply IH.
Qed.

Section CleanFacts.

Context (pd : Pandas).

Lemma to_datetime_is_Some col :
  is_Some (to_datetime pd col) ↔ Forall (λ c, is_Some (to_datetime_cell pd c)) col.
Proof.
  unfold to_datetime. by rewrite mapM_is_Some.
Qed.

Lemma to_datetime_ffill col :
  is_Some (to_datetime pd (ffill col)) ↔ is_Some (to_datetime pd col).
Proof.
  rewrite !to_datetime_is_Some, !Forall_forall. split; intros H c Hc.
  - destruct (decide (c = NA)) as [->|Hna]; [by eexists|].
    apply H. by apply elem_of_ffill_from.
  - apply ffill_from_cells in Hc as [->|[Hc _]]; [by eexists|by apply H].
Qed.

Lemma to_datetime_typed col :
  Forall (λ c, c = NA ∨ ∃ t, c = VTime t) col → to_datetime pd col = Some col.
Proof.
  intros Hcol. apply mapM_Some. induction Hcol as [|c col Hc _ IH]; constructor; [|done].
  by destruct Hc as [->|[t ->]].
Qed.

Lemma to_datetime_cells col col' :
  to_datetime pd col = Some col' → Forall (λ c, c = NA ∨ ∃ t, c = VTime t) col'.
Proof.
  intros H%mapM_Some. induction H as [|c c' col col' Hc _ IH]; constructor; [|done].
  destruct c; simpl in Hc; simplify_option_eq; eauto.
Qed.

Lemma astype_int_typed col :
  Forall (λ c, ∃ n, c = VInt n) col → astype_int pd col = Some col.
Proof.
  intros Hcol. apply mapM_Some. induction Hcol as [|c col Hc _ IH]; constructor; [|done].
  by destruct Hc as [n ->].
Qed.

Lemma astype_int_cells col col' :
  astype_int pd col = Some col' → Forall (λ c, ∃ n, c = VInt n) col'.
Proof.
  intros H%mapM_Some. induction H as [|c c' col col' Hc _ IH]; constructor; [|done].
  destruct c; simpl in Hc; simplify_option_eq; eauto.
Qed.

End CleanFacts.

(** ** The monad *)

Lemma bind_run {A B} (m : M A) (k : A → M B) w :
  (m ≫= k) w =
  match m w with
  | (w', inr a) => k a w'
  | (w', inl e) => (w', inl e)
  end.
Proof. reflexivity. Qed.

Lemma getitem_run col w :
  col ∈ columns (frame w) → getitem col w = (w, inr (get_col col (frame w))).
Proof.
  intros Hc. unfold getitem. rewrite bind_run. simpl.
  by rewrite decide_True.
Qed.

Lemma setitem_run col vals w :
  setitem col vals w = (mkWorld (set_col col vals (frame w)) (warned w), inr tt).
Proof. reflexivity. Qed.

Lemma check_columns_existence_run df ws :
  check_columns_existence (mkWorld df ws) =
  (mkWorld df (ws ++ warnings_of df),
   if decide (col_names_req ⊆ list_to_set (C := gset string) (columns df))
   then inr tt
   else inl (RequiredColumnMissing (col_names_req ∖ list_to_set (columns df)))).
Proof.
  unfold check_columns_existence, warnings_of.
  rewrite bind_run. simpl. rewrite bind_run.
  destruct (decide (list_to_set (columns df) ⊆ col_names_req)); simpl;
    rewrite ?app_nil_r; by case_decide.
Qed.

Lemma missing_required_iff df :
  missing_required df ↔
  ¬ col_names_req ⊆ list_to_set (C := gset string) (columns df).
Proof.
  unfold missing_required. split.
  - intros (c & Hc & Hnc) Hsub. apply Hnc. by eapply req_in_columns.
  - intros Hsub.
    destruct (decide (Forall (λ c, c ∈ columns df) (elements col_names_req)))
      as [Hall|Hex].
    + exfalso. apply Hsub. intros c Hc.
      apply elem_of_list_to_set. rewrite Forall_forall in Hall.
      apply Hall. by apply elem_of_elements.
    + apply not_Forall_Exists in Hex; [|apply _].
      apply Exists_exists in Hex as (c & Hc & Hnc).
      exists c. split; [by apply elem_of_elements in Hc|done].
Qed.

Lemma has_extraneous_iff df :
  has_extraneous df ↔
  ¬ list_to_set (C := gset string) (columns df) ⊆ col_names_req.
Proof.
  unfold has_extraneous. split.
  - intros (c & Hc & Hnc) Hsub. apply Hnc, Hsub. by apply elem_of_list_to_set.
  - intros Hsub.
    destruct (decide (Forall (λ c, c ∈ col_names_req) (columns df))) as [Hall|Hex].
    + exfalso. apply Hsub. intros c Hc%elem_of_list_to_set.
      rewrite Forall_forall in Hall. by apply Hall.
    + apply not_Forall_Exists in Hex; [|apply _].
      apply Exists_exists in Hex as (c & Hc & Hnc). by exists c.
Qed.

Section CleanRun.

Context (pd : Pandas).

Lemma clean_exercise_sheet_unfold df ws :
  clean_exercise_sheet pd (mkWorld df ws) =
  let ws' := ws ++ warnings_of df in
  let col_names : gset string := list_to_set (columns df) in
  if decide (col_names_req ⊆ col_names) then
    if existsb isna (get_col "time" df) then (mkWorld df ws', inl (MissingValues "time"))
    else if existsb isna (get_col "count" df) then (mkWorld df ws', inl (MissingValues "count"))
    else
      let df1 := filled df in
      match to_datetime pd (get_col "date" df1) with
      | None => (mkWorld df1 ws', inl (CannotParseDatetime "date"))
      | Some d' =>
          let df2 := set_col "date" d' df1 in
          match to_datetime pd (get_col "time" df2) with
          | None => (mkWorld df2 ws', inl (CannotParseDatetime "time"))
          | Some t' =>
              let df3 := set_col "time" t' df2 in
              match astype_int pd (get_col "count" df3) with
              | None => (mkWorld df3 ws', inl CannotCastCount)
              | Some c' => (mkWorld (set_col "count" c' df3) ws', inr tt)
              end
          end
      end
  else (mkWorld df ws', inl (RequiredColumnMissing (col_names_req ∖ col_names))).
Proof.
  unfold clean_exercise_sheet.
  rewrite bind_run, check_columns_existence_run.
  case_decide as Hreq; simpl; [|done].
  assert (Hin : ∀ c, c ∈ col_names_req → c ∈ columns df)
    by (intros; by eapply req_in_columns).
  assert (Hd : "date" ∈ columns df) by (apply Hin; set_solver).
  assert (Ht : "time" ∈ columns df) by (apply Hin; set_solver).
  assert (Hl : "location" ∈ columns df) by (apply Hin; set_solver).
  assert (He : "exercise" ∈ columns df) by (apply Hin; set_solver).
  assert (Hc : "count" ∈ columns df) by (apply Hin; set_solver).
  rewrite !bind_run, getitem_run by done. simpl.
  destruct (existsb isna (get_col "time" df)); simpl; [done|].
  rewrite !bind_run, getitem_run by done. simpl.
  destruct (existsb isna (get_col "count" df)); simpl; [done|].
  rewrite ?bind_run. simpl.
  do 3 (rewrite ?bind_run, getitem_run by done; cbn [frame warned]).
  do 3 (rewrite ?bind_run, setitem_run; cbn [frame warned]).
  fold (filled df).
  assert (Hin' : ∀ c, c ∈ col_names_req → c ∈ columns (filled df)).
  { intros c Hc'. unfold filled. auto using elem_of_columns_set_col. }
  rewrite ?bind_run. cbn [for_each]. rewrite ?bind_run.
  rewrite getitem_run by (apply Hin'; set_solver). cbn [frame warned].
  destruct (to_datetime pd (get_col "date" (filled df))) as [d'|]; [|done].
  rewrite setitem_run. cbn [frame warned].
  rewrite ?bind_run, getitem_run
    by (apply elem_of_columns_set_col, Hin'; set_solver). cbn [frame warned].
  destruct (to_datetime pd _) as [t'|]; [|done].
  rewrite setitem_run. cbn [frame warned ret].
  rewrite ?bind_run, getitem_run
    by (do 2 apply elem_of_columns_set_col; apply Hin'; set_solver).
  cbn [frame warned].
  by destruct (astype_int pd _).
Qed.

Lemma length_rows_filled df : length (rows (filled df)) = length (rows df).
Proof.
  unfold filled.
  rewrite !length_rows_set_col;
    rewrite ?length_ffill, ?length_get_col, ?length_rows_set_col;
    rewrite ?length_ffill, ?length_get_col, ?length_rows_set_col;
    rewrite ?length_ffill, ?length_get_col; done.
Qed.

Lemma get_col_filled col df :
  get_col col (filled df) =
  if decide (col ∈ fill_columns) then ffill (get_col col df) else get_col col df.
Proof.
  assert (H1 : length (ffill (get_col "date" df)) = length (rows df))
    by by rewrite length_ffill, length_get_col.
  assert (H2 : length (ffill (get_col "location" df)) =
               length (rows (set_col "date" (ffill (get_col "date" df)) df)))
    by by rewrite length_ffill, length_get_col, length_rows_set_col.
  assert (H3 : length (ffill (get_col "exercise" df)) =
               length (rows (set_col "location" (ffill (get_col "location" df))
                               (set_col "date" (ffill (get_col "date" df)) df))))
    by by rewrite length_ffill, length_get_col, !length_rows_set_col.
  unfold filled, fill_columns.
  destruct (decide (col = "exercise")) as [->|Hne1].
  { rewrite get_col_set_col_eq by done. by rewrite decide_True by compute_done. }
  rewrite get_col_set_col_ne by done.
  destruct (decide (col = "location")) as [->|Hne2].
  { rewrite get_col_set_col_eq by done. by rewrite decide_True by compute_done. }
  rewrite get_col_set_col_ne by done.
  destruct (decide (col = "date")) as [->|Hne3].
  { rewrite get_col_set_col_eq by done. by rewrite decide_True by compute_done. }
  rewrite get_col_set_col_ne by done.
  by rewrite decide_False by (rewrite !elem_of_cons, elem_of_nil; naive_solver).
Qed.

(** What validation does to a table, in terms of the table's own columns. *)
Lemma clean_exercise_sheet_run df ws :
  clean_exercise_sheet pd (mkWorld df ws) =
  let ws' := ws ++ warnings_of df in
  if decide (col_names_req ⊆ list_to_set (C := gset string) (columns df)) then
    if existsb isna (get_col "time" df) then (mkWorld df ws', inl (MissingValues "time"))
    else if existsb isna (get_col "count" df) then (mkWorld df ws', inl (MissingValues "count"))
    else
      match to_datetime pd (ffill (get_col "date" df)) with
      | None => (mkWorld (filled df) ws', inl (CannotParseDatetime "date"))
      | Some d' =>
          match to_datetime pd (get_col "time" df) with
          | None => (mkWorld (set_col "date" d' (filled df)) ws',
                     inl (CannotParseDatetime "time"))
          | Some t' =>
              match astype_int pd (get_col "count" df) with
              | None => (mkWorld (set_col "time" t' (set_col "date" d' (filled df))) ws',
                         inl CannotCastCount)
              | Some c' => (mkWorld (cleaned df d' t' c') ws', inr tt)
              end
          end
      end
  else (mkWorld df ws',
        inl (RequiredColumnMissing (col_names_req ∖ list_to_set (columns df)))).
Proof.
  rewrite clean_exercise_sheet_unfold. cbv zeta.
  case_decide; [|done].
  destruct (existsb isna (get_col "time" df)); [done|].
  destruct (existsb isna (get_col "count" df)); [done|].
  rewrite (get_col_filled "date"), decide_True by compute_done.
  destruct (to_datetime pd (ffill (get_col "date" df))) as [d'|] eqn:Hd; [|done].
  assert (Hlen1 : length d' = length (rows (filled df))).
  { apply length_mapM in Hd. by rewrite <- Hd, length_ffill, length_get_col, length_rows_filled. }
  rewrite get_col_set_col_ne by done.
  rewrite (get_col_filled "time"), decide_False by compute_done.
  destruct (to_datetime pd (get_col "time" df)) as [t'|] eqn:Ht; [|done].
  assert (Hlen2 : length t' = length (rows (set_col "date" d' (filled df)))).
  { apply length_mapM in Ht.
    by rewrite <- Ht, length_get_col, length_rows_set_col, length_rows_filled. }
  rewrite !get_col_set_col_ne by done.
  rewrite (get_col_filled "count"), decide_False by compute_done.
  done.
Qed.

End CleanRun.

(** ** The record validator *)

Section Validator.

Context (pd : Pandas).

Lemma warned_clean_exercise_sheet df ws :
  warned (clean_exercise_sheet pd (mkWorld df ws)).1 = ws ++ warnings_of df.
Proof. rewrite clean_exercise_sheet_run. cbv zeta. by repeat case_match. Qed.

Lemma clean_exercise_sheet_schema_error df ws :
  (∃ missing, (clean_exercise_sheet pd (mkWorld df ws)).2 =
                inl (RequiredColumnMissing missing))
  ↔ ¬ col_names_req ⊆ list_to_set (C := gset string) (columns df).
Proof.
  rewrite clean_exercise_sheet_run. cbv zeta. case_decide as Hreq.
  - split; [|done]. intros [missing Hm]. exfalso. revert Hm.
    repeat (case_match; simpl; try done).
  - split; [done|]. intros _. by eexists.
Qed.

(** C5.  Validation fails with the missing-column error exactly when one of
    the five required columns is missing; the column check itself passes
    exactly when none is; a column beyond the five only adds the
    extraneous-column warning. *)
Theorem validate_fails_exactly_on_missing_column df :
  ((∃ missing, (run (clean_exercise_sheet pd) df).2 = inl (RequiredColumnMissing missing))
     ↔ missing_required df) ∧
  ((run check_columns_existence df).2 = inr tt ↔ ¬ missing_required df) ∧
  (warned (run (clean_exercise_sheet pd) df).1 = [] ↔ ¬ has_extraneous df) ∧
  (has_extraneous df →
   warned (run (clean_exercise_sheet pd) df).1 =
     [ExtraneousColumns (list_to_set (columns df) ∖ col_names_req)]).
Proof.
  unfold run. rewrite warned_clean_exercise_sheet, check_columns_existence_run.
  rewrite missing_required_iff, has_extraneous_iff.
  split_and!.
  - apply clean_exercise_sheet_schema_error.
  - simpl. case_decide as Hreq; split; try done. by intros _ Hn.
  - unfold warnings_of. simpl. case_decide as Hsub; split; try done. by intros _ Hn.
  - intros Hex. unfold warnings_of. simpl. by rewrite decide_False.
Qed.

Lemma get_col_cleaned col df d' t' c' :
  length d' = length (rows df) → length t' = length (rows df) →
  length c' = length (rows df) →
  get_col col (cleaned df d' t' c') =
  if decide (col = "count") then c'
  else if decide (col = "time") then t'
  else if decide (col = "date") then d'
  else if decide (col ∈ fill_columns) then ffill (get_col col df)
  else get_col col df.
Proof.
  intros Hd Ht Hc. unfold cleaned.
  assert (H1 : length d' = length (rows (filled df)))
    by by rewrite length_rows_filled.
  assert (H2 : length t' = length (rows (set_col "date" d' (filled df))))
    by by rewrite length_rows_set_col, length_rows_filled.
  assert (H3 : length c' = length (rows (set_col "time" t' (set_col "date" d' (filled df)))))
    by by rewrite !length_rows_set_col, length_rows_filled.
  case_decide as Hn1; [subst; by rewrite get_col_set_col_eq|].
  rewrite get_col_set_col_ne by done.
  case_decide as Hn2; [subst; by rewrite get_col_set_col_eq|].
  rewrite get_col_set_col_ne by done.
  case_decide as Hn3; [subst; by rewrite get_col_set_col_eq|].
  rewrite get_col_set_col_ne by done.
  apply get_col_filled.
Qed.

Lemma length_rows_cleaned df d' t' c' :
  length d' = length (rows df) → length t' = length (rows df) →
  length c' = length (rows df) →
  length (rows (cleaned df d' t' c')) = length (rows df).
Proof.
  intros Hd Ht Hc. unfold cleaned.
  assert (H1 : length (rows (set_col "date" d' (filled df))) = length (rows df))
    by (rewrite length_rows_set_col; rewrite length_rows_filled; done).
  assert (H2 : length (rows (set_col "time" t' (set_col "date" d' (filled df))))
               = length (rows df))
    by (rewrite length_rows_set_col; congruence).
  rewrite length_rows_set_col; congruence.
Qed.

Lemma clean_exercise_sheet_outcome df ws :
  clean_outcome pd df (frame (clean_exercise_sheet pd (mkWorld df ws)).1)
    (clean_exercise_sheet pd (mkWorld df ws)).2.
Proof.
  rewrite clean_exercise_sheet_run. cbv zeta.
  case_decide as Hreq; [|by constructor].
  destruct (existsb isna (get_col "time" df)) eqn:Ht; [constructor; auto|].
  destruct (existsb isna (get_col "count" df)) eqn:Hc; [constructor; auto|].
  destruct (to_datetime pd (ffill _)) as [d'|] eqn:Hd; [|by constructor].
  destruct (to_datetime pd (get_col "time" df)) as [t'|] eqn:Htt; [|by constructor].
  destruct (astype_int pd _) as [c'|] eqn:Hcc; by constructor.
Qed.

Lemma length_to_datetime col col' :
  to_datetime pd col = Some col' → length col' = length col.
Proof. intros H%length_mapM. done. Qed.

Lemma length_astype_int col col' :
  astype_int pd col = Some col' → length col' = length col.
Proof. intros H%length_mapM. done. Qed.

Lemma clean_outcome_lengths df d' t' c' :
  to_datetime pd (ffill (get_col "date" df)) = Some d' →
  to_datetime pd (get_col "time" df) = Some t' →
  astype_int pd (get_col "count" df) = Some c' →
  length d' = length (rows df) ∧ length t' = length (rows df) ∧
  length c' = length (rows df).
Proof.
  intros Hd%length_to_datetime Ht%length_to_datetime Hc%length_astype_int.
  rewrite length_ffill, length_get_col in Hd. by rewrite length_get_col in Ht, Hc.
Qed.

(** C7, as the code has it.  The validator works in place on the table it
    is handed: after a successful run that table holds the forward-filled
    location and exercise columns and the cast date, time and count
    columns.  It leaves the table as it was when it fails on a missing
    column or on an absent time or count; it never touches a column other
    than the five, nor the number of rows. *)
Theorem validate_updates_table_in_place df :
  let w := (run (clean_exercise_sheet pd) df).1 in
  let r := (run (clean_exercise_sheet pd) df).2 in
  (∀ col, col ∉ col_names_req → get_col col (frame w) = get_col col df) ∧
  length (rows (frame w)) = length (rows df) ∧
  (∀ e, r = inl e →
        (∃ missing, e = RequiredColumnMissing missing) ∨ (∃ col, e = MissingValues col) →
        frame w = df) ∧
  (r = inr tt →
   get_col "location" (frame w) = ffill (get_col "location" df) ∧
   get_col "exercise" (frame w) = ffill (get_col "exercise" df) ∧
   to_datetime pd (ffill (get_col "date" df)) = Some (get_col "date" (frame w)) ∧
   to_datetime pd (get_col "time" df) = Some (get_col "time" (frame w)) ∧
   astype_int pd (get_col "count" df) = Some (get_col "count" (frame w))).
Proof.
  cbv zeta. unfold run.
  pose proof (clean_exercise_sheet_outcome df []) as Hout.
  destruct (clean_exercise_sheet pd (mkWorld df [])) as [[df' ws] r].
  simpl in *.
  assert (Hfilled : ∀ col, col ∉ col_names_req →
            get_col col (filled df) = get_col col df).
  { intros col Hcol. rewrite get_col_filled. rewrite decide_False; [done|].
    intros Hin. apply Hcol. unfold fill_columns in Hin. set_solver. }
  inversion Hout as [missing Hreq|col Hreq Hcol Hna|Hd|d' Hd Ht|d' t' Hd Ht Hc
                    |d' t' c' Hreq Hnt Hnc Hd Ht Hc]; subst.
  - split_and!; try done.
  - split_and!; try done.
  - pose proof (length_rows_filled df).
    split_and!; try done. intros e [= <-] [[? ?]|[? ?]]; done.
  - apply length_to_datetime in Hd as Hld.
    rewrite length_ffill, length_get_col, <- (length_rows_filled df) in Hld.
    split_and!; try done.
    + intros col Hcol. rewrite get_col_set_col_ne; [by apply Hfilled|set_solver|done].
    + rewrite length_rows_set_col by done. apply length_rows_filled.
    + intros e [= <-] [[? ?]|[? ?]]; done.
  - apply length_to_datetime in Hd as Hld. apply length_to_datetime in Ht as Hlt.
    rewrite length_ffill, length_get_col, <- (length_rows_filled df) in Hld.
    rewrite length_get_col, <- (length_rows_filled df) in Hlt.
    assert (length (rows (set_col "date" d' (filled df))) = length (rows (filled df)))
      as Hl1 by by apply length_rows_set_col.
    split_and!; try done.
    + intros col Hcol.
      rewrite !get_col_set_col_ne; [by apply Hfilled|set_solver|done|set_solver|congruence].
    + rewrite length_rows_set_col by congruence. rewrite Hl1. apply length_rows_filled.
    + intros e [= <-] [[? ?]|[? ?]]; done.
  - destruct (clean_outcome_lengths df d' t' c') as (Hld & Hlt & Hlc); [done..|].
    split_and!.
    + intros col Hcol. rewrite get_col_cleaned by done.
      rewrite !decide_False; [done|unfold fill_columns|..]; set_solver.
    + by apply length_rows_cleaned.
    + done.
    + intros _. rewrite !get_col_cleaned by done. simpl. done.
Qed.

(** C9, as the code has it.  When the first row has no date, location or
    exercise, the forward fill has nothing to fill it from and the value
    stays absent; validation does not fail for that: it succeeds exactly
    when the five columns are there, no time or count is absent and every
    date, time and count converts (an absent date converts, to not-a-time;
    location and exercise are not converted at all), and the validated
    table still has the absent value in its first row. *)
Theorem first_row_absent_persists df col :
  col ∈ fill_columns →
  head (get_col col df) = Some NA →
  head (ffill (get_col col df)) = Some NA ∧
  ((run (clean_exercise_sheet pd) df).2 = inr tt ↔
     ¬ missing_required df ∧
     existsb isna (get_col "time" df) = false ∧
     existsb isna (get_col "count" df) = false ∧
     Forall (datetime_like pd) (get_col "date" df) ∧
     Forall (datetime_like pd) (get_col "time" df) ∧
     Forall (int_like pd) (get_col "count" df)) ∧
  ((run (clean_exercise_sheet pd) df).2 = inr tt →
   head (get_col col (frame (run (clean_exercise_sheet pd) df).1)) = Some NA).
Proof.
  intros Hcol Hhead. split; [by apply ffill_first_absent|].
  unfold run.
  pose proof (clean_exercise_sheet_outcome df []) as Hout.
  destruct (clean_exercise_sheet pd (mkWorld df [])) as [[df' ws] r].
  simpl in *. rewrite missing_required_iff.
  assert (Hconv : ∀ c, is_Some (to_datetime pd (ffill c)) ↔ Forall (datetime_like pd) c).
  { intros c. rewrite to_datetime_ffill. apply to_datetime_is_Some. }
  assert (Hconv' : ∀ c, is_Some (to_datetime pd c) ↔ Forall (datetime_like pd) c).
  { intros c. apply to_datetime_is_Some. }
  assert (Hint : ∀ c, is_Some (astype_int pd c) ↔ Forall (int_like pd) c).
  { intros c. unfold astype_int. by rewrite mapM_is_Some. }
  split.
  - split.
    + intros ->. inversion Hout as [| | | | |d' t' c' Hreq Hnt Hnc Hd Ht Hc]; subst.
      split_and!; try done.
      * by intros Hn.
      * apply Hconv. by eexists.
      * apply Hconv'. by eexists.
      * apply Hint. by eexists.
    + intros (Hreq & Hnt & Hnc & Hd%Hconv & Ht%Hconv' & Hc%Hint).
      destruct Hd as [d' Hd], Ht as [t' Ht], Hc as [c' Hc].
      inversion Hout as [|? ? [->| ->]| | | |]; subst; try done; congruence.
  - intros ->. inversion Hout as [| | | | |d' t' c' Hreq Hnt Hnc Hd Ht Hc]; subst.
    destruct (clean_outcome_lengths df d' t' c') as (Hld & Hlt & Hlc); [done..|].
    rewrite get_col_cleaned by done.
    unfold fill_columns in Hcol.
    apply elem_of_cons in Hcol as [->|Hcol].
    { simpl. apply mapM_Some in Hd.
      destruct (get_col "date" df) as [|c0 cs]; simplify_eq/=.
      inversion Hd as [|???? Hc0 _]; subst. by simplify_eq/=. }
    apply elem_of_cons in Hcol as [->|Hcol]; [by apply ffill_first_absent|].
    apply elem_of_cons in Hcol as [->|Hcol]; [by apply ffill_first_absent|].
    by apply elem_of_nil in Hcol.
Qed.

End Validator.

(** C7, counterexample.  A table whose second row leaves the date to the
    forward fill validates, and is not the same table afterwards. *)
Lemma validate_changes_the_table :
  (run (clean_exercise_sheet pandas_ref) sheet_with_gap).2 = inr tt ∧
  frame (run (clean_exercise_sheet pandas_ref) sheet_with_gap).1 ≠ sheet_with_gap.
Proof.
  split; compute_done.
Qed.

(** C9, counterexample.  A table whose first row has no location
    validates. *)
Lemma absent_first_location_validates :
  head (get_col "location" sheet_without_first_location) = Some NA ∧
  (run (clean_exercise_sheet pandas_ref) sheet_without_first_location).2 = inr tt.
Proof. split; compute_done. Qed.

Lemma first_row_absent_persists_witness :
  head (get_col "location"
          (frame (run (clean_exercise_sheet pandas_ref)
                      sheet_without_first_location).1)) = Some NA.
Proof.
  apply (first_row_absent_persists pandas_ref sheet_without_first_location "location").
  - compute_done.
  - compute_done.
  - compute_done.
Defined.

(** ** Distinct values *)

Lemma fmap_eq_nil {A B} (f : A → B) (l : list A) : f <$> l = [] ↔ l = [].
Proof. by destruct l. Qed.

Lemma elem_of_unique `{EqDecision A} (l : list A) x : x ∈ unique l ↔ x ∈ l.
Proof.
  induction l as [|y l IH]; simpl; [done|].
  rewrite !elem_of_cons, list_elem_of_filter, IH.
  destruct (decide (x = y)); naive_solver.
Qed.

Lemma unique_all_equal `{EqDecision A} (l : list A) x :
  Forall (λ y, y = x) l → filter (λ y, y ≠ x) (unique l) = [].
Proof.
  intros Hall. destruct (filter _ _) as [|y k] eqn:Hf; [done|].
  assert (Hy : y ∈ filter (λ y, y ≠ x) (unique l)) by (rewrite Hf; left).
  apply list_elem_of_filter in Hy as [Hne Hy]. rewrite elem_of_unique in Hy.
  rewrite Forall_forall in Hall. by apply Hall in Hy.
Qed.

(** The three ways a column can meet the check [len(vals) > 1 or vals[0] != wanted]. *)
Lemma unique_cases `{EqDecision A} (l : list A) (wanted : A) :
  (l = [] ∧ unique l = []) ∨
  (l ≠ [] ∧ Forall (λ y, y = wanted) l ∧ unique l = [wanted]) ∨
  (l ≠ [] ∧ ¬ Forall (λ y, y = wanted) l ∧
   ((1 < length (unique l))%nat ∨ ∃ v, unique l = [v] ∧ v ≠ wanted)).
Proof.
  destruct l as [|x l]; [by left|]. right. simpl.
  destruct (decide (Forall (λ y, y = wanted) (x :: l))) as [Hall|Hnall].
  - left. split; [done|]. split; [done|].
    apply Forall_cons in Hall as [-> Hall]. by rewrite unique_all_equal.
  - right. split; [done|]. split; [done|].
    destruct (filter (λ y, y ≠ x) (unique l)) as [|y k] eqn:Hf.
    + right. exists x. split; [done|]. intros ->. apply Hnall.
      constructor; [done|]. apply Forall_forall. intros y Hy.
      destruct (decide (y = wanted)) as [|Hne]; [done|]. exfalso.
      eapply filter_nil_not_elem_of; [exact Hf|exact Hne|by apply elem_of_unique].
    + left. simpl. lia.
Qed.

(** ** The month loader *)

Section Loader.

Context (pd : Pandas).

Lemma get_col_nil_iff col df : get_col col df = [] ↔ rows df = [].
Proof. unfold get_col. by rewrite fmap_eq_nil. Qed.

Lemma check_step (vals : list (option Z)) wanted err (rest : Error + unit) :
  (if decide (1 < length (unique vals))%nat then inl err
   else v ← index0 (unique vals);
        if decide (v ≠ Some wanted) then inl err else rest) =
  match vals with
  | [] => inl IndexError
  | _ => if decide (Forall (λ y, y = Some wanted) vals) then rest else inl err
  end.
Proof.
  destruct (unique_cases vals (Some wanted))
    as [[-> Hu]|[(Hne & Hall & Hu)|(Hne & Hnall & Hu)]].
  - done.
  - rewrite Hu. destruct vals; [done|]. simpl.
    rewrite (decide_True (P := Forall _ _)) by done.
    by rewrite decide_False by (by intros ?).
  - destruct vals as [|x vals]; [done|].
    rewrite (decide_False (P := Forall _ _)) by done.
    destruct Hu as [Hlen|(v & Hv & Hvne)].
    + by rewrite decide_True.
    + rewrite Hv. simpl. by rewrite decide_True.
Qed.

Lemma check_field_cases field wanted err df :
  (rows df = [] ∧ check_field field wanted err df = inl IndexError) ∨
  (rows df ≠ [] ∧
   Forall (λ r : gmap string Cell,
             dt field (r !!! "date") = Some wanted ∧
             dt field (r !!! "time") = Some wanted) (rows df) ∧
   check_field field wanted err df = inr tt) ∨
  (rows df ≠ [] ∧
   ¬ Forall (λ r : gmap string Cell,
               dt field (r !!! "date") = Some wanted ∧
               dt field (r !!! "time") = Some wanted) (rows df) ∧
   check_field field wanted err df = inl err).
Proof.
  unfold check_field. cbn [foldr]. rewrite !check_step.
  assert (Hcol : ∀ col, Forall (λ y, y = Some wanted) (dt field <$> get_col col df) ↔
                        Forall (λ r : gmap string Cell, dt field (r !!! col) = Some wanted)
                               (rows df)).
  { intros col. unfold get_col. by rewrite !Forall_fmap. }
  assert (HP : Forall (λ r : gmap string Cell,
                         dt field (r !!! "date") = Some wanted ∧
                         dt field (r !!! "time") = Some wanted) (rows df) ↔
               Forall (λ y, y = Some wanted) (dt field <$> get_col "date" df) ∧
               Forall (λ y, y = Some wanted) (dt field <$> get_col "time" df)).
  { by rewrite !Hcol, <- Forall_and. }
  unfold get_col in *.
  destruct (rows df) as [|r rs]; [by left|]. right.
  rewrite !fmap_cons in *.
  case_decide as Hd; [case_decide as Ht|].
  - left. split; [done|]. split; [by apply HP|done].
  - right. split; [done|]. split; [|done]. intros [_ ?]%HP. done.
  - right. split; [done|]. split; [|done]. intros [? _]%HP. done.
Qed.

(** The outcome of the loader once the sheet has been validated. *)
Lemma import_month_checked doc year month monthname ws df :
  month_name month = Some monthname →
  import_exercise_sheet pd doc (sheet_name year monthname) = (ws, inr df) →
  import_month pd doc year month =
  (ws,
   if decide (rows df = []) then inl IndexError
   else if decide (Forall (λ r : gmap string Cell,
                             dt ts_year (r !!! "date") = Some year ∧
                             dt ts_year (r !!! "time") = Some year) (rows df))
   then if decide (Forall (λ r : gmap string Cell,
                             dt ts_month (r !!! "date") = Some month ∧
                             dt ts_month (r !!! "time") = Some month) (rows df))
        then inr df else inl OutsideDesiredMonth
   else inl OutsideDesiredYear).
Proof.
  intros Hname Himp. unfold import_month. rewrite Hname, Himp. f_equal.
  unfold mbind, Result_bind, mret, Result_ret.
  destruct (check_field_cases ts_year year OutsideDesiredYear df)
    as [[Hnil ->]|[(Hne & Hall & ->)|(Hne & Hnall & ->)]].
  - by rewrite decide_True.
  - rewrite decide_False, decide_True by done.
    destruct (check_field_cases ts_month month OutsideDesiredMonth df)
      as [[Hnil' ->]|[(Hne' & Hall' & ->)|(Hne' & Hnall' & ->)]]; [done|..].
    + by rewrite decide_True.
    + by rewrite decide_False.
  - by rewrite decide_False, decide_False.
Qed.

Lemma import_month_inr doc year month ws df :
  import_month pd doc year month = (ws, inr df) →
  ∃ monthname, month_name month = Some monthname ∧
    import_exercise_sheet pd doc (sheet_name year monthname) = (ws, inr df).
Proof.
  unfold import_month. destruct (month_name month) as [monthname|]; [|done].
  destruct (import_exercise_sheet _ _ _) as [ws' [e|df']] eqn:Himp; [done|].
  intros [= <- H]. exists monthname. split; [done|].
  unfold mbind, Result_bind, mret, Result_ret in H.
  destruct (check_field _ _ _ _); [done|].
  destruct (check_field _ _ _ _); [done|]. by simplify_eq.
Qed.

Lemma row_in_month_Forall year month rs :
  Forall (row_in_month year month) rs ↔
  Forall (λ r : gmap string Cell,
            dt ts_year (r !!! "date") = Some year ∧
            dt ts_year (r !!! "time") = Some year) rs ∧
  Forall (λ r : gmap string Cell,
            dt ts_month (r !!! "date") = Some month ∧
            dt ts_month (r !!! "time") = Some month) rs.
Proof. unfold row_in_month. by rewrite Forall_and. Qed.

Lemma import_month_success doc year month ws df :
  import_month pd doc year month = (ws, inr df) →
  rows df ≠ [] ∧ Forall (row_in_month year month) (rows df).
Proof.
  intros Himp. destruct (import_month_inr _ _ _ _ _ Himp) as (mn & Hname & Hsheet).
  rewrite (import_month_checked _ _ _ _ _ _ Hname Hsheet) in Himp.
  rewrite row_in_month_Forall.
  repeat case_decide; simplify_eq. done.
Qed.

(** C4.  Once the sheet has been validated, the loader fails with the
    month-mismatch error as soon as one record has its date or its time
    outside the requested year and month, whatever the other records; and
    it returns a record set only if every record's date and time are in
    that year and month. *)
Theorem import_month_rejects_any_outsider doc year month :
  (∀ monthname ws df,
     month_name month = Some monthname →
     import_exercise_sheet pd doc (sheet_name year monthname) = (ws, inr df) →
     (∃ r, r ∈ rows df ∧ ¬ row_in_month year month r) →
     (import_month pd doc year month).2 = inl OutsideDesiredYear ∨
     (import_month pd doc year month).2 = inl OutsideDesiredMonth) ∧
  (∀ df, (import_month pd doc year month).2 = inr df →
         Forall (row_in_month year month) (rows df)).
Proof.
  split.
  - intros monthname ws df Hname Hsheet (r & Hr & Hout).
    rewrite (import_month_checked _ _ _ _ _ _ Hname Hsheet). simpl.
    rewrite decide_False by (intros Hnil; rewrite Hnil in Hr; by apply elem_of_nil in Hr).
    case_decide as Hy; [|by left]. case_decide as Hm; [|by right].
    exfalso. apply Hout.
    assert (Hall : Forall (row_in_month year month) (rows df))
      by by apply row_in_month_Forall.
    rewrite Forall_forall in Hall. by apply Hall.
  - intros df Himp. destruct (import_month pd doc year month) as [ws r] eqn:Heq.
    simpl in Himp. subst r. by apply import_month_success in Heq as [_ ?].
Qed.

Lemma blank_row_lookup (hdr : list string) (cells : list Cell) c :
  Forall (λ v, v = NA) cells →
  (list_to_map (M := gmap string Cell) (zip hdr cells)) !!! c = NA.
Proof.
  intros Hall. rewrite lookup_total_alt.
  destruct (list_to_map (zip hdr cells) !! c) as [v|] eqn:Hv; [|done].
  apply elem_of_list_to_map_2 in Hv. apply elem_of_zip_r in Hv.
  rewrite Forall_forall in Hall. by apply Hall.
Qed.

Lemma dropna_rows_blank t :
  Forall (Forall (λ v, v = NA)) (body t) →
  rows (dropna_rows (frame_of_table t)) = [].
Proof.
  intros Hall. unfold dropna_rows, frame_of_table. simpl.
  induction Hall as [|cells b Hcells _ IH]; [done|].
  rewrite fmap_cons, filter_cons_False; [done|].
  intros Hf. apply not_true_iff_false in Hf. apply Hf.
  apply forallb_forall. intros c _.
  by rewrite blank_row_lookup.
Qed.

Lemma columns_dropna_columns_blank df :
  rows df = [] → columns (dropna_columns df) = [].
Proof.
  intros Hnil. unfold dropna_columns. simpl. rewrite Hnil. simpl.
  induction (columns df) as [|c cs IH]; [done|].
  by rewrite filter_cons_False.
Qed.

(** A sheet whose data rows are all empty loses every column and fails the
    column check. *)
Lemma import_exercise_sheet_blank doc sheetname t :
  doc !! sheetname = Some [t] →
  Forall (Forall (λ v, v = NA)) (body t) →
  ∃ ws missing,
    import_exercise_sheet pd doc sheetname = (ws, inl (RequiredColumnMissing missing)).
Proof.
  intros Hdoc Hblank. unfold import_exercise_sheet. rewrite Hdoc.
  rewrite clean_exercise_sheet_run. cbv zeta.
  rewrite columns_dropna_columns_blank by by apply dropna_rows_blank.
  rewrite decide_False; [by eexists _, _|].
  intros Hsub. assert ("date" ∈ col_names_req) as Hd%Hsub by set_solver.
  set_solver.
Qed.

(** C10.  The loader never returns an empty record set: whatever it
    returns has a record; on a sheet whose data rows are all empty it
    fails; and on a validated table with no record its check of the years
    fails on the first element of an empty collection. *)
Theorem import_month_never_returns_empty doc year month :
  (∀ df, (import_month pd doc year month).2 = inr df → rows df ≠ []) ∧
  (∀ monthname t,
     month_name month = Some monthname →
     doc !! sheet_name year monthname = Some [t] →
     Forall (Forall (λ v, v = NA)) (body t) →
     ∃ e, (import_month pd doc year month).2 = inl e) ∧
  (∀ df, rows df = [] →
         check_field ts_year year OutsideDesiredYear df = inl IndexError).
Proof.
  split_and!.
  - intros df Himp. destruct (import_month pd doc year month) as [ws r] eqn:Heq.
    simpl in Himp. subst r. by apply import_month_success in Heq as [? _].
  - intros monthname t Hname Hdoc Hblank.
    destruct (import_exercise_sheet_blank _ _ _ Hdoc Hblank) as (ws & missing & Himp).
    unfold import_month. rewrite Hname, Himp. by eexists.
  - intros df Hnil.
    destruct (check_field_cases ts_year year OutsideDesiredYear df)
      as [[_ ->]|[(Hne & _)|(Hne & _)]]; done.
Qed.

End Loader.

Lemma import_month_rejects_any_outsider_witness :
  (import_month pandas_ref misfiled_doc 2024 11).2 = inl OutsideDesiredYear ∨
  (import_month pandas_ref misfiled_doc 2024 11).2 = inl OutsideDesiredMonth.
Proof.
  apply (proj1 (import_month_rejects_any_outsider pandas_ref misfiled_doc 2024 11)
           "November" [] misfiled_frame).
  - reflexivity.
  - compute_done.
  - exists october_record. split; [|compute_done].
    apply list_elem_of_lookup. by exists 1%nat.
Defined.

Lemma import_month_never_returns_empty_witness :
  ∃ e, (import_month pandas_ref blank_doc 2024 11).2 = inl e.
Proof.
  apply (proj1 (proj2 (import_month_never_returns_empty pandas_ref blank_doc 2024 11))
           "November" (mkTable five_columns [ [NA; NA; NA; NA; NA]; [NA; NA; NA; NA; NA] ])).
  - reflexivity.
  - compute_done.
  - repeat constructor.
Defined.

(** ** The projection *)

Section Projection.

Context (pd : Pandas).

(** C6.  On the data of the current month the projection returns, for the
    pace assuming no further reps today, the quotient of
    [goal_total - month_total] by [days_in_month - day], and for the pace
    as of this morning the quotient of
    [goal_total - (month_total - today_total)] by
    [days_in_month - (day - 1)], where [month_total] and [today_total] are
    the exercise's totals over the month and over today; for a goal of 300,
    100 so far this month, 10 so far today and day 10 of 30 both are
    exactly 10. *)
Theorem projection_paces doc today exercise goal_total :
  (∀ ws df days_in_month,
     import_month pd doc (ts_year today) (ts_month today) = (ws, inr df) →
     VStr exercise ∈ get_col "exercise" df →
     monthrange (ts_year today) (ts_month today) = inr days_in_month →
     let month_total :=
       sum_col "count"
         (filter (λ r : gmap string Cell, r !!! "exercise" = VStr exercise) (rows df)) in
     let today_total :=
       sum_col "count"
         (filter (λ r : gmap string Cell,
                    dt ts_day (r !!! "date") = Some (ts_day today) ∧
                    r !!! "exercise" = VStr exercise) (rows df)) in
     exercise_projection pd doc today exercise goal_total =
     (ws, inr (mkProjection today_total month_total
                 (true_divide (goal_total - (month_total - today_total))
                              (days_in_month - (ts_day today - 1)))
                 (true_divide (goal_total - month_total)
                              (days_in_month - ts_day today))))) ∧
  true_divide (300 - 100) (30 - 10) = Finite (Qc_of_Z 10) ∧
  true_divide (300 - (100 - 10)) (30 - (10 - 1)) = Finite (Qc_of_Z 10).
Proof.
  split_and!.
  - intros ws df days_in_month Himp Hex Hdays. cbv zeta.
    unfold exercise_projection. rewrite Himp, Hdays.
    rewrite decide_True by by apply elem_of_unique.
    by rewrite list_filter_filter.
  - compute_done.
  - compute_done.
Qed.

End Projection.

Lemma projection_paces_witness :
  exercise_projection pandas_ref november_doc (date 2024 11 10) "pushups" 300 =
  ([], inr (mkProjection 10 100 (Finite (Qc_of_Z 10)) (Finite (Qc_of_Z 10)))).
Proof.
  etransitivity.
  - apply (proj1 (projection_paces pandas_ref november_doc (date 2024 11 10)
                    "pushups" 300) [] november_frame 30).
    + compute_done.
    + apply list_elem_of_lookup. by exists 0%nat.
    + reflexivity.
  - compute_done.
Defined.

(** ** The stratifier: validated tables *)

Section Normalized.

Context (pd : Pandas).

Lemma normalized_row_cells r :
  normalized_row r →
  (∃ d, r !!! "date" = VTime d ∧ valid_date d) ∧ (∃ t, r !!! "time" = VTime t) ∧
  (∃ l, r !!! "location" = VStr l) ∧ (∃ e, r !!! "exercise" = VStr e) ∧
  (∃ n, r !!! "count" = VInt n).
Proof.
  intros ((d & Hd & Hv) & (t & Ht) & (l & Hl) & (e & He) & (n & Hn)).
  rewrite !lookup_total_alt, Hd, Ht, Hl, He, Hn. naive_solver.
Qed.

Lemma normalized_set_col col df :
  col ∈ col_names_req → normalized df → set_col col (get_col col df) df = df.
Proof.
  intros Hcol [Hreq Hrows]. apply set_col_get_col; [by eapply req_in_columns|].
  eapply Forall_impl; [exact Hrows|].
  intros r ((d & Hd & Hv) & (t & Ht) & (l & Hl) & (e & He) & (n & Hn)).
  unfold col_names_req in Hcol.
  rewrite !elem_of_union, !elem_of_singleton in Hcol.
  destruct Hcol as [[[[->| ->]| ->]| ->]| ->]; by eexists.
Qed.

Lemma normalized_present col df :
  col ∈ col_names_req → normalized df → existsb isna (get_col col df) = false.
Proof.
  intros Hcol [_ Hrows]. unfold get_col.
  induction Hrows as [|r rs Hr _ IH]; [done|].
  rewrite fmap_cons. cbn [existsb]. rewrite IH, orb_false_r.
  apply normalized_row_cells in Hr
    as ((d & Hd & Hv) & (t & Ht) & (l & Hl) & (e & He) & (n & Hn)).
  unfold col_names_req in Hcol.
  rewrite !elem_of_union, !elem_of_singleton in Hcol.
  destruct Hcol as [[[[->| ->]| ->]| ->]| ->];
    by rewrite ?Hd, ?Ht, ?Hl, ?He, ?Hn.
Qed.

(** Validation leaves a normalized table as it is. *)
Lemma clean_exercise_sheet_normalized df ws :
  normalized df →
  clean_exercise_sheet pd (mkWorld df ws) = (mkWorld df (ws ++ warnings_of df), inr tt).
Proof.
  intros Hnorm. rewrite clean_exercise_sheet_run. cbv zeta.
  pose proof Hnorm as [Hreq Hrows].
  rewrite decide_True by done.
  rewrite !normalized_present by (done || set_solver).
  rewrite (ffill_present (get_col "date" df)) by (apply normalized_present; set_solver).
  rewrite to_datetime_typed; last first.
  { unfold get_col. apply Forall_fmap. eapply Forall_impl; [exact Hrows|].
    intros r Hr. simpl. apply normalized_row_cells in Hr as ((d & -> & _) & _). eauto. }
  rewrite to_datetime_typed; last first.
  { unfold get_col. apply Forall_fmap. eapply Forall_impl; [exact Hrows|].
    intros r Hr. simpl. apply normalized_row_cells in Hr as (_ & (t & ->) & _). eauto. }
  rewrite astype_int_typed; last first.
  { unfold get_col. apply Forall_fmap. eapply Forall_impl; [exact Hrows|].
    intros r Hr. simpl. apply normalized_row_cells in Hr as (_ & _ & _ & _ & (n & ->)). eauto. }
  do 2 f_equal. unfold cleaned, filled.
  rewrite !ffill_present by (apply normalized_present; set_solver).
  rewrite (normalized_set_col "date") by (done || set_solver).
  rewrite (normalized_set_col "location") by (done || set_solver).
  rewrite (normalized_set_col "exercise") by (done || set_solver).
  rewrite (normalized_set_col "date") by (done || set_solver).
  rewrite (normalized_set_col "time") by (done || set_solver).
  by rewrite (normalized_set_col "count") by (done || set_solver).
Qed.

End Normalized.

Section StratifierRun.

Context (pd : Pandas).

Lemma unique_singleton `{EqDecision A} (l : list A) x :
  l ≠ [] → Forall (λ y, y = x) l → unique l = [x].
Proof.
  intros Hne Hall.
  destruct (unique_cases l x) as [[? _]|[(_ & _ & ?)|(_ & ? & _)]]; done.
Qed.

Lemma lift_bind_run {A B} (r : Error + A) (k : A → M B) w :
  (lift r ≫= k) w =
  match r with
  | inr a => k a w
  | inl e => (w, inl e)
  end.
Proof. by destruct r. Qed.

(** The stratifier on a normalized table of one month that has the
    exercise: what is left once the checks have passed. *)
Lemma stratify_exercise_month_normalized df ws today exercise date_format year month :
  normalized df →
  dated_in_month year month df →
  VStr exercise ∈ get_col "exercise" df →
  stratify_exercise_month pd today exercise date_format (mkWorld df ws) =
  (mkWorld df (ws ++ warnings_of df),
   let per_day_dict :=
     group_by_day pd date_format
       (filter (λ r : gmap string Cell, r !!! "exercise" = VStr exercise) (rows df)) in
   n_sets_max ← py_max (length <$> (map_to_list per_day_dict).*2);
   day_range ← day_range_of today year month;
   mapM (nth_set_frame pd per_day_dict date_format (Some year) (Some month) day_range)
        (seq 0 n_sets_max)).
Proof.
  intros Hnorm Hdated Hex.
  assert (Hne : rows df ≠ []).
  { intros Hnil. unfold get_col in Hex. rewrite Hnil in Hex. by apply elem_of_nil in Hex. }
  pose proof Hnorm as [Hreq _].
  unfold stratify_exercise_month.
  rewrite bind_run, clean_exercise_sheet_normalized by done.
  rewrite bind_run, getitem_run by (eapply req_in_columns; [done|set_solver]).
  cbn [frame].
  assert (Hy : unique (dt ts_year <$> get_col "date" df) = [Some year]).
  { apply unique_singleton; [by rewrite fmap_eq_nil, get_col_nil_iff|].
    unfold get_col. rewrite <- list_fmap_compose. apply Forall_fmap.
    eapply Forall_impl; [exact Hdated|]. by intros r [? _]. }
  assert (Hm : unique (dt ts_month <$> get_col "date" df) = [Some month]).
  { apply unique_singleton; [by rewrite fmap_eq_nil, get_col_nil_iff|].
    unfold get_col. rewrite <- list_fmap_compose. apply Forall_fmap.
    eapply Forall_impl; [exact Hdated|]. by intros r [_ ?]. }
  rewrite Hy, Hm. cbn [length index0].
  rewrite decide_False by (intros [?|?]; done).
  rewrite bind_run. cbn [ret]. rewrite !lift_bind_run.
  rewrite bind_run, getitem_run by (eapply req_in_columns; [done|set_solver]).
  cbn [frame].
  rewrite (decide_True (P := VStr exercise ∈ _)) by by apply elem_of_unique.
  rewrite bind_run. cbn [ret]. rewrite bind_run. cbn [get_frame frame].
  rewrite lift_bind_run. cbv zeta.
  unfold day_range_of.
  destruct (py_max _) as [e|n_sets_max]; [done|]. cbn [mbind Result_bind].
  rewrite lift_bind_run.
  destruct (decide (Some month = Some (ts_month today) ∧ Some year = Some (ts_year today)))
    as [[[= Hm'] [= Hy']]|Hnot].
  - rewrite decide_True by done. done.
  - rewrite decide_False by (intros [-> ->]; by apply Hnot). simpl.
    by destruct (monthrange year month).
Qed.

End StratifierRun.

(** ** Sorting and grouping *)

Lemma fmap_lookup_total_seq `{Inhabited A} (l : list A) :
  (λ i, l !!! i) <$> seq 0 (length l) = l.
Proof.
  apply list_eq. intros i. rewrite list_lookup_fmap.
  destruct (decide (i < length l)%nat) as [Hlt|Hge].
  - rewrite lookup_seq_lt by done. simpl.
    destruct (lookup_lt_is_Some_2 l i Hlt) as [x Hx].
    by rewrite (list_lookup_total_correct _ _ _ Hx).
  - rewrite lookup_seq_ge by lia. simpl. symmetry. apply lookup_ge_None. lia.
Qed.

Lemma sum_col_Permutation col rs rs' : rs ≡ₚ rs' → sum_col col rs = sum_col col rs'.
Proof.
  intros Hp. unfold sum_col.
  induction Hp as [|x l l' _ IH|x y l|l l' l'' _ IH1 _ IH2];
    rewrite ?fmap_cons; cbn [foldr]; [done|by rewrite IH|lia|congruence].
Qed.

Section Sorting.

Context (pd : Pandas) (Hsort : sorts_descending pd).

Lemma sort_values_desc_Permutation col rs : sort_values_desc pd col rs ≡ₚ rs.
Proof.
  unfold sort_values_desc.
  destruct (Hsort ((λ r : gmap string Cell, cell_int (r !!! col)) <$> rs)) as [Hp _].
  rewrite Hp, length_fmap. by rewrite fmap_lookup_total_seq.
Qed.

Lemma length_sort_values_desc col rs : length (sort_values_desc pd col rs) = length rs.
Proof. by rewrite sort_values_desc_Permutation. Qed.

(** The keys of the sorted rows are in descending order. *)
Lemma sort_values_desc_Sorted col rs :
  Sorted (λ a b : Z, b ≤ a)
    ((λ r : gmap string Cell, cell_int (r !!! col)) <$> sort_values_desc pd col rs).
Proof.
  unfold sort_values_desc.
  destruct (Hsort ((λ r : gmap string Cell, cell_int (r !!! col)) <$> rs)) as [Hp Hs].
  rewrite <- list_fmap_compose.
  erewrite list_fmap_ext; [exact Hs|]. intros i x Hi. simpl.
  assert (Hx : (x < length rs)%nat).
  { assert (x ∈ seq 0 (length ((λ r : gmap string Cell, cell_int (r !!! col)) <$> rs)))
      as Hin by (rewrite <- Hp; by eapply list_elem_of_lookup_2).
    rewrite length_fmap in Hin. apply elem_of_seq in Hin. lia. }
  symmetry. by apply (list_lookup_total_fmap (λ r : gmap string Cell, cell_int (r !!! col))).
Qed.

End Sorting.

Lemma foldl_insert_lookup_None {K V} (f : K → string) (l : list (K * V))
    (acc : gmap string V) s :
  s ∉ f <$> l.*1 →
  foldl (λ d kv, <[f kv.1 := kv.2]> d) acc l !! s = acc !! s.
Proof.
  revert acc. induction l as [|[k v] l IH]; intros acc Hs; simpl in *; [done|].
  apply not_elem_of_cons in Hs as [Hne Hs].
  rewrite IH by done. by rewrite lookup_insert_ne.
Qed.

Lemma foldl_insert_lookup_Some {K V} (f : K → string) (l : list (K * V))
    (acc : gmap string V) k v :
  NoDup (f <$> l.*1) → (k, v) ∈ l →
  foldl (λ d kv, <[f kv.1 := kv.2]> d) acc l !! f k = Some v.
Proof.
  revert acc. induction l as [|[k' v'] l IH]; intros acc Hnd Hin; simpl in *.
  - by apply elem_of_nil in Hin.
  - apply NoDup_cons in Hnd as [Hfresh Hnd].
    apply elem_of_cons in Hin as [[= -> ->]|Hin].
    + rewrite foldl_insert_lookup_None by done. apply lookup_insert_eq.
    + by apply IH.
Qed.

Lemma groupby_date_fst rs :
  (groupby_date rs).*1 = merge_sort ts_le (unique (omap row_date rs)).
Proof.
  unfold groupby_date. rewrite <- list_fmap_compose.
  induction (merge_sort ts_le (unique (omap row_date rs))) as [|k ks IH]; [done|].
  rewrite fmap_cons. by f_equal.
Qed.

Lemma NoDup_unique `{EqDecision A} (l : list A) : NoDup (unique l).
Proof.
  induction l as [|x l IH]; simpl; [constructor|].
  constructor; [|by apply NoDup_filter].
  rewrite list_elem_of_filter. naive_solver.
Qed.

(** The groups of [groupby]: one per date that occurs, without repetition. *)
Lemma groupby_date_keys rs :
  NoDup (groupby_date rs).*1 ∧
  ∀ k, k ∈ (groupby_date rs).*1 ↔ ∃ r, r ∈ rs ∧ r !!! "date" = VTime k.
Proof.
  rewrite groupby_date_fst. split.
  - rewrite merge_sort_Permutation. apply NoDup_unique.
  - intros k. rewrite merge_sort_Permutation, elem_of_unique, list_elem_of_omap.
    unfold row_date. split; intros (r & Hr & Hk); exists r; split; try done.
    + by destruct (r !!! "date"); simplify_eq.
    + by rewrite Hk.
Qed.

Lemma groupby_date_elem_of rs k g :
  (k, g) ∈ groupby_date rs ↔
  k ∈ (groupby_date rs).*1 ∧
  g = filter (λ r : gmap string Cell, r !!! "date" = VTime k) rs.
Proof.
  rewrite groupby_date_fst. unfold groupby_date.
  rewrite list_elem_of_fmap. split.
  - intros (k' & [= -> ->] & Hk). done.
  - intros [Hk ->]. by exists k.
Qed.

(** ** Dates and their keys *)

Lemma string_app_cancel (s a b : string) : s +:+ a = s +:+ b → a = b.
Proof. induction s as [|c s IH]; simpl; [done|]. intros [= ?]. by apply IH. Qed.

Lemma NoDup_fmap_inj_on {A B} (f : A → B) (l : list A) x y :
  NoDup (f <$> l) → x ∈ l → y ∈ l → f x = f y → x = y.
Proof.
  intros Hnd [i Hi]%list_elem_of_lookup [j Hj]%list_elem_of_lookup Hxy.
  assert (i = j) as ->.
  { eapply NoDup_lookup; [exact Hnd|..].
    - by rewrite list_lookup_fmap, Hi.
    - by rewrite list_lookup_fmap, Hj, Hxy. }
  congruence.
Qed.

Lemma strftime_default t :
  strftime default_date_format t =
  pretty (ts_year t) +:+ String "-" (pad2 (ts_month t) +:+ String "-" (pad2 (ts_day t) +:+ "")).
Proof. reflexivity. Qed.

(** The default format tells the days of a month apart. *)
Lemma default_date_format_distinct year month :
  day_keys_distinct default_date_format year month.
Proof.
  intros d1 d2 Hd1 Hd2. rewrite !strftime_default. simpl.
  intros H%string_app_cancel. injection H as H.
  apply string_app_cancel in H. injection H as H.
  eapply (NoDup_fmap_inj_on (λ d, pad2 d +:+ "") (seqZ 1 31)); [|apply elem_of_seqZ; lia..|done].
  compute_done.
Qed.

Lemma monthrange_bounds year month ndays :
  monthrange year month = inr ndays → 1 ≤ month ≤ 12 ∧ 28 ≤ ndays ≤ 31.
Proof.
  unfold monthrange. case_decide as Hm; [|done]. intros [= <-]. split; [done|].
  assert (month = 1 ∨ month = 2 ∨ month = 3 ∨ month = 4 ∨ month = 5 ∨ month = 6 ∨
          month = 7 ∨ month = 8 ∨ month = 9 ∨ month = 10 ∨ month = 11 ∨ month = 12)
    as Hcases by lia.
  destruct_or!; subst; simpl; try lia. destruct (isleap year); lia.
Qed.

Lemma valid_date_inv t :
  valid_date t →
  ∃ ndays, monthrange (ts_year t) (ts_month t) = inr ndays ∧
    1 ≤ ts_year t ≤ 9999 ∧ 1 ≤ ts_day t ≤ ndays ∧
    t = date (ts_year t) (ts_month t) (ts_day t).
Proof.
  unfold valid_date, py_date.
  destruct (monthrange _ _) as [e|ndays]; [done|].
  case_decide as Hok; [|done]. intros [= Ht]. exists ndays. naive_solver.
Qed.

Lemma py_date_valid year month day ndays :
  monthrange year month = inr ndays → 1 ≤ year ≤ 9999 → 1 ≤ day ≤ ndays →
  py_date year month day = inr (date year month day).
Proof. intros Hm Hy Hd. unfold py_date. rewrite Hm. by rewrite decide_True. Qed.

(** The records of a normalized table of one month are dated on its days. *)
Lemma normalized_day_rows year month df :
  normalized df → dated_in_month year month df →
  Forall (day_row year month) (rows df) ∧
  (rows df ≠ [] → ∃ ndays, monthrange year month = inr ndays ∧ 1 ≤ year ≤ 9999).
Proof.
  intros [_ Hrows] Hdated. unfold dated_in_month in Hdated.
  assert (Hboth : Forall (λ r : gmap string Cell,
            ∃ d, r !!! "date" = VTime d ∧ valid_date d ∧
                 ts_year d = year ∧ ts_month d = month) (rows df)).
  { apply Forall_forall. intros r Hr.
    rewrite Forall_forall in Hrows, Hdated.
    destruct (normalized_row_cells r (Hrows r Hr)) as ((d & Hd & Hv) & _).
    destruct (Hdated r Hr) as [Hy Hm]. rewrite Hd in Hy, Hm. simpl in *.
    exists d. naive_solver. }
  split.
  - eapply Forall_impl; [exact Hboth|].
    intros r (d & Hd & Hv & <- & <-).
    destruct (valid_date_inv d Hv) as (ndays & Hm & Hy & Hday & Heq).
    apply monthrange_bounds in Hm as [_ ?].
    exists (ts_day d). split; [lia|]. by rewrite Hd, <- Heq.
  - intros Hne. destruct (rows df) as [|r rs]; [done|].
    apply Forall_cons in Hboth as [(d & Hd & Hv & <- & <-) _].
    destruct (valid_date_inv d Hv) as (ndays & Hm & Hy & _). eauto.
Qed.

Section DayLookup.

Context (pd : Pandas).

(** What the dict of the days holds under the key of a day. *)
Lemma group_by_day_lookup date_format rs year month d :
  day_keys_distinct date_format year month →
  Forall (day_row year month) rs →
  1 ≤ d ≤ 31 →
  group_by_day pd date_format rs !! strftime date_format (date year month d) =
  let g := filter (λ r : gmap string Cell, r !!! "date" = VTime (date year month d)) rs in
  if decide (g = []) then None else Some (sort_values_desc pd "count" g).
Proof.
  intros Hkeys Hrows Hd. cbv zeta. unfold group_by_day. rewrite lookup_fmap.
  destruct (groupby_date_keys rs) as [Hnd Hin].
  assert (Hdays : ∀ k, k ∈ (groupby_date rs).*1 →
            ∃ d', 1 ≤ d' ≤ 31 ∧ k = date year month d').
  { intros k (r & Hr & Hk)%Hin. rewrite Forall_forall in Hrows.
    destruct (Hrows r Hr) as (d' & Hd' & Hk'). exists d'. split; [done|]. congruence. }
  assert (Hnd' : NoDup (strftime date_format <$> (groupby_date rs).*1)).
  { apply NoDup_fmap_2_strong; [|done].
    intros k1 k2 (d1 & Hd1 & ->)%Hdays (d2 & Hd2 & ->)%Hdays Heq.
    f_equal. by apply Hkeys. }
  case_decide as Hg.
  - rewrite foldl_insert_lookup_None; [by rewrite lookup_empty|].
    intros (k & Heq & Hk)%list_elem_of_fmap.
    destruct (Hdays k Hk) as (d' & Hd' & ->).
    apply Hkeys in Heq; [|done..]. subst d'.
    apply Hin in Hk as (r & Hr & Hk).
    eapply filter_nil_not_elem_of; [exact Hg|exact Hk|exact Hr].
  - erewrite foldl_insert_lookup_Some; [done|done|].
    apply groupby_date_elem_of. split; [|done].
    apply Hin. destruct (filter _ rs) as [|r g] eqn:Hf; [done|].
    assert (r ∈ filter (λ r : gmap string Cell, r !!! "date" = VTime (date year month d)) rs)
      as Hr by (rewrite Hf; left).
    apply list_elem_of_filter in Hr as [Hk Hr]. eauto.
Qed.

(** Every key of the dict of the days is the key of a day. *)
Lemma group_by_day_lookup_inv date_format rs year month s g :
  Forall (day_row year month) rs →
  group_by_day pd date_format rs !! s = Some g →
  ∃ d, 1 ≤ d ≤ 31 ∧ s = strftime date_format (date year month d).
Proof.
  intros Hrows. unfold group_by_day. rewrite lookup_fmap. intros Hs.
  destruct (decide (s ∈ strftime date_format <$> (groupby_date rs).*1)) as [Hin|Hnin].
  - apply list_elem_of_fmap in Hin as (k & -> & Hk).
    apply groupby_date_keys in Hk as (r & Hr & Hk).
    rewrite Forall_forall in Hrows. destruct (Hrows r Hr) as (d & Hd & Hk').
    exists d. split; [done|]. congruence.
  - rewrite foldl_insert_lookup_None, lookup_empty in Hs by done. done.
Qed.

End DayLookup.

(** ** The stratifier: the series *)

Lemma mapM_inr {A B} (f : A → Error + B) (g : A → B) (l : list A) :
  (∀ x, x ∈ l → f x = inr (g x)) → mapM f l = inr (g <$> l).
Proof.
  induction l as [|x l IH]; intros Hf; [done|].
  cbn [mapM]. rewrite Hf by left. cbn [mbind Result_bind].
  rewrite IH by (intros y Hy; apply Hf; by right). done.
Qed.

Lemma mapM_inr_ext {A B} (f : A → Error + B) (l : list A) (k : list B) :
  Forall2 (λ x y, f x = inr y) l k → mapM f l = inr k.
Proof.
  induction 1 as [|x y l k Hxy _ IH]; [done|].
  cbn [mapM]. rewrite Hxy. cbn [mbind Result_bind]. by rewrite IH.
Qed.

(** Summing the ranks of a day gives back the day. *)
Lemma sum_nth_count g N :
  (length g ≤ N)%nat →
  sum_list_Z (nth_count g <$> seq 0 N) = sum_col "count" g.
Proof.
  unfold sum_list_Z, sum_col, nth_count. revert N.
  induction g as [|r g IH]; intros N Hlen.
  - simpl. clear Hlen. generalize 0%nat. induction N as [|N IH]; intros j; [done|].
    simpl. by rewrite IH.
  - destruct N as [|N]; [simpl in Hlen; lia|].
    cbn [seq]. rewrite !fmap_cons. cbn [foldr]. simpl (_ !! 0%nat). cbn [from_option].
    f_equal. rewrite <- fmap_S_seq, <- list_fmap_compose.
    rewrite <- (IH N) by (simpl in Hlen; lia). done.
Qed.

Lemma lookup_total_fmap_seqZ `{Inhabited A} (f : Z → A) n d :
  1 ≤ d ≤ n → (f <$> seqZ 1 n) !!! Z.to_nat (d - 1) = f d.
Proof.
  intros Hd. apply list_lookup_total_correct.
  rewrite list_lookup_fmap, lookup_seqZ_lt by (rewrite Z2Nat.id; lia).
  simpl. rewrite Z2Nat.id by lia. by replace (1 + (d - 1)) with d by lia.
Qed.

Lemma mapM_inr_Forall2 {A B} (f : A → Error + B) (P : A → B → Prop) (l : list A) :
  (∀ x, x ∈ l → ∃ y, f x = inr y ∧ P x y) →
  ∃ k, mapM f l = inr k ∧ Forall2 P l k.
Proof.
  induction l as [|x l IH]; intros Hf.
  - exists []. split; [done|constructor].
  - destruct (Hf x) as (y & Hy & HP); [left|].
    destruct IH as (k & Hk & HF); [intros z Hz; apply Hf; by right|].
    exists (y :: k). split; [|by constructor].
    cbn [mapM]. rewrite Hy. cbn [mbind Result_bind]. by rewrite Hk.
Qed.

Lemma lookup_total_two_cells (a b : Cell) :
  ({[ "date" := a; "count" := b ]} : gmap string Cell) !!! "count" = b ∧
  ({[ "date" := a; "count" := b ]} : gmap string Cell) !!! "date" = a.
Proof.
  split.
  - rewrite lookup_total_insert_ne by done. apply lookup_total_singleton_eq.
  - apply lookup_total_insert_eq.
Qed.

Section Series.

Context (pd : Pandas) (Hsort : sorts_descending pd).

Lemma sort_values_desc_nil col : sort_values_desc pd col [] = [].
Proof. apply Permutation_nil_r. by rewrite sort_values_desc_Permutation. Qed.

Lemma elem_of_day_sets df exercise day r :
  r ∈ day_sets pd df exercise day →
  r ∈ rows df ∧ r !!! "date" = VTime day ∧ r !!! "exercise" = VStr exercise.
Proof.
  unfold day_sets. rewrite sort_values_desc_Permutation by done.
  rewrite !list_elem_of_filter. naive_solver.
Qed.

(** The dict of the days, read at the key of a day and at a rank. *)
Lemma group_by_day_nth date_format df exercise year month d n :
  day_keys_distinct date_format year month →
  Forall (day_row year month) (rows df) →
  1 ≤ d ≤ 31 →
  group_by_day pd date_format
    (filter (λ r : gmap string Cell, r !!! "exercise" = VStr exercise) (rows df))
    !! strftime date_format (date year month d) ≫= (.!! n) =
  day_sets pd df exercise (date year month d) !! n.
Proof.
  intros Hkeys Hrows Hd.
  rewrite (group_by_day_lookup pd date_format _ year month d); [|done| |done].
  - cbv zeta. unfold day_sets. case_decide as Hg; [|done].
    rewrite Hg, sort_values_desc_nil. done.
  - apply Forall_forall. intros r [_ Hr]%list_elem_of_filter.
    rewrite Forall_forall in Hrows. by apply Hrows.
Qed.

End Series.

Section SeriesSpec.

Context (pd : Pandas) (Hsort : sorts_descending pd).

Lemma nth_set_of_day_valid (dict : gmap string (list (gmap string Cell)))
    date_format year month ndays n d :
  monthrange year month = inr ndays → 1 ≤ year ≤ 9999 → 1 ≤ d ≤ ndays →
  nth_set_of_day dict date_format (Some year) (Some month) n d =
  inr (match dict !! strftime date_format (date year month d) ≫= (.!! n) with
       | Some r => {[ "date" := r !!! "date"; "count" := r !!! "count" ]}
       | None => {[ "date" := VStr (strftime date_format (date year month d));
                    "count" := VInt 0 ]}
       end).
Proof.
  intros Hm Hy Hd. unfold nth_set_of_day.
  change (from_option inr (inl TypeError) (Some year)) with (inr (B := Z) (A := Error) year).
  change (from_option inr (inl TypeError) (Some month)) with (inr (B := Z) (A := Error) month).
  unfold mbind at 1 2, Result_bind.
  rewrite (py_date_valid _ _ _ ndays) by done. reflexivity.
Qed.

(** One frame of the stratifier: one row per day of the day range, holding
    the count of the set of rank [n] of that day, or 0. *)
Lemma nth_set_frame_spec date_format df exercise year month ndays day_range n :
  day_keys_distinct date_format year month →
  Forall (day_row year month) (rows df) →
  monthrange year month = inr ndays → 1 ≤ year ≤ 9999 → 1 ≤ day_range ≤ ndays →
  (∀ d, 1 ≤ d ≤ day_range →
        is_Some (parse_datetime pd (VStr (strftime date_format (date year month d))))) →
  ∃ s,
    nth_set_frame pd
      (group_by_day pd date_format
         (filter (λ r : gmap string Cell, r !!! "exercise" = VStr exercise) (rows df)))
      date_format (Some year) (Some month) day_range n = inr s ∧
    length (rows s) = Z.to_nat day_range ∧
    ∀ d, 1 ≤ d ≤ day_range →
         series_at s d = nth_count (day_sets pd df exercise (date year month d)) n.
Proof.
  intros Hkeys Hrows Hmonth Hyear Hrange Hparse.
  pose proof (monthrange_bounds _ _ _ Hmonth) as [_ Hnd].
  set (dict := group_by_day pd date_format _).
  set (row_of := λ d : Z,
         match day_sets pd df exercise (date year month d) !! n with
         | Some r => ({[ "date" := r !!! "date"; "count" := r !!! "count" ]}
                        : gmap string Cell)
         | None => {[ "date" := VStr (strftime date_format (date year month d));
                      "count" := VInt 0 ]}
         end).
  assert (Hreps : mapM (nth_set_of_day dict date_format (Some year) (Some month) n)
                       (seqZ 1 day_range) = inr (row_of <$> seqZ 1 day_range)).
  { apply mapM_inr. intros d Hd%elem_of_seqZ.
    rewrite (nth_set_of_day_valid _ _ _ _ ndays) by (done || lia).
    unfold dict. rewrite group_by_day_nth by (done || lia). done. }
  unfold nth_set_frame. rewrite Hreps. cbn [mbind Result_bind].
  assert (Hdf : match row_of <$> seqZ 1 day_range with
                | [] => empty_frame
                | _ :: _ => mkDataFrame ["date"; "count"] (row_of <$> seqZ 1 day_range)
                end = mkDataFrame ["date"; "count"] (row_of <$> seqZ 1 day_range)).
  { clear Hreps. destruct (row_of <$> seqZ 1 day_range) as [|r0 reps] eqn:Hrs; [|done].
    apply (f_equal length) in Hrs. rewrite length_fmap, length_seqZ in Hrs.
    simpl in Hrs. lia. }
  cbv zeta. rewrite Hdf. clear Hdf.
  set (df' := mkDataFrame ["date"; "count"] (row_of <$> seqZ 1 day_range)).
  rewrite decide_True by (unfold df'; simpl; set_solver).
  assert (Hdates : is_Some (to_datetime pd (get_col "date" df'))).
  { apply to_datetime_is_Some. unfold get_col, df'. simpl.
    rewrite <- list_fmap_compose. apply Forall_fmap, Forall_forall.
    intros d Hd%elem_of_seqZ. simpl. unfold row_of.
    destruct (day_sets pd df exercise (date year month d) !! n) as [r|] eqn:Hr.
    - rewrite (proj2 (lookup_total_two_cells _ _)).
      apply list_elem_of_lookup_2, elem_of_day_sets in Hr as (_ & -> & _); [|done].
      by eexists.
    - rewrite (proj2 (lookup_total_two_cells _ _)). simpl.
      destruct (Hparse d) as [t ->]; [lia|]. by eexists. }
  destruct Hdates as [dates Hdates]. rewrite Hdates.
  assert (Hlen : length dates = length (rows df')).
  { apply length_mapM in Hdates. by rewrite <- Hdates, length_get_col. }
  eexists. split; [done|]. split.
  - rewrite length_rows_set_col by done. unfold df'. simpl.
    by rewrite length_fmap, length_seqZ.
  - intros d Hd. unfold series_at.
    rewrite get_col_set_col_ne by done. unfold get_col, df'. simpl.
    rewrite <- list_fmap_compose.
    rewrite (lookup_total_fmap_seqZ _ day_range d) by done. simpl.
    unfold row_of, nth_count.
    destruct (day_sets pd df exercise (date year month d) !! n) as [r|]; simpl;
      by rewrite (proj1 (lookup_total_two_cells _ _)).
Qed.

(** The number of frames: the largest number of sets on a day. *)
Lemma n_sets_max_spec date_format df exercise year month :
  day_keys_distinct date_format year month →
  Forall (day_row year month) (rows df) →
  VStr exercise ∈ get_col "exercise" df →
  ∃ n_sets_max,
    py_max (length <$> (map_to_list
      (group_by_day pd date_format
         (filter (λ r : gmap string Cell, r !!! "exercise" = VStr exercise) (rows df)))).*2)
      = inr n_sets_max ∧
    (∀ d, 1 ≤ d ≤ 31 →
          (length (day_sets pd df exercise (date year month d)) ≤ n_sets_max)%nat) ∧
    (∃ d, 1 ≤ d ≤ 31 ∧
          length (day_sets pd df exercise (date year month d)) = n_sets_max).
Proof.
  intros Hkeys Hrows Hex.
  set (rs := filter _ (rows df)).
  set (dict := group_by_day pd date_format rs).
  assert (Hrs : Forall (day_row year month) rs).
  { apply Forall_forall. intros r [_ Hr]%list_elem_of_filter.
    rewrite Forall_forall in Hrows. by apply Hrows. }
  assert (Hlook : ∀ d, 1 ≤ d ≤ 31 →
            day_sets pd df exercise (date year month d) = [] ∨
            dict !! strftime date_format (date year month d) =
              Some (day_sets pd df exercise (date year month d))).
  { intros d Hd. unfold dict.
    rewrite (group_by_day_lookup pd date_format rs year month d) by done.
    cbv zeta. unfold day_sets. fold rs. case_decide as Hg; [|by right].
    left. rewrite Hg. by apply sort_values_desc_nil. }
  assert (Hin : ∀ d, 1 ≤ d ≤ 31 →
            day_sets pd df exercise (date year month d) ≠ [] →
            length (day_sets pd df exercise (date year month d)) ∈
              length <$> (map_to_list dict).*2).
  { intros d Hd Hne. destruct (Hlook d Hd) as [?|Hl]; [done|].
    apply list_elem_of_fmap_2, list_elem_of_fmap. eexists (_, _). split; [done|].
    by apply elem_of_map_to_list. }
  unfold get_col in Hex. apply list_elem_of_fmap in Hex as (r0 & Hr0 & Hin0).
  assert (Hr0' : r0 ∈ rs) by (apply list_elem_of_filter; by split).
  pose proof Hrs as Hrs'.
  rewrite Forall_forall in Hrs. destruct (Hrs r0 Hr0') as (d0 & Hd0 & Hdate0).
  assert (Hne0 : day_sets pd df exercise (date year month d0) ≠ []).
  { intros Hnil0.
    assert (Hnil : day_sets pd df exercise (date year month d0) ≡ₚ [])
      by by rewrite Hnil0.
    unfold day_sets in Hnil. rewrite sort_values_desc_Permutation in Hnil by done.
    apply Permutation_nil_r in Hnil.
    fold rs in Hnil. eapply filter_nil_not_elem_of; [exact Hnil|exact Hdate0|exact Hr0']. }
  assert (Hnonempty : length <$> (map_to_list dict).*2 ≠ []).
  { intros Hl. specialize (Hin d0 Hd0 Hne0). rewrite Hl in Hin.
    by apply elem_of_nil in Hin. }
  exists (max_list (length <$> (map_to_list dict).*2)). split; [|split].
  - unfold py_max. by destruct (length <$> (map_to_list dict).*2).
  - intros d Hd.
    destruct (decide (day_sets pd df exercise (date year month d) = [])) as [->|Hne];
      [simpl; lia|].
    by apply max_list_elem_of_le, Hin.
  - apply max_list_elem_of in Hnonempty.
    apply list_elem_of_fmap in Hnonempty as (g & Hg & Hgin).
    apply list_elem_of_fmap in Hgin as ([s g'] & -> & Hsg).
    apply elem_of_map_to_list in Hsg. simpl in Hg.
    destruct (group_by_day_lookup_inv pd date_format rs year month s g' Hrs' Hsg)
      as (d & Hd & ->).
    exists d. split; [done|]. rewrite Hg.
    destruct (Hlook d Hd) as [Hnil|Hl].
    + exfalso. unfold dict in Hsg.
      rewrite (group_by_day_lookup pd date_format rs year month d) in Hsg by done.
      cbv zeta in Hsg. case_decide as Hgd; [done|].
      apply Hgd. apply Permutation_nil_r.
      rewrite <- (sort_values_desc_Permutation pd Hsort "count").
      unfold day_sets in Hnil. fold rs in Hnil. by rewrite Hnil.
    + rewrite Hl in Hsg. by simplify_eq.
Qed.

End SeriesSpec.

Section Stratifier.

Context (pd : Pandas).

(** The day range is a number of days of the month of the data. *)
Lemma day_range_of_valid today year month ndays :
  valid_date today → monthrange year month = inr ndays →
  ∃ day_range, day_range_of today year month = inr day_range ∧ 1 ≤ day_range ≤ ndays.
Proof.
  intros Htoday Hm. unfold day_range_of. case_decide as Hcur.
  - destruct Hcur as [-> ->].
    destruct (valid_date_inv today Htoday) as (nd & Hnd & _ & Hday & _).
    rewrite Hm in Hnd. simplify_eq. eauto.
  - apply monthrange_bounds in Hm as Hb. exists ndays. split; [done|lia].
Qed.

(** What the stratifier returns on a normalized table of one month: one
    series per rank, each with one value per day of the day range, the
    value of rank [n] on a day being the count of the [n]-th of that day's
    sets in the sorted order, or 0. *)
Lemma stratify_series today df ws exercise date_format year month :
  sorts_descending pd →
  valid_date today →
  normalized df →
  dated_in_month year month df →
  VStr exercise ∈ get_col "exercise" df →
  day_keys_distinct date_format year month →
  (∀ d, 1 ≤ d ≤ 31 →
        is_Some (parse_datetime pd (VStr (strftime date_format (date year month d))))) →
  ∃ day_range series,
    day_range_of today year month = inr day_range ∧ 1 ≤ day_range ≤ 31 ∧
    stratify_exercise_month pd today exercise date_format (mkWorld df ws) =
      (mkWorld df (ws ++ warnings_of df), inr series) ∧
    (∀ d, 1 ≤ d ≤ 31 →
          (length (day_sets pd df exercise (date year month d)) ≤ length series)%nat) ∧
    (∃ d, 1 ≤ d ≤ 31 ∧
          length (day_sets pd df exercise (date year month d)) = length series) ∧
    Forall2 (λ n s,
               length (rows s) = Z.to_nat day_range ∧
               ∀ d, 1 ≤ d ≤ day_range →
                    series_at s d =
                    nth_count (day_sets pd df exercise (date year month d)) n)
            (seq 0 (length series)) series.
Proof.
  intros Hsort Htoday Hnorm Hdated Hex Hkeys Hparse.
  assert (Hne : rows df ≠ []).
  { intros Hnil. unfold get_col in Hex. rewrite Hnil in Hex. by apply elem_of_nil in Hex. }
  destruct (normalized_day_rows year month df Hnorm Hdated) as [Hrows Hmonth].
  destruct (Hmonth Hne) as (ndays & Hnd & Hyear).
  pose proof (monthrange_bounds _ _ _ Hnd) as [_ Hb].
  destruct (day_range_of_valid today year month ndays Htoday Hnd)
    as (day_range & Hdr & Hrange).
  destruct (n_sets_max_spec pd Hsort date_format df exercise year month Hkeys Hrows Hex)
    as (n_sets_max & Hmax & Hle & Hatt).
  destruct (mapM_inr_Forall2
              (nth_set_frame pd
                 (group_by_day pd date_format
                    (filter (λ r : gmap string Cell, r !!! "exercise" = VStr exercise)
                            (rows df)))
                 date_format (Some year) (Some month) day_range)
              (λ n s,
                 length (rows s) = Z.to_nat day_range ∧
                 ∀ d, 1 ≤ d ≤ day_range →
                      series_at s d =
                      nth_count (day_sets pd df exercise (date year month d)) n)
              (seq 0 n_sets_max)) as (series & Hseries & HF).
  { intros n _.
    apply (nth_set_frame_spec pd Hsort date_format df exercise year month ndays);
      try done. intros d Hd. apply Hparse. lia. }
  assert (Hlen : length series = n_sets_max).
  { apply Forall2_length in HF. by rewrite length_seq in HF. }
  exists day_range, series. split; [done|]. split; [lia|]. split; [|split; [|split]].
  - rewrite (stratify_exercise_month_normalized pd df ws today exercise date_format
               year month) by done.
    cbv zeta. rewrite Hmax, Hdr. cbn [mbind Result_bind]. by rewrite Hseries.
  - by rewrite Hlen.
  - by rewrite Hlen.
  - by rewrite Hlen.
Qed.

Lemma sum_series_at series g day_range d :
  Forall2 (λ n s,
             length (rows s) = Z.to_nat day_range ∧
             ∀ d, 1 ≤ d ≤ day_range → series_at s d = nth_count (g d) n)
          (seq 0 (length series)) series →
  1 ≤ d ≤ day_range →
  sum_list_Z ((λ s, series_at s d) <$> series) =
  sum_list_Z (nth_count (g d) <$> seq 0 (length series)).
Proof.
  intros HF Hd. f_equal. generalize dependent (seq 0 (length series)).
  intros ns HF. induction HF as [|n s ns ss [_ Hs] _ IH]; [done|].
  rewrite !fmap_cons. f_equal; [by apply Hs|done].
Qed.

(** C1.  On a normalized table of one month that has the exercise, the
    stratifier returns series that all have one value per day of the day
    range, and at each day of the range the values of all the series add up
    to the total logged for the exercise on that day.  The day range is the
    one the stratifier works out: today's day in the current month, the
    number of days of the month otherwise. *)
Theorem stratified_series_invariant today df exercise year month :
  sorts_descending pd →
  valid_date today →
  normalized df →
  dated_in_month year month df →
  VStr exercise ∈ get_col "exercise" df →
  (∀ d, 1 ≤ d ≤ 31 →
        is_Some (parse_datetime pd
                   (VStr (strftime default_date_format (date year month d))))) →
  ∃ day_range series,
    day_range_of today year month = inr day_range ∧
    (run (stratify_exercise_month pd today exercise default_date_format) df).2
      = inr series ∧
    Forall (λ s, Z.of_nat (length (rows s)) = day_range) series ∧
    ∀ d, 1 ≤ d ≤ day_range →
         sum_list_Z ((λ s, series_at s d) <$> series) =
         day_total df exercise (date year month d).
Proof.
  intros Hsort Htoday Hnorm Hdated Hex Hparse.
  destruct (stratify_series today df [] exercise default_date_format year month)
    as (day_range & series & Hdr & Hrange & Hrun & Hle & _ & HF); try done.
  { apply default_date_format_distinct. }
  exists day_range, series. split; [done|]. split; [unfold run; by rewrite Hrun|].
  split.
  - apply Forall_forall. intros s [i Hs]%list_elem_of_lookup.
    destruct (Forall2_lookup_r _ _ _ _ _ HF Hs) as (n & _ & Hlen & _).
    rewrite Hlen. lia.
  - intros d Hd.
    rewrite (sum_series_at series (λ d, day_sets pd df exercise (date year month d))
               day_range d) by done.
    rewrite sum_nth_count by (apply Hle; lia).
    unfold day_sets, day_total.
    rewrite (sum_col_Permutation _ _ _ (sort_values_desc_Permutation pd Hsort _ _)).
    by rewrite list_filter_filter.
Qed.

End Stratifier.

(** ** The reference instances meet the library's contract *)

Lemma insert_by_Permutation before x l : insert_by before x l ≡ₚ x :: l.
Proof.
  induction l as [|y l IH]; simpl; [done|].
  destruct (before y.2 x.2); [done|]. rewrite IH. apply Permutation_swap.
Qed.

Lemma foldr_insert_by_Permutation before l : foldr (insert_by before) [] l ≡ₚ l.
Proof.
  induction l as [|x l IH]; simpl; [done|].
  by rewrite insert_by_Permutation, IH.
Qed.

Lemma insert_by_Sorted (before : Z → Z → bool) x l :
  (∀ a b, before a b = true → a ≤ b) →
  (∀ a b, before a b = false → b ≤ a) →
  Sorted (λ p q : nat * Z, q.2 ≤ p.2) l →
  Sorted (λ p q : nat * Z, q.2 ≤ p.2) (insert_by before x l).
Proof.
  intros Ht Hf. induction 1 as [|y l Hs IH Hhd]; simpl.
  - by repeat constructor.
  - destruct (before y.2 x.2) eqn:Hb.
    + constructor; [by constructor|]. constructor. by apply Ht.
    + constructor; [done|]. destruct Hhd as [|z l Hz]; simpl.
      * constructor. by apply Hf.
      * destruct (before z.2 x.2); constructor; [by apply Hf|done].
Qed.

Lemma foldr_insert_by_Sorted (before : Z → Z → bool) l :
  (∀ a b, before a b = true → a ≤ b) →
  (∀ a b, before a b = false → b ≤ a) →
  Sorted (λ p q : nat * Z, q.2 ≤ p.2) (foldr (insert_by before) [] l).
Proof.
  intros Ht Hf. induction l as [|x l IH]; simpl; [constructor|].
  by apply insert_by_Sorted.
Qed.

Lemma argsort_by_sorts (before : Z → Z → bool) (keys : list Z) :
  (∀ a b, before a b = true → a ≤ b) →
  (∀ a b, before a b = false → b ≤ a) →
  argsort_by before keys ≡ₚ seq 0 (length keys) ∧
  Sorted (λ a b : Z, b ≤ a) ((λ i, keys !!! i) <$> argsort_by before keys).
Proof.
  intros Ht Hf. unfold argsort_by.
  set (S := foldr (insert_by before) [] (zip (seq 0 (length keys)) keys)).
  assert (Hp : S ≡ₚ zip (seq 0 (length keys)) keys)
    by apply foldr_insert_by_Permutation.
  split.
  - rewrite Hp. by rewrite fst_zip by (by rewrite length_seq).
  - assert (Hkeys : (λ i, keys !!! i) <$> S.*1 = S.*2).
    { rewrite <- list_fmap_compose. apply list_fmap_ext.
      intros j [i k] Hj. simpl.
      assert ((i, k) ∈ zip (seq 0 (length keys)) keys) as Hin
        by (rewrite <- Hp; by eapply list_elem_of_lookup_2).
      apply list_elem_of_lookup in Hin as [n Hn].
      apply lookup_zip_with_Some in Hn as (i' & k' & [= -> ->] & Hi & Hk).
      apply lookup_seq in Hi as [-> _]. simpl.
      by apply list_lookup_total_correct. }
    rewrite Hkeys. eapply Sorted_fmap; [|by apply foldr_insert_by_Sorted].
    by intros [] [].
Qed.

Lemma pandas_ref_sorts_descending : sorts_descending pandas_ref.
Proof.
  intros keys. apply argsort_by_sorts; intros a b; simpl; lia.
Qed.

Lemma pandas_rev_sorts_descending : sorts_descending pandas_rev.
Proof.
  intros keys. apply argsort_by_sorts; intros a b; simpl; lia.
Qed.

(** ** The order within a day *)

Lemma foldl_insert_lookup_elem {K V} (f : K → string) (l : list (K * V))
    (acc : gmap string V) s v :
  foldl (λ d kv, <[f kv.1 := kv.2]> d) acc l !! s = Some v →
  acc !! s = Some v ∨ ∃ k, (k, v) ∈ l ∧ f k = s.
Proof.
  revert acc. induction l as [|[k' v'] l IH]; intros acc Hs; simpl in *; [by left|].
  apply IH in Hs as [Hs|(k & Hin & Hk)].
  - apply lookup_insert_Some in Hs as [[<- <-]|[_ Hs]]; [|by left].
    right. exists k'. split; [left|done].
  - right. exists k. split; [by right|done].
Qed.

Global Instance Z_ge_trans : Transitive (λ a b : Z, b ≤ a).
Proof. intros a b c ??. lia. Qed.

Global Instance Z_ge_antisymm : AntiSymm (=) (λ a b : Z, b ≤ a).
Proof. intros a b ??. lia. Qed.

(** The counts in sorted order do not depend on the library's choice among
    equal counts. *)
Lemma sorted_counts_determined pd pd' rs :
  sorts_descending pd → sorts_descending pd' →
  counts (sort_values_desc pd "count" rs) = counts (sort_values_desc pd' "count" rs).
Proof.
  intros Hsort Hsort'. unfold counts.
  apply (Sorted_unique (λ a b : Z, b ≤ a)).
  - by apply sort_values_desc_Sorted.
  - by apply sort_values_desc_Sorted.
  - by rewrite !sort_values_desc_Permutation.
Qed.

(** C3, as the code has it.  Every day's group of the dict of the days is
    that day's filtered records, sorted by count in descending order.  The
    order among records of equal count is the library's choice (the sort is
    asked for with its default kind, which is not a stable one): with another
    library within the contract the group is a permutation of the same
    records with the same counts in the same places. *)
Theorem day_groups_sorted_descending pd date_format rs s g :
  sorts_descending pd →
  group_by_day pd date_format rs !! s = Some g →
  (∃ day, g ≡ₚ filter (λ r : gmap string Cell, r !!! "date" = VTime day) rs) ∧
  Sorted (λ a b : Z, b ≤ a) (counts g) ∧
  ∀ pd', sorts_descending pd' →
         ∃ g', group_by_day pd' date_format rs !! s = Some g' ∧
               g' ≡ₚ g ∧ counts g' = counts g.
Proof.
  intros Hsort. unfold group_by_day. rewrite lookup_fmap.
  destruct (foldl _ ∅ (groupby_date rs) !! s) as [g0|] eqn:Hs; [|done].
  intros [= <-]. pose proof Hs as Hs0.
  apply foldl_insert_lookup_elem in Hs as [Hs|(day & Hin & _)];
    [by rewrite lookup_empty in Hs|].
  apply groupby_date_elem_of in Hin as [_ ->].
  split_and!.
  - exists day. by apply sort_values_desc_Permutation.
  - by apply sort_values_desc_Sorted.
  - intros pd' Hsort'. eexists. split; [by rewrite lookup_fmap, Hs0|].
    split; [by rewrite !sort_values_desc_Permutation|].
    by apply sorted_counts_determined.
Qed.

(** C3, counterexample.  A library within the contract that puts the second
    of two sets of ten before the first. *)
Lemma equal_counts_may_swap :
  sorts_descending pandas_rev ∧
  group_by_day pandas_rev default_date_format [first_ten; second_ten] !! "2024-11-01"
    = Some [second_ten; first_ten] ∧
  first_ten ≠ second_ten.
Proof.
  split; [apply pandas_rev_sorts_descending|]. split; compute_done.
Qed.

Lemma day_groups_sorted_descending_witness :
  Sorted (λ a b : Z, b ≤ a) (counts [second_ten; first_ten]).
Proof.
  eapply (day_groups_sorted_descending pandas_rev default_date_format
            [first_ten; second_ten] "2024-11-01").
  - apply pandas_rev_sorts_descending.
  - compute_done.
Defined.

(** ** The stratifier on examples *)

Lemma record_normalized d t l e c :
  valid_date d → normalized_row (record d t l e c).
Proof.
  intros Hd. unfold normalized_row, record.
  split_and!; eexists; try (split; [|exact Hd]);
    rewrite ?lookup_insert_ne by done;
    first [apply lookup_insert_eq | apply lookup_singleton_eq].
Qed.

Lemma pushups_month_normalized : normalized pushups_month.
Proof.
  split; [compute_done|]. unfold pushups_month. cbn [rows].
  repeat (apply Forall_cons; split; [apply record_normalized; compute_done|]).
  apply Forall_nil. done.
Qed.

Lemma pushups_month_dated : dated_in_month 2024 11 pushups_month.
Proof. compute_done. Qed.

Lemma pushups_month_has_pushups : VStr "pushups" ∈ get_col "exercise" pushups_month.
Proof. apply list_elem_of_lookup. by exists 0%nat. Qed.

Lemma pandas_ref_parses_november d :
  1 ≤ d ≤ 31 →
  is_Some (parse_datetime pandas_ref
             (VStr (strftime default_date_format (date 2024 11 d)))).
Proof.
  intros Hd.
  assert (Hall : Forall (λ d, is_Some (parse_datetime pandas_ref
                    (VStr (strftime default_date_format (date 2024 11 d)))))
                   (seqZ 1 31)) by compute_done.
  rewrite Forall_forall in Hall. apply Hall, elem_of_seqZ. lia.
Qed.

Lemma stratified_series_invariant_witness :
  ∃ day_range series,
    day_range_of (date 2024 11 2) 2024 11 = inr day_range ∧
    (run (stratify_exercise_month pandas_ref (date 2024 11 2) "pushups"
            default_date_format) pushups_month).2 = inr series ∧
    Forall (λ s, Z.of_nat (length (rows s)) = day_range) series ∧
    ∀ d, 1 ≤ d ≤ day_range →
         sum_list_Z ((λ s, series_at s d) <$> series) =
         day_total pushups_month "pushups" (date 2024 11 d).
Proof.
  apply (stratified_series_invariant pandas_ref (date 2024 11 2) pushups_month
           "pushups" 2024 11).
  - apply pandas_ref_sorts_descending.
  - compute_done.
  - apply pushups_month_normalized.
  - apply pushups_month_dated.
  - apply pushups_month_has_pushups.
  - apply pandas_ref_parses_november.
Defined.

Lemma series_values s :
  length (rows s) = 2%nat →
  cell_int <$> get_col "count" s = [series_at s 1; series_at s 2].
Proof.
  intros Hlen. unfold series_at. rewrite <- length_get_col with (col := "count") in Hlen.
  by destruct (get_col "count" s) as [|x [|y [|z l]]].
Qed.

Lemma nth_count_counts g n : nth_count g n = from_option id 0 (counts g !! n).
Proof.
  unfold nth_count, counts. rewrite list_lookup_fmap. by destruct (g !! n).
Qed.

Section Examples.

Context (pd : Pandas) (Hsort : sorts_descending pd).

Lemma nth_count_day_sets df exercise day n :
  nth_count (day_sets pd df exercise day) n =
  from_option id 0 (counts (day_sets pandas_ref df exercise day) !! n).
Proof.
  rewrite nth_count_counts. unfold day_sets.
  by rewrite (sorted_counts_determined pd pandas_ref _ Hsort pandas_ref_sorts_descending).
Qed.

Lemma length_day_sets df exercise day :
  length (day_sets pd df exercise day) = length (day_sets pandas_ref df exercise day).
Proof.
  unfold day_sets.
  by rewrite !length_sort_values_desc by (done || apply pandas_ref_sorts_descending).
Qed.

(** C2.  With three sets of 10, 8 and 12 pushups on day 1 and one set of 5
    on day 2, and a day range of 2 (today being day 2 of that month), the
    stratifier returns exactly the three series [12, 5], [10, 0] and
    [8, 0].  And in general a day of the range without a record of the
    exercise has 0 in every series. *)
Theorem stratify_pushups_example :
  (∀ d, 1 ≤ d ≤ 31 →
        is_Some (parse_datetime pd
                   (VStr (strftime default_date_format (date 2024 11 d))))) →
  (∃ series,
     (run (stratify_exercise_month pd (date 2024 11 2) "pushups" default_date_format)
          pushups_month).2 = inr series ∧
     (λ s, cell_int <$> get_col "count" s) <$> series = [[12; 5]; [10; 0]; [8; 0]]) ∧
  (∀ today df exercise year month day_range series d,
     valid_date today → normalized df → dated_in_month year month df →
     VStr exercise ∈ get_col "exercise" df →
     (∀ d, 1 ≤ d ≤ 31 →
           is_Some (parse_datetime pd
                      (VStr (strftime default_date_format (date year month d))))) →
     day_range_of today year month = inr day_range →
     (run (stratify_exercise_month pd today exercise default_date_format) df).2
       = inr series →
     1 ≤ d ≤ day_range →
     filter (λ r : gmap string Cell,
               r !!! "date" = VTime (date year month d) ∧
               r !!! "exercise" = VStr exercise) (rows df) = [] →
     Forall (λ s, series_at s d = 0) series).
Proof.
  intros Hparse. split.
  - destruct (stratify_series pd (date 2024 11 2) pushups_month [] "pushups"
                default_date_format 2024 11 Hsort)
      as (day_range & series & Hdr & _ & Hrun & Hle & (d0 & Hd0 & Hatt) & HF).
    { compute_done. }
    { apply pushups_month_normalized. }
    { apply pushups_month_dated. }
    { apply pushups_month_has_pushups. }
    { apply default_date_format_distinct. }
    { exact Hparse. }
    assert (day_range = 2) as ->.
    { assert (day_range_of (date 2024 11 2) 2024 11 = inr 2) as Hc by compute_done.
      congruence. }
    exists series. split; [unfold run; by rewrite Hrun|].
    assert (Hmax : Forall (λ d, (length (day_sets pandas_ref pushups_month "pushups"
                                           (date 2024 11 d)) ≤ 3)%nat) (seqZ 1 31))
      by compute_done.
    rewrite Forall_forall in Hmax.
    assert (Hlen : length series = 3%nat).
    { specialize (Hle 1 ltac:(lia)). rewrite length_day_sets in Hle, Hatt.
      specialize (Hmax d0 ltac:(apply elem_of_seqZ; lia)).
      assert (length (day_sets pandas_ref pushups_month "pushups" (date 2024 11 1)) = 3%nat)
        as Hthree by compute_done.
      lia. }
    clear Hle Hatt Hmax Hrun Hdr.
    destruct series as [|s0 [|s1 [|s2 [|s3 series]]]]; try discriminate Hlen.
    cbn [length seq] in HF.
    apply Forall2_cons in HF as [[Hl0 H0] HF].
    apply Forall2_cons in HF as [[Hl1 H1] HF].
    apply Forall2_cons in HF as [[Hl2 H2] _].
    rewrite !fmap_cons, fmap_nil.
    rewrite !series_values by done.
    rewrite (H0 1), (H0 2), (H1 1), (H1 2), (H2 1), (H2 2) by lia.
    rewrite !nth_count_day_sets. compute_done.
  - intros today df exercise year month day_range series d
      Htoday Hnorm Hdated Hex Hparse' Hdr Hrun Hd Hnone.
    destruct (stratify_series pd today df [] exercise default_date_format year month)
      as (day_range' & series' & Hdr' & _ & Hrun' & _ & _ & HF); try done.
    { apply default_date_format_distinct. }
    unfold run in Hrun. rewrite Hrun' in Hrun. rewrite Hdr in Hdr'.
    simpl in Hrun. simplify_eq.
    apply Forall_forall. intros s [i Hs]%list_elem_of_lookup.
    destruct (Forall2_lookup_r _ _ _ _ _ HF Hs) as (n & _ & _ & Hval).
    rewrite Hval by done. unfold day_sets.
    rewrite list_filter_filter, Hnone, sort_values_desc_nil by done.
    by destruct n.
Qed.

End Examples.

Lemma stratify_pushups_example_witness :
  ∃ series,
    (run (stratify_exercise_month pandas_ref (date 2024 11 2) "pushups"
            default_date_format) pushups_month).2 = inr series ∧
    (λ s, cell_int <$> get_col "count" s) <$> series = [[12; 5]; [10; 0]; [8; 0]].
Proof.
  apply (proj1 (stratify_pushups_example pandas_ref pandas_ref_sorts_descending
                  pandas_ref_parses_november)).
Defined.

(** ** The stratifier and the current date *)

(** C8, as the code has it.  The stratifier takes no day range: it works it
    out from the current date, as today's day when the data are of the
    current month and as the number of days of the data's month otherwise.
    Its output is determined by the table, the exercise, the date format
    and that day range: two runs on the same inputs agree whenever their
    current dates give the same day range. *)
Theorem stratifier_reads_today_for_day_range pd today1 today2 df exercise
    date_format year month :
  normalized df →
  dated_in_month year month df →
  VStr exercise ∈ get_col "exercise" df →
  day_range_of today1 year month = day_range_of today2 year month →
  run (stratify_exercise_month pd today1 exercise date_format) df =
  run (stratify_exercise_month pd today2 exercise date_format) df.
Proof.
  intros Hnorm Hdated Hex Hrange. unfold run.
  rewrite !(stratify_exercise_month_normalized pd df [] _ exercise date_format
              year month) by done.
  by rewrite Hrange.
Qed.

(** C8, counterexample.  The same table, exercise and format give other
    series a day later. *)
Lemma stratifier_output_changes_with_today :
  (run (stratify_exercise_month pandas_ref (date 2024 11 2) "pushups"
          default_date_format) pushups_month).2 ≠
  (run (stratify_exercise_month pandas_ref (date 2024 11 3) "pushups"
          default_date_format) pushups_month).2.
Proof. compute_done. Qed.

Lemma stratifier_reads_today_for_day_range_witness :
  run (stratify_exercise_month pandas_ref (date 2024 12 2) "pushups"
         default_date_format) pushups_month =
  run (stratify_exercise_month pandas_ref (date 2025 1 15) "pushups"
         default_date_format) pushups_month.
Proof.
  apply (stratifier_reads_today_for_day_range pandas_ref (date 2024 12 2)
           (date 2025 1 15) pushups_month "pushups" default_date_format 2024 11).
  - apply pushups_month_normalized.
  - apply pushups_month_dated.
  - apply pushups_month_has_pushups.
  - compute_done.
Defined.

(** ** The validator on examples *)

Lemma validate_fails_exactly_on_missing_column_witness :
  warned (run (clean_exercise_sheet pandas_ref) sheet_with_notes).1 =
  [ExtraneousColumns (list_to_set (columns sheet_with_notes) ∖ col_names_req)].
Proof.
  apply (proj2 (proj2 (proj2
           (validate_fails_exactly_on_missing_column pandas_ref sheet_with_notes)))).
  exists "notes". split; compute_done.
Defined.

Lemma validate_updates_table_in_place_witness :
  get_col "location" (frame (run (clean_exercise_sheet pandas_ref) sheet_with_gap).1) =
  ffill (get_col "location" sheet_with_gap).
Proof.
  apply (proj2 (proj2 (proj2
           (validate_updates_table_in_place pandas_ref sheet_with_gap)))).
  compute_done.
Defined.

(** * Further properties *)

(** ** Forward fill *)

Lemma ffill_from_lookup last col i c :
  ffill_from last col !! i = Some c ↔
  (c ≠ NA ∧ ∃ j, (j ≤ i)%nat ∧ col !! j = Some c ∧
                 ∀ k, (j < k ≤ i)%nat → col !! k = Some NA) ∨
  (c = last ∧ (i < length col)%nat ∧ ∀ k, (k ≤ i)%nat → col !! k = Some NA).
Proof.
  revert last i. induction col as [|x col IH]; intros last i.
  - simpl. split; [done|]. intros [(_ & j & _ & Hj & _)|(_ & Hi & _)]; [done|simpl in Hi; lia].
  - cbn [ffill_from]. destruct i as [|i].
    + simpl. split.
      * intros Heq. injection Heq as Heq. subst c. destruct (isna x) eqn:Hx.
        -- right. split; [done|]. split; [lia|]. intros k Hk.
           assert (k = 0%nat) as -> by lia. simpl. by destruct x.
        -- left. split; [by destruct x|]. exists 0%nat.
           split; [lia|]. split; [done|]. intros k Hk. lia.
      * intros [(Hc & j & Hj & Hx & _)|(-> & _ & Hall)].
        -- assert (j = 0%nat) as -> by lia. simpl in Hx. injection Hx as ->.
           by destruct c.
        -- specialize (Hall 0%nat ltac:(lia)). simpl in Hall. by simplify_eq.
    + simpl. rewrite IH. split.
      * intros [(Hc & j & Hj & Hx & Hna)|(-> & Hi & Hall)].
        -- left. split; [done|]. exists (S j). split; [lia|]. split; [done|].
           intros [|k] Hk; [lia|]. simpl. apply Hna. lia.
        -- destruct (isna x) eqn:Hx.
           ++ right. split; [done|]. split; [lia|]. intros [|k] Hk; simpl.
              ** by destruct x.
              ** apply Hall. lia.
           ++ left. split; [by destruct x|]. exists 0%nat. split; [lia|].
              split; [done|]. intros [|k] Hk; [lia|]. simpl. apply Hall. lia.
      * intros [(Hc & j & Hj & Hx & Hna)|(-> & Hi & Hall)].
        -- destruct j as [|j].
           ++ simpl in Hx. simplify_eq. right.
              split; [by destruct c|]. split.
              ** destruct (decide (i < length col)%nat) as [|Hge]; [done|].
                 specialize (Hna (S i) ltac:(lia)). simpl in Hna.
                 apply lookup_lt_Some in Hna. lia.
              ** intros k Hk. apply (Hna (S k)). lia.
           ++ left. split; [done|]. exists j. split; [lia|]. split; [done|].
              intros k Hk. apply (Hna (S k)). lia.
        -- right. pose proof (Hall 0%nat ltac:(lia)) as H0. simpl in H0. simplify_eq.
           split; [done|]. split; [lia|]. intros k Hk. apply (Hall (S k)). lia.
Qed.

(** X1.  After the forward fill a cell holds the nearest present value at
    or above it in the column, and is absent exactly when the column has no
    present value at or above it. *)
Theorem ffill_nearest_present col i c :
  ffill col !! i = Some c ↔
  (c ≠ NA ∧ ∃ j, (j ≤ i)%nat ∧ col !! j = Some c ∧
                 ∀ k, (j < k ≤ i)%nat → col !! k = Some NA) ∨
  (c = NA ∧ (i < length col)%nat ∧ ∀ k, (k ≤ i)%nat → col !! k = Some NA).
Proof. apply ffill_from_lookup. Qed.

Lemma ffill_absent_only_on_top col : absent_only_on_top (ffill col).
Proof.
  intros i j Hij Hj. apply ffill_nearest_present in Hj as [[Hne _]|(_ & Hlen & Hall)]; [done|].
  apply ffill_nearest_present. right. split; [done|]. split; [lia|].
  intros k Hk. apply Hall. lia.
Qed.

Lemma ffill_fixed col : absent_only_on_top col → ffill col = col.
Proof.
  intros Htop. apply list_eq. intros i.
  destruct (col !! i) as [c|] eqn:Hc.
  - apply ffill_nearest_present. destruct (decide (c = NA)) as [->|Hne].
    + right. split; [done|]. split; [by eapply lookup_lt_Some|].
      intros k Hk. by eapply Htop.
    + left. split; [done|]. exists i. split; [lia|]. split; [done|]. intros k Hk. lia.
  - apply lookup_ge_None. rewrite length_ffill. by apply lookup_ge_None.
Qed.

(** Filling twice is filling once. *)
Lemma ffill_idemp col : ffill (ffill col) = ffill col.
Proof. apply ffill_fixed, ffill_absent_only_on_top. Qed.

Lemma columns_set_col col vals df :
  col ∈ columns df → columns (set_col col vals df) = columns df.
Proof. intros Hc. unfold set_col. simpl. by rewrite decide_True. Qed.



Section ValidatorMore.

Context (pd : Pandas).

Lemma to_datetime_cell_absent c : to_datetime_cell pd c = Some NA ↔ c = NA.
Proof.
  split; [|by intros ->]. destruct c; simpl; try done;
    by destruct (parse_datetime pd _).
Qed.

Lemma to_datetime_absent col col' i :
  to_datetime pd col = Some col' → col' !! i = Some NA ↔ col !! i = Some NA.
Proof.
  intros H%mapM_Some. split; intros Hi.
  - destruct (Forall2_lookup_r _ _ _ _ _ H Hi) as (c & Hc & Hcell).
    apply to_datetime_cell_absent in Hcell. by subst.
  - destruct (Forall2_lookup_l _ _ _ _ _ H Hi) as (c & Hc & Hcell).
    simpl in Hcell. by simplify_eq.
Qed.

Lemma to_datetime_present col col' :
  to_datetime pd col = Some col' → existsb isna col = false → Forall is_timestamp col'.
Proof.
  intros H%mapM_Some. induction H as [|c c' col col' Hc _ IH]; intros Hna; [constructor|].
  simpl in Hna. apply orb_false_iff in Hna as [Hc0 Hna].
  constructor; [|by apply IH].
  destruct c; simpl in *; try done; simplify_option_eq; by eexists.
Qed.

Lemma columns_filled df :
  col_names_req ⊆ list_to_set (C := gset string) (columns df) →
  columns (filled df) = columns df.
Proof.
  intros Hreq. unfold filled.
  assert (Hin : ∀ c, c ∈ col_names_req → c ∈ columns df)
    by (intros; by eapply req_in_columns).
  rewrite columns_set_col; rewrite ?columns_set_col; try done;
    rewrite ?columns_set_col; try done; apply Hin; set_solver.
Qed.

Lemma columns_cleaned df d' t' c' :
  col_names_req ⊆ list_to_set (C := gset string) (columns df) →
  columns (cleaned df d' t' c') = columns df.
Proof.
  intros Hreq. unfold cleaned.
  assert (Hin : ∀ c, c ∈ col_names_req → c ∈ columns df)
    by (intros; by eapply req_in_columns).
  pose proof (columns_filled df Hreq) as Hf.
  assert (H1 : columns (set_col "date" d' (filled df)) = columns df).
  { rewrite columns_set_col; [done|]. rewrite Hf. apply Hin. set_solver. }
  assert (H2 : columns (set_col "time" t' (set_col "date" d' (filled df))) = columns df).
  { rewrite columns_set_col; [done|]. rewrite H1. apply Hin. set_solver. }
  rewrite columns_set_col; [done|]. rewrite H2. apply Hin. set_solver.
Qed.

(** X2.  A table that has passed validation has the columns and the number
    of rows it had, timestamps in its time column, integers in its count
    column, timestamps or not-a-time in its date column, and absent dates,
    locations and exercises only in a block at the top. *)
Theorem validated_table_is_typed df :
  (run (clean_exercise_sheet pd) df).2 = inr tt →
  let df' := frame (run (clean_exercise_sheet pd) df).1 in
  columns df' = columns df ∧
  length (rows df') = length (rows df) ∧
  Forall (λ c, c = NA ∨ is_timestamp c) (get_col "date" df') ∧
  Forall is_timestamp (get_col "time" df') ∧
  Forall is_integer (get_col "count" df') ∧
  absent_only_on_top (get_col "date" df') ∧
  absent_only_on_top (get_col "location" df') ∧
  absent_only_on_top (get_col "exercise" df').
Proof.
  unfold run. intros Hok. cbv zeta.
  pose proof (clean_exercise_sheet_outcome pd df []) as Hout.
  destruct (clean_exercise_sheet pd (mkWorld df [])) as [[df' ws] r].
  simpl in *. subst r.
  inversion Hout as [| | | | |d' t' c' Hreq Hnt Hnc Hd Ht Hc]; subst.
  destruct (clean_outcome_lengths pd df d' t' c') as (Hld & Hlt & Hlc); [done..|].
  split; [by apply columns_cleaned|].
  split; [by apply length_rows_cleaned|].
  rewrite !get_col_cleaned by done.
  rewrite (decide_False (P := "date" = "count")) by done.
  rewrite (decide_False (P := "date" = "time")) by done.
  rewrite (decide_True (P := "date" = "date")) by done.
  rewrite (decide_False (P := "time" = "count")) by done.
  rewrite (decide_True (P := "time" = "time")) by done.
  rewrite (decide_True (P := "count" = "count")) by done.
  rewrite (decide_False (P := "location" = "count")) by done.
  rewrite (decide_False (P := "location" = "time")) by done.
  rewrite (decide_False (P := "location" = "date")) by done.
  rewrite (decide_True (P := "location" ∈ fill_columns)) by compute_done.
  rewrite (decide_False (P := "exercise" = "count")) by done.
  rewrite (decide_False (P := "exercise" = "time")) by done.
  rewrite (decide_False (P := "exercise" = "date")) by done.
  rewrite (decide_True (P := "exercise" ∈ fill_columns)) by compute_done.
  split_and!.
  - eapply Forall_impl; [by eapply to_datetime_cells|]. intros c [?|?]; [by left|by right].
  - by eapply to_datetime_present.
  - by eapply astype_int_cells.
  - intros i j Hij Hj. apply (to_datetime_absent _ _ j Hd) in Hj.
    apply (to_datetime_absent _ _ i Hd).
    by eapply ffill_absent_only_on_top.
  - apply ffill_absent_only_on_top.
  - apply ffill_absent_only_on_top.
Qed.



End ValidatorMore.

Lemma validated_table_is_typed_witness :
  Forall is_integer
    (get_col "count" (frame (run (clean_exercise_sheet pandas_ref) sheet_with_gap).1)).
Proof.
  apply (validated_table_is_typed pandas_ref sheet_with_gap). compute_done.
Defined.



(** ** The loader *)

Section LoaderMore.

Context (pd : Pandas).

Lemma import_exercise_sheet_single doc sheetname t :
  doc !! sheetname = Some [t] →
  import_exercise_sheet pd doc sheetname =
  let df := dropna_columns (dropna_rows (frame_of_table t)) in
  (warned (clean_exercise_sheet pd (mkWorld df [])).1,
   match (clean_exercise_sheet pd (mkWorld df [])).2 with
   | inl e => inl e
   | inr _ => inr (frame (clean_exercise_sheet pd (mkWorld df [])).1)
   end).
Proof.
  intros Hdoc. unfold import_exercise_sheet. rewrite Hdoc. cbv zeta.
  by destruct (clean_exercise_sheet pd _) as [w r].
Qed.

Lemma clean_outcome_not_sheet_error df df' e :
  clean_outcome pd df df' (inl e) →
  e ≠ MoreThanOneTable ∧ ∀ s, e ≠ SheetNotFound s.
Proof. inversion 1; by subst. Qed.

(** X5.  The loader reports a sheet as not found exactly when the document
    has no sheet of that name, and reports more than one table exactly when
    the sheet holds any number of tables other than one, none included. *)
Theorem loader_sheet_errors doc sheetname :
  (∀ s, (import_exercise_sheet pd doc sheetname).2 = inl (SheetNotFound s) ↔
        doc !! sheetname = None ∧ s = sheetname) ∧
  ((import_exercise_sheet pd doc sheetname).2 = inl MoreThanOneTable ↔
   ∃ tables, doc !! sheetname = Some tables ∧ length tables ≠ 1%nat).
Proof.
  destruct (doc !! sheetname) as [tables|] eqn:Hdoc.
  - destruct tables as [|t [|t' tables]].
    + unfold import_exercise_sheet. rewrite Hdoc. simpl. split.
      * intros s. split; [done|]. by intros [? _].
      * split; [|done]. intros _. by exists [].
    + rewrite (import_exercise_sheet_single _ _ _ Hdoc). cbv zeta.
      pose proof (clean_exercise_sheet_outcome pd
                    (dropna_columns (dropna_rows (frame_of_table t))) []) as Hout.
      destruct (clean_exercise_sheet pd _) as [w [e|[]]]; simpl in *.
      * apply clean_outcome_not_sheet_error in Hout as [Hm Hs]. split.
        -- intros s. split; [intros [= ->]; by destruct (Hs s)|]. by intros [? _].
        -- split; [by intros [= ->]|]. intros (ts & [= <-] & Hlen). done.
      * split.
        -- intros s. split; [done|]. by intros [? _].
        -- split; [done|]. intros (ts & [= <-] & Hlen). done.
    + unfold import_exercise_sheet. rewrite Hdoc. simpl. split.
      * intros s. split; [done|]. by intros [? _].
      * split; [|done]. intros _. eexists. split; [done|]. simpl. lia.
  - unfold import_exercise_sheet. rewrite Hdoc. simpl. split.
    + intros s. split; [by intros [= ->]|]. by intros [_ ->].
    + split; [done|]. by intros (ts & ? & _).
Qed.

Lemma elem_of_rows_dropna_rows df r :
  r ∈ rows (dropna_rows df) ↔ r ∈ rows df ∧ ¬ blank_row df r.
Proof.
  unfold dropna_rows, blank_row. simpl. rewrite list_elem_of_filter.
  rewrite <- not_true_iff_false, forallb_forall, Forall_forall.
  split.
  - intros [H1 H2]. split; [done|].
    intros Hall. apply H1. intros c Hc%list_elem_of_In.
    rewrite (Hall c Hc). done.
  - intros [H2 H1]. split; [|done].
    intros Hall. apply H1. intros c Hc. apply list_elem_of_In in Hc.
    specialize (Hall c Hc). by destruct (r !!! c).
Qed.

Lemma columns_dropna_columns_spec df c :
  c ∈ columns (dropna_columns df) ↔ c ∈ columns df ∧ ¬ blank_column df c.
Proof.
  unfold dropna_columns, blank_column, get_col. cbv zeta. simpl.
  rewrite list_elem_of_filter, Forall_fmap, existsb_exists, Forall_forall.
  split.
  - intros [(r & Hr%list_elem_of_In & Hna) Hc]. split; [done|]. intros Hall.
    specialize (Hall r Hr). simpl in Hall. by rewrite Hall in Hna.
  - intros [Hc Hn]. split; [|done].
    destruct (decide (Exists (λ r : gmap string Cell, r !!! c ≠ NA) (rows df)))
      as [Hex|Hex].
    + apply Exists_exists in Hex as (r & Hr & Hne). exists r.
      split; [by apply list_elem_of_In|]. by destruct (r !!! c).
    + exfalso. apply Hn. intros r Hr. simpl.
      destruct (decide (r !!! c = NA)) as [|Hne]; [done|].
      exfalso. apply Hex, Exists_exists. eauto.
Qed.

(** X6.  A required column with no value in any row does not survive the
    import: it is dropped with the empty columns before validation, and the
    loader fails with the missing-columns error, which names it. *)
Theorem loader_drops_empty_required_column doc sheetname t c :
  doc !! sheetname = Some [t] →
  c ∈ col_names_req →
  blank_column (frame_of_table t) c →
  ∃ ws missing,
    import_exercise_sheet pd doc sheetname = (ws, inl (RequiredColumnMissing missing)) ∧
    c ∈ missing.
Proof.
  intros Hdoc Hc Hblank.
  rewrite (import_exercise_sheet_single _ _ _ Hdoc). cbv zeta.
  rewrite clean_exercise_sheet_run. cbv zeta.
  assert (Hdrop : c ∉ columns (dropna_columns (dropna_rows (frame_of_table t)))).
  { rewrite columns_dropna_columns_spec. intros [_ Hn]. apply Hn.
    unfold blank_column, get_col in *. rewrite Forall_fmap, Forall_forall in *.
    intros r Hr%elem_of_rows_dropna_rows. apply Hblank. by destruct Hr. }
  rewrite decide_False.
  - eexists _, _. split; [done|].
    apply elem_of_difference. split; [done|]. by rewrite elem_of_list_to_set.
  - intros Hsub. apply Hdrop. by eapply req_in_columns.
Qed.

Lemma month_name_out_of_range month :
  month < -13 ∨ 12 < month → month_name month = None.
Proof.
  intros Hm. unfold month_name. case_decide.
  - apply lookup_ge_None. simpl. lia.
  - case_decide; [lia|done].
Qed.

Lemma month_name_wraps month :
  -12 ≤ month ≤ -1 → month_name month = month_name (13 + month).
Proof.
  intros Hm. unfold month_name. rewrite decide_False by lia.
  rewrite decide_True by lia. by rewrite decide_True by lia.
Qed.

Lemma month_name_is_Some month : 1 ≤ month ≤ 12 → is_Some (month_name month).
Proof.
  intros Hm. unfold month_name. rewrite decide_True by lia.
  apply lookup_lt_is_Some. simpl. lia.
Qed.

(** X7.  A month number below -13 or above 12 makes the month loader fail
    with an index error before it looks at the document. *)
Theorem import_month_month_out_of_range doc year month :
  month < -13 ∨ 12 < month →
  import_month pd doc year month = ([], inl IndexError).
Proof.
  intros Hm. unfold import_month. by rewrite month_name_out_of_range.
Qed.

(** X8.  A month number from -12 to -1 counts the months from the end of the
    year when the sheet is looked up, but not when the records are checked:
    whenever the month it stands for loads, the negative number is refused
    with the outside-the-month error. *)
Theorem import_month_negative_month_wraps doc year month ws df :
  -12 ≤ month ≤ -1 →
  import_month pd doc year (13 + month) = (ws, inr df) →
  import_month pd doc year month = (ws, inl OutsideDesiredMonth).
Proof.
  intros Hm Himp.
  destruct (import_month_inr pd _ _ _ _ _ Himp) as (mn & Hname & Hsheet).
  rewrite (import_month_checked pd _ _ _ _ _ _ Hname Hsheet) in Himp.
  rewrite <- month_name_wraps in Hname by done.
  rewrite (import_month_checked pd _ _ _ _ _ _ Hname Hsheet).
  f_equal.
  destruct (decide (rows df = [])) as [|Hne]; [done|].
  destruct (decide (Forall _ (rows df))) as [Hy|]; [|done].
  destruct (decide (Forall _ (rows df))) as [Hmon|]; [|done].
  rewrite decide_False; [done|]. intros Hmon'.
  destruct (rows df) as [|r rs]; [done|].
  apply Forall_inv in Hmon as [Hd _]. apply Forall_inv in Hmon' as [Hd' _].
  rewrite Hd in Hd'. injection Hd' as Hd'. lia.
Qed.

(** X9.  A sheet that validates with a record left without a date (the
    first record's date was absent, so the fill had nothing to copy) is
    always refused by the month loader, with the outside-the-year error. *)
Theorem import_month_refuses_undated_record doc year month monthname ws df :
  month_name month = Some monthname →
  import_exercise_sheet pd doc (sheet_name year monthname) = (ws, inr df) →
  NA ∈ get_col "date" df →
  import_month pd doc year month = (ws, inl OutsideDesiredYear).
Proof.
  intros Hname Hsheet Hna.
  rewrite (import_month_checked pd _ _ _ _ _ _ Hname Hsheet). f_equal.
  unfold get_col in Hna. apply list_elem_of_fmap in Hna as (r & Hr & Hin).
  rewrite decide_False by (intros Hnil; rewrite Hnil in Hin; by apply elem_of_nil in Hin).
  rewrite decide_False; [done|].
  rewrite Forall_forall. intros Hall. destruct (Hall r Hin) as [Hd _].
  by rewrite <- Hr in Hd.
Qed.

End LoaderMore.

Lemma loader_drops_empty_required_column_witness :
  ∃ ws missing,
    import_exercise_sheet pandas_ref unlocated_doc "2024-November" =
      (ws, inl (RequiredColumnMissing missing)) ∧
    "location" ∈ missing.
Proof.
  apply (loader_drops_empty_required_column pandas_ref unlocated_doc "2024-November"
           (mkTable five_columns
              [ [VTime (date 2024 11 5); VTime (mkTimestamp 2024 11 5 800); NA;
                 VStr "pushups"; VInt 90];
                [VTime (date 2024 11 10); VTime (mkTimestamp 2024 11 10 800); NA;
                 VStr "pushups"; VInt 10] ])).
  - compute_done.
  - compute_done.
  - compute_done.
Defined.

Lemma import_month_month_out_of_range_witness :
  import_month pandas_ref november_doc 2024 13 = ([], inl IndexError).
Proof. apply (import_month_month_out_of_range pandas_ref november_doc 2024 13). lia. Defined.

Lemma import_month_negative_month_wraps_witness :
  import_month pandas_ref november_doc 2024 (-2) = ([], inl OutsideDesiredMonth).
Proof.
  apply (import_month_negative_month_wraps pandas_ref november_doc 2024 (-2) []
           november_frame).
  - lia.
  - compute_done.
Defined.

Lemma import_month_refuses_undated_record_witness :
  import_month pandas_ref undated_doc 2024 11 = ([], inl OutsideDesiredYear).
Proof.
  apply (import_month_refuses_undated_record pandas_ref undated_doc 2024 11 "November" []
           undated_frame).
  - reflexivity.
  - compute_done.
  - compute_done.
Defined.

Section LoaderShape.

Context (pd : Pandas).

Lemma filter_ext_in {A} (P Q : A → Prop) `{∀ x, Decision (P x)} `{∀ x, Decision (Q x)}
    (l : list A) :
  (∀ x, x ∈ l → P x ↔ Q x) → filter P l = filter Q l.
Proof.
  induction l as [|x l IH]; intros Hext; [done|].
  rewrite !filter_cons.
  rewrite IH by (intros y Hy; apply Hext; by right).
  destruct (decide (P x)) as [HP|HP], (decide (Q x)) as [HQ|HQ]; try done.
  - exfalso. apply HQ, Hext; [by left|done].
  - exfalso. apply HP, Hext; [by left|done].
Qed.

Lemma rows_dropna_rows df :
  rows (dropna_rows df) = filter (λ r, ¬ blank_row df r) (rows df).
Proof.
  unfold dropna_rows. simpl. apply filter_ext_in. intros r Hr.
  pose proof (elem_of_rows_dropna_rows df r) as Hspec.
  unfold dropna_rows in Hspec. simpl in Hspec.
  rewrite list_elem_of_filter in Hspec. naive_solver.
Qed.

Lemma columns_dropna_columns_rows df :
  columns (dropna_columns (dropna_rows df)) =
  filter (λ c, ¬ blank_column df c) (columns df).
Proof.
  assert (Hcols : columns (dropna_columns (dropna_rows df)) =
                  filter (λ c, ¬ blank_column (dropna_rows df) c) (columns df)).
  { unfold dropna_columns at 1. cbv zeta. cbn [columns].
    change (columns (dropna_rows df)) with (columns df).
    apply filter_ext_in. intros c Hc.
    pose proof (columns_dropna_columns_spec (dropna_rows df) c) as Hspec.
    unfold dropna_columns in Hspec at 1. cbv zeta in Hspec. cbn [columns] in Hspec.
    change (columns (dropna_rows df)) with (columns df) in Hspec.
    rewrite list_elem_of_filter in Hspec. naive_solver. }
  rewrite Hcols. apply filter_ext_in. intros c Hc.
  unfold blank_column, get_col. rewrite !Forall_fmap, !Forall_forall.
  split; intros Hn Hall; apply Hn; intros r Hr.
  - apply Hall. apply elem_of_rows_dropna_rows in Hr. by destruct Hr.
  - simpl. destruct (decide (blank_row df r)) as [Hb|Hb].
    + unfold blank_row in Hb. rewrite Forall_forall in Hb. by apply Hb.
    + apply (Hall r). apply elem_of_rows_dropna_rows. done.
Qed.

Lemma length_rows_dropna_columns df :
  length (rows (dropna_columns df)) = length (rows df).
Proof. unfold dropna_columns. simpl. by rewrite length_fmap. Qed.

(** X10.  What the loader returns has one row for each row of the sheet's
    table that holds a value in some column, and the columns of the table
    that hold a value in some row: no record is lost or added on the way. *)
Theorem loaded_table_shape doc sheetname t ws df :
  doc !! sheetname = Some [t] →
  import_exercise_sheet pd doc sheetname = (ws, inr df) →
  length (rows df) =
    length (filter (λ r, ¬ blank_row (frame_of_table t) r) (rows (frame_of_table t))) ∧
  columns df = filter (λ c, ¬ blank_column (frame_of_table t) c) (header t).
Proof.
  intros Hdoc. rewrite (import_exercise_sheet_single pd _ _ _ Hdoc). cbv zeta.
  set (df0 := dropna_columns (dropna_rows (frame_of_table t))).
  pose proof (validated_table_is_typed pd df0) as Htyped. unfold run in Htyped.
  destruct (clean_exercise_sheet pd (mkWorld df0 [])) as [w [e|[]]]; [done|].
  cbn [fst snd] in *. intros [= <- <-].
  destruct (Htyped eq_refl) as (Hcols & Hlen & _).
  rewrite Hcols, Hlen. unfold df0.
  rewrite length_rows_dropna_columns, rows_dropna_rows, columns_dropna_columns_rows.
  done.
Qed.

End LoaderShape.

Lemma loaded_table_shape_witness :
  length (rows november_frame) = 2%nat ∧ columns november_frame = five_columns.
Proof.
  apply (loaded_table_shape pandas_ref november_doc "2024-November"
           (mkTable five_columns
              [ table_row (date 2024 11 5) (mkTimestamp 2024 11 5 800) "home" "pushups" 90;
                table_row (date 2024 11 10) (mkTimestamp 2024 11 10 800) "home" "pushups" 10 ])
           [] november_frame).
  - compute_done.
  - compute_done.
Defined.

(** ** The stratifier *)

Lemma reads_only_ret {A} (a : A) : reads_only (ret a).
Proof. by intros w. Qed.

Lemma reads_only_raise {A} e : reads_only (raise (A := A) e).
Proof. by intros w. Qed.

Lemma reads_only_lift {A} (r : Error + A) : reads_only (lift r).
Proof. by intros w. Qed.

Lemma reads_only_get_frame : reads_only get_frame.
Proof. by intros w. Qed.

Lemma reads_only_bind {A B} (m : M A) (k : A → M B) :
  reads_only m → (∀ a, reads_only (k a)) → reads_only (m ≫= k).
Proof.
  intros Hm Hk w. rewrite bind_run. specialize (Hm w).
  destruct (m w) as [w' [e|a]]; simpl in Hm; subst w'; [done|]. apply Hk.
Qed.

Lemma reads_only_getitem col : reads_only (getitem col).
Proof.
  unfold getitem. apply reads_only_bind; [apply reads_only_get_frame|].
  intros df. case_decide; [apply reads_only_ret|apply reads_only_raise].
Qed.

Section StratifierMore.

Context (pd : Pandas).

(** X11.  The stratifier touches the table it is handed, and warns, only
    through the validation it starts with: after any call, successful or
    not, the table and the warnings are what validation alone leaves. *)
Theorem stratifier_effect_is_validation today exercise date_format w :
  (stratify_exercise_month pd today exercise date_format w).1 =
  (clean_exercise_sheet pd w).1.
Proof.
  unfold stratify_exercise_month. rewrite bind_run.
  destruct (clean_exercise_sheet pd w) as [w' [e|[]]]; [done|]. cbn [fst].
  match goal with |- (?m w').1 = w' => enough (reads_only m) as Hr by apply Hr end.
  repeat first
    [ apply reads_only_bind; [|intros ?]
    | apply reads_only_getitem
    | apply reads_only_get_frame
    | apply reads_only_lift
    | apply reads_only_ret
    | apply reads_only_raise
    | case_decide ].
Qed.

Lemma clean_exercise_sheet_inr_columns w w' :
  clean_exercise_sheet pd w = (w', inr tt) →
  col_names_req ⊆ list_to_set (C := gset string) (columns (frame w')).
Proof.
  destruct w as [df ws]. intros Hrun.
  pose proof (validated_table_is_typed pd df) as Htyped.
  pose proof (clean_exercise_sheet_outcome pd df ws) as Hout.
  pose proof (clean_exercise_sheet_outcome pd df []) as Hout0.
  unfold run in Htyped. rewrite Hrun in Hout. cbn [fst snd] in Hout.
  inversion Hout as [| | | | |d' t' c' Hreq Hnt Hnc Hd Ht Hc]; subst.
  rewrite columns_cleaned by done. done.
Qed.

(** The stratifier is validation followed by [strata] on the validated
    table. *)
Lemma stratify_exercise_month_run today exercise date_format w :
  stratify_exercise_month pd today exercise date_format w =
  match clean_exercise_sheet pd w with
  | (w', inl e) => (w', inl e)
  | (w', inr _) => (w', strata pd today exercise date_format (frame w'))
  end.
Proof.
  unfold stratify_exercise_month. rewrite bind_run.
  destruct (clean_exercise_sheet pd w) as [w' [e|[]]] eqn:Hclean; [done|].
  apply clean_exercise_sheet_inr_columns in Hclean as Hreq.
  rewrite bind_run, getitem_run by (eapply req_in_columns; [done|set_solver]).
  unfold strata. cbv zeta.
  case_decide as Hone; [done|].
  rewrite bind_run. cbn [ret]. rewrite lift_bind_run.
  destruct (index0 (unique (dt ts_month <$> _))) as [e|month]; [done|].
  cbn [mbind Result_bind]. rewrite lift_bind_run.
  destruct (index0 (unique (dt ts_year <$> _))) as [e|year]; [done|].
  cbn [mbind Result_bind].
  rewrite bind_run, getitem_run by (eapply req_in_columns; [done|set_solver]).
  destruct (decide (VStr exercise ∈ _)) as [Hex|Hex]; [|done].
  rewrite bind_run. cbn [ret]. rewrite bind_run. cbn [get_frame].
  rewrite lift_bind_run.
  destruct (py_max _) as [e|n_sets_max]; [done|]. cbn [mbind Result_bind].
  rewrite lift_bind_run.
  match goal with |- match ?x with _ => _ end = _ => destruct x as [e|day_range] end;
    done.
Qed.

End StratifierMore.

Section StratifierOutcomes.

Context (pd : Pandas).

Lemma unique_singleton_inv `{EqDecision A} (l : list A) x :
  unique l = [x] → l ≠ [] ∧ Forall (λ y, y = x) l.
Proof.
  intros Hu. split; [by intros ->|].
  apply Forall_forall. intros y Hy. apply elem_of_unique in Hy.
  rewrite Hu in Hy. by apply list_elem_of_singleton in Hy.
Qed.

Lemma length_one_inv {A} (l : list A) : length l = 1%nat → ∃ x, l = [x].
Proof. destruct l as [|x [|y l]]; intros Hl; simplify_eq/=. by exists x. Qed.

Lemma strata_inr today exercise date_format df series :
  strata pd today exercise date_format df = inr series →
  ∃ year month n_sets_max day_range,
    rows df ≠ [] ∧
    Forall (λ c, dt ts_year c = Some year ∧ dt ts_month c = Some month) (get_col "date" df) ∧
    VStr exercise ∈ get_col "exercise" df ∧
    py_max (length <$> (map_to_list
      (group_by_day pd date_format
         (filter (λ r : gmap string Cell, r !!! "exercise" = VStr exercise) (rows df)))).*2)
      = inr n_sets_max ∧
    mapM (nth_set_frame pd
            (group_by_day pd date_format
               (filter (λ r : gmap string Cell, r !!! "exercise" = VStr exercise) (rows df)))
            date_format (Some year) (Some month) day_range)
         (seq 0 n_sets_max) = inr series.
Proof.
  unfold strata. cbv zeta. case_decide as Hone; [done|].
  assert (Hm : length (unique (dt ts_month <$> get_col "date" df)) = 1%nat)
    by (destruct (decide (length (unique (dt ts_month <$> get_col "date" df)) = 1%nat));
        [done|exfalso; apply Hone; by left]).
  assert (Hy : length (unique (dt ts_year <$> get_col "date" df)) = 1%nat)
    by (destruct (decide (length (unique (dt ts_year <$> get_col "date" df)) = 1%nat));
        [done|exfalso; apply Hone; by right]).
  clear Hone.
  apply length_one_inv in Hm as [mo Hm]. apply length_one_inv in Hy as [yo Hy].
  rewrite Hm, Hy. cbn [index0 mbind Result_bind].
  destruct (decide (VStr exercise ∈ _)) as [Hex|]; [|done].
  destruct (py_max _) as [e|n_sets_max] eqn:Hmax; [done|]. cbn [mbind Result_bind].
  apply unique_singleton_inv in Hm as [Hne Hmall].
  apply unique_singleton_inv in Hy as [_ Hyall].
  rewrite Forall_fmap in Hmall, Hyall.
  assert (Hrows : rows df ≠ []) by by rewrite fmap_eq_nil, get_col_nil_iff in Hne.
  assert (Hdates : ∀ year month, yo = Some year → mo = Some month →
            Forall (λ c, dt ts_year c = Some year ∧ dt ts_month c = Some month)
                   (get_col "date" df)).
  { intros year month -> ->. apply Forall_and. done. }
  rewrite elem_of_unique in Hex.
  destruct (decide (mo = Some (ts_month today) ∧ yo = Some (ts_year today)))
    as [[-> ->]|Hnot].
  - cbn [mbind Result_bind]. intros Hseries.
    exists (ts_year today), (ts_month today), n_sets_max, (ts_day today).
    split_and!; try done. by apply Hdates.
  - destruct mo as [month|]; [|done]. destruct yo as [year|]; [|done].
    cbn [from_option mbind Result_bind].
    destruct (monthrange year month) as [e|day_range]; [done|].
    cbn [mbind Result_bind]. intros Hseries.
    exists year, month, n_sets_max, day_range. split_and!; try done. by apply Hdates.
Qed.

Lemma run_stratify_exercise_month today exercise date_format df :
  run (stratify_exercise_month pd today exercise date_format) df =
  match run (clean_exercise_sheet pd) df with
  | (w', inl e) => (w', inl e)
  | (w', inr _) => (w', strata pd today exercise date_format (frame w'))
  end.
Proof. unfold run. apply stratify_exercise_month_run. Qed.

(** X12.  The stratifier returns series only for a table that validates and
    then holds at least one record, with all records dated in one month of
    one year, and the exercise among them. *)
Theorem stratifier_succeeds_only_on_one_month today exercise date_format df series :
  (run (stratify_exercise_month pd today exercise date_format) df).2 = inr series →
  let df' := frame (run (clean_exercise_sheet pd) df).1 in
  (run (clean_exercise_sheet pd) df).2 = inr tt ∧
  rows df' ≠ [] ∧
  (∃ year month, dated_in_month year month df') ∧
  VStr exercise ∈ get_col "exercise" df'.
Proof.
  rewrite run_stratify_exercise_month. cbv zeta.
  destruct (run (clean_exercise_sheet pd) df) as [w' [e|[]]]; [done|].
  cbn [fst snd]. intros Hs.
  apply strata_inr in Hs as (year & month & n & dr & Hne & Hdates & Hex & _).
  split_and!; try done. exists year, month. unfold dated_in_month.
  unfold get_col in Hdates. by rewrite Forall_fmap in Hdates.
Qed.

(** X13.  A table with the five columns and no record is refused with the
    error for records of more than one month. *)
Theorem stratifier_refuses_empty_table today exercise date_format df :
  col_names_req ⊆ list_to_set (C := gset string) (columns df) →
  rows df = [] →
  (run (stratify_exercise_month pd today exercise date_format) df).2 =
  inl MoreThanOneMonth.
Proof.
  intros Hreq Hnil. rewrite run_stratify_exercise_month.
  pose proof (validated_table_is_typed pd df) as Htyped. cbv zeta in Htyped.
  assert (Hok : (run (clean_exercise_sheet pd) df).2 = inr tt).
  { unfold run. rewrite clean_exercise_sheet_run. cbv zeta.
    rewrite decide_True by done. unfold get_col. rewrite Hnil. done. }
  specialize (Htyped Hok). destruct Htyped as (_ & Hlen & _).
  destruct (run (clean_exercise_sheet pd) df) as [w' [e|[]]]; [done|].
  cbn [fst snd] in *. rewrite Hnil in Hlen. apply nil_length_inv in Hlen.
  unfold strata, get_col. rewrite Hlen. done.
Qed.

(** X14.  On a validated table of one month, asking for an exercise that no
    record names fails with the error that names the exercise. *)
Theorem stratifier_reports_unknown_exercise today exercise date_format df year month :
  (run (clean_exercise_sheet pd) df).2 = inr tt →
  let df' := frame (run (clean_exercise_sheet pd) df).1 in
  rows df' ≠ [] →
  dated_in_month year month df' →
  VStr exercise ∉ get_col "exercise" df' →
  (run (stratify_exercise_month pd today exercise date_format) df).2 =
  inl (ExerciseNotFound exercise).
Proof.
  rewrite run_stratify_exercise_month. cbv zeta.
  destruct (run (clean_exercise_sheet pd) df) as [w' [e|[]]]; [done|].
  cbn [fst snd]. intros _ Hne Hdated Hex.
  unfold strata. cbv zeta.
  rewrite (unique_singleton (dt ts_year <$> _) (Some year)),
    (unique_singleton (dt ts_month <$> _) (Some month)).
  - rewrite decide_False by (intros [?|?]; done). cbn [index0 mbind Result_bind].
    rewrite decide_False; [done|]. by rewrite elem_of_unique.
  - by rewrite fmap_eq_nil, get_col_nil_iff.
  - unfold get_col. rewrite <- list_fmap_compose. apply Forall_fmap.
    eapply Forall_impl; [exact Hdated|]. by intros r [_ ?].
  - by rewrite fmap_eq_nil, get_col_nil_iff.
  - unfold get_col. rewrite <- list_fmap_compose. apply Forall_fmap.
    eapply Forall_impl; [exact Hdated|]. by intros r [? _].
Qed.

End StratifierOutcomes.

Lemma stratifier_succeeds_only_on_one_month_witness :
  VStr "pushups" ∈
    get_col "exercise" (frame (run (clean_exercise_sheet pandas_ref) pushups_month).1).
Proof.
  apply (stratifier_succeeds_only_on_one_month pandas_ref (date 2024 11 2) "pushups"
           default_date_format pushups_month
           (match (run (stratify_exercise_month pandas_ref (date 2024 11 2) "pushups"
                          default_date_format) pushups_month).2 with
            | inr series => series
            | inl _ => []
            end)).
  compute_done.
Defined.

Lemma stratifier_refuses_empty_table_witness :
  (run (stratify_exercise_month pandas_ref (date 2024 11 2) "pushups" default_date_format)
       (mkDataFrame five_columns [])).2 = inl MoreThanOneMonth.
Proof.
  apply (stratifier_refuses_empty_table pandas_ref (date 2024 11 2) "pushups"
           default_date_format (mkDataFrame five_columns [])).
  - compute_done.
  - reflexivity.
Defined.

Lemma stratifier_reports_unknown_exercise_witness :
  (run (stratify_exercise_month pandas_ref (date 2024 11 2) "squats" default_date_format)
       pushups_month).2 = inl (ExerciseNotFound "squats").
Proof.
  apply (stratifier_reports_unknown_exercise pandas_ref (date 2024 11 2) "squats"
           default_date_format pushups_month 2024 11).
  - compute_done.
  - compute_done.
  - compute_done.
  - compute_done.
Defined.

(** ** The series of the stratifier *)

Lemma mapM_inr_inv {A B} (f : A → Error + B) (l : list A) (k : list B) :
  mapM f l = inr k → Forall2 (λ x y, f x = inr y) l k.
Proof.
  revert k. induction l as [|x l IH]; intros k.
  - intros [= <-]. constructor.
  - cbn [mapM]. destruct (f x) as [e|y] eqn:Hy; [done|]. cbn [mbind Result_bind].
    destruct (mapM f l) as [e|k'] eqn:Hk; [done|]. cbn [mbind Result_bind].
    intros [= <-]. constructor; [done|]. by apply IH.
Qed.

Lemma StronglySorted_lookup_lt {A} (R : relation A) (l : list A) i j x y :
  StronglySorted R l → (i < j)%nat → l !! i = Some x → l !! j = Some y → R x y.
Proof.
  intros Hs. revert i j. induction Hs as [|a l Hs IH Hall]; intros i j Hij Hi Hj.
  - by rewrite lookup_nil in Hi.
  - destruct j as [|j]; [lia|]. destruct i as [|i].
    + simpl in Hi, Hj. injection Hi as ->.
      rewrite Forall_forall in Hall. apply Hall. by eapply list_elem_of_lookup_2.
    + simpl in Hi, Hj. apply (IH i j); [lia|done..].
Qed.

Section Frames.

Context (pd : Pandas).

(** How a frame of the stratifier is made. *)
Lemma nth_set_frame_inr dict date_format year month day_range n s :
  nth_set_frame pd dict date_format year month day_range n = inr s →
  ∃ reps dates,
    Forall2 (λ d r, nth_set_of_day dict date_format year month n d = inr r)
            (seqZ 1 day_range) reps ∧
    reps ≠ [] ∧
    Forall2 (λ (r : gmap string Cell) c, to_datetime_cell pd (r !!! "date") = Some c)
            reps dates ∧
    s = set_col "date" dates (mkDataFrame ["date"; "count"] reps).
Proof.
  unfold nth_set_frame.
  destruct (mapM _ (seqZ 1 day_range)) as [e|reps] eqn:Hreps; [done|].
  cbn [mbind Result_bind]. cbv zeta.
  destruct reps as [|r reps].
  { rewrite decide_False by (simpl; set_solver). done. }
  rewrite decide_True by (simpl; set_solver).
  destruct (to_datetime pd _) as [dates|] eqn:Hdates; [|done].
  intros [= <-]. exists (r :: reps), dates.
  split; [by apply mapM_inr_inv|]. split; [done|]. split; [|done].
  apply mapM_Some in Hdates. unfold get_col in Hdates. cbn [rows] in Hdates.
  by apply Forall2_fmap_l in Hdates.
Qed.

(** Every frame the stratifier makes has one row per day of the day range,
    and there is at least one day. *)
Lemma nth_set_frame_length dict date_format year month day_range n s :
  nth_set_frame pd dict date_format year month day_range n = inr s →
  length (rows s) = Z.to_nat day_range ∧ 0 < day_range.
Proof.
  intros (reps & dates & Hreps & Hne & Hdates & ->)%nth_set_frame_inr.
  apply Forall2_length in Hreps. apply Forall2_length in Hdates.
  rewrite length_seqZ in Hreps.
  rewrite length_rows_set_col by done. cbn [rows]. split; [done|].
  destruct reps; [done|]. simpl in Hreps. lia.
Qed.

End Frames.

Section RankedSeries.

Context (pd : Pandas) (Hsort : sorts_descending pd).
Context (today : Timestamp) (Htoday : valid_date today).
Context (df : DataFrame) (Hnorm : normalized df).
Context (year month : Z) (Hdated : dated_in_month year month df).
Context (exercise : string) (Hex : VStr exercise ∈ get_col "exercise" df).
Context (date_format : string) (Hkeys : day_keys_distinct date_format year month).
Context (Hparse : ∀ d, 1 ≤ d ≤ 31 →
  is_Some (parse_datetime pd (VStr (strftime date_format (date year month d))))).
Context (series : list DataFrame).
Context (Hrun : (run (stratify_exercise_month pd today exercise date_format) df).2
                = inr series).

Lemma day_sets_records d :
  day_sets pd df exercise d ≡ₚ day_records df exercise d.
Proof.
  unfold day_sets, day_records. rewrite sort_values_desc_Permutation by done.
  by rewrite list_filter_filter.
Qed.

Lemma series_spec :
  ∃ day_range,
    day_range_of today year month = inr day_range ∧ 1 ≤ day_range ≤ 31 ∧
    (∀ d, 1 ≤ d ≤ 31 →
          (length (day_records df exercise (date year month d)) ≤ length series)%nat) ∧
    (∃ d, 1 ≤ d ≤ 31 ∧
          length (day_records df exercise (date year month d)) = length series) ∧
    ∀ n s, series !! n = Some s →
      length (rows s) = Z.to_nat day_range ∧
      ∀ d, 1 ≤ d ≤ day_range →
           series_at s d = nth_count (day_sets pd df exercise (date year month d)) n.
Proof.
  destruct (stratify_series pd today df [] exercise date_format year month)
    as (day_range & series' & Hdr & Hrange & Hrun' & Hle & (d0 & Hd0 & Hatt) & HF);
    try done.
  unfold run in Hrun. rewrite Hrun' in Hrun. cbn [snd] in Hrun.
  injection Hrun as ->.
  exists day_range. split; [done|]. split; [done|]. split; [|split].
  - intros d Hd. rewrite <- day_sets_records. by apply Hle.
  - exists d0. split; [done|]. by rewrite <- day_sets_records.
  - intros n s Hs.
    destruct (Forall2_lookup_r _ _ _ _ _ HF Hs) as (n' & Hn' & Hspec).
    apply lookup_seq in Hn' as [-> _]. done.
Qed.

(** X15.  There are as many series as the busiest day of the month has sets
    of the exercise: no day has more sets than there are series, some day
    has exactly that many, and so there is at least one series. *)
Theorem series_count_is_busiest_day :
  (∀ d, 1 ≤ d ≤ 31 →
        (length (day_records df exercise (date year month d)) ≤ length series)%nat) ∧
  (∃ d, 1 ≤ d ≤ 31 ∧
        length (day_records df exercise (date year month d)) = length series) ∧
  (1 ≤ length series)%nat.
Proof.
  destruct series_spec as (day_range & _ & _ & Hle & Hatt & _).
  split; [done|]. split; [done|].
  unfold get_col in Hex. apply list_elem_of_fmap in Hex as (r & Hr & Hin).
  destruct (normalized_day_rows year month df Hnorm Hdated) as [Hrows _].
  rewrite Forall_forall in Hrows. destruct (Hrows r Hin) as (d & Hd & Hdate).
  specialize (Hle d Hd).
  assert (r ∈ day_records df exercise (date year month d)) as Hmem
    by (apply list_elem_of_filter; done).
  destruct (day_records df exercise (date year month d)); [by apply elem_of_nil in Hmem|].
  simpl in Hle. lia.
Qed.

Lemma day_sets_ranked d i j ri rj :
  (i ≤ j)%nat →
  day_sets pd df exercise d !! i = Some ri →
  day_sets pd df exercise d !! j = Some rj →
  cell_int (rj !!! "count") ≤ cell_int (ri !!! "count").
Proof.
  intros Hij Hi Hj.
  destruct (decide (i = j)) as [->|Hne]; [simplify_eq; lia|].
  pose proof (sort_values_desc_Sorted pd Hsort "count"
    (filter (λ r : gmap string Cell, r !!! "date" = VTime d)
       (filter (λ r : gmap string Cell, r !!! "exercise" = VStr exercise) (rows df))))
    as Hsorted.
  fold (day_sets pd df exercise d) in Hsorted.
  apply (Sorted_StronglySorted (λ a b : Z, b ≤ a)) in Hsorted.
  apply (StronglySorted_lookup_lt _ _ i j _ _ Hsorted); [lia|..].
  - by rewrite list_lookup_fmap, Hi.
  - by rewrite list_lookup_fmap, Hj.
Qed.

(** X16.  On each day of the day range the first series holds the largest
    count among the day's sets of the exercise: no set of that day has
    more, and when the day has a set, one of them has exactly that count. *)
Theorem first_series_is_daily_best s0 day_range d :
  series !! 0%nat = Some s0 →
  day_range_of today year month = inr day_range →
  1 ≤ d ≤ day_range →
  (∀ r, r ∈ day_records df exercise (date year month d) →
        cell_int (r !!! "count") ≤ series_at s0 d) ∧
  (day_records df exercise (date year month d) ≠ [] →
   ∃ r, r ∈ day_records df exercise (date year month d) ∧
        series_at s0 d = cell_int (r !!! "count")).
Proof.
  intros Hs0 Hdr Hd.
  destruct series_spec as (day_range' & Hdr' & _ & _ & _ & Hspec).
  rewrite Hdr in Hdr'. injection Hdr' as <-.
  destruct (Hspec _ _ Hs0) as [_ Hat]. rewrite (Hat d Hd). unfold nth_count.
  split.
  - intros r Hr. rewrite <- day_sets_records in Hr.
    apply list_elem_of_lookup in Hr as [i Hi].
    destruct (day_sets pd df exercise (date year month d) !! 0%nat) as [r0|] eqn:Hr0.
    + simpl. eapply (day_sets_ranked _ 0 i); [lia|done..].
    + apply lookup_ge_None in Hr0. apply lookup_lt_Some in Hi. lia.
  - intros Hne.
    destruct (day_sets pd df exercise (date year month d)) as [|r0 g] eqn:Hg.
    + exfalso. apply Hne. apply Permutation_nil_r. by rewrite <- day_sets_records, Hg.
    + exists r0. split; [|done]. rewrite <- day_sets_records, Hg. by left.
Qed.

(** X17.  When no count is negative the series are ranked: on every day of
    the day range a series holds at least as much as any later series. *)
Theorem series_are_ranked n n' s s' day_range d :
  Forall (λ r : gmap string Cell, 0 ≤ cell_int (r !!! "count")) (rows df) →
  (n ≤ n')%nat →
  series !! n = Some s → series !! n' = Some s' →
  day_range_of today year month = inr day_range →
  1 ≤ d ≤ day_range →
  series_at s' d ≤ series_at s d.
Proof.
  intros Hpos Hnn Hs Hs' Hdr Hd.
  destruct series_spec as (day_range' & Hdr' & _ & _ & _ & Hspec).
  rewrite Hdr in Hdr'. injection Hdr' as <-.
  destruct (Hspec _ _ Hs) as [_ Hat]. destruct (Hspec _ _ Hs') as [_ Hat'].
  rewrite (Hat d Hd), (Hat' d Hd). unfold nth_count.
  assert (Hnonneg : ∀ i r, day_sets pd df exercise (date year month d) !! i = Some r →
                           0 ≤ cell_int (r !!! "count")).
  { intros i r Hi. apply list_elem_of_lookup_2 in Hi.
    rewrite day_sets_records in Hi. apply list_elem_of_filter in Hi as [_ Hi].
    rewrite Forall_forall in Hpos. by apply Hpos. }
  destruct (day_sets pd df exercise (date year month d) !! n') as [r'|] eqn:Hr'.
  - destruct (day_sets pd df exercise (date year month d) !! n) as [r|] eqn:Hr.
    + simpl. by eapply day_sets_ranked.
    + apply lookup_ge_None in Hr. apply lookup_lt_Some in Hr'. lia.
  - simpl. destruct (day_sets pd df exercise (date year month d) !! n) as [r|] eqn:Hr.
    + simpl. by eapply Hnonneg.
    + done.
Qed.

(** X18.  When the library reads back the dates the stratifier formats,
    every series has the columns date and count, and its dates are the days
    of the day range in calendar order, whether or not a day has a set. *)
Theorem series_dates_are_the_days n s day_range :
  (∀ d, 1 ≤ d ≤ 31 →
        parse_datetime pd (VStr (strftime date_format (date year month d))) =
        Some (date year month d)) →
  series !! n = Some s →
  day_range_of today year month = inr day_range →
  columns s = ["date"; "count"] ∧
  get_col "date" s = (λ d, VTime (date year month d)) <$> seqZ 1 day_range.
Proof.
  intros Hround Hs Hdr.
  assert (Hne : rows df ≠ []).
  { intros Hnil. unfold get_col in Hex. rewrite Hnil in Hex. by apply elem_of_nil in Hex. }
  destruct (normalized_day_rows year month df Hnorm Hdated) as [Hrows Hmonth].
  destruct (Hmonth Hne) as (ndays & Hnd & Hyear).
  destruct (day_range_of_valid today year month ndays Htoday Hnd)
    as (day_range' & Hdr' & Hrange).
  rewrite Hdr in Hdr'. injection Hdr' as <-.
  pose proof (monthrange_bounds _ _ _ Hnd) as [_ Hndays].
  pose proof Hrun as Hrun'. unfold run in Hrun'.
  rewrite (stratify_exercise_month_normalized pd df [] today exercise date_format
             year month Hnorm Hdated Hex) in Hrun'.
  cbn [snd] in Hrun'. cbv zeta in Hrun'.
  destruct (py_max _) as [e|n_sets_max]; [done|]. cbn [mbind Result_bind] in Hrun'.
  rewrite Hdr in Hrun'. cbn [mbind Result_bind] in Hrun'.
  apply mapM_inr_inv in Hrun'.
  destruct (Forall2_lookup_r _ _ _ _ _ Hrun' Hs) as (n' & Hn' & Hframe).
  apply lookup_seq in Hn' as [-> _]. cbn [Nat.add] in Hframe.
  apply nth_set_frame_inr in Hframe as (reps & dates & Hreps & Hreps_ne & Hdates & ->).
  pose proof (Forall2_length _ _ _ Hreps) as Hlen1.
  pose proof (Forall2_length _ _ _ Hdates) as Hlen2.
  split; [by rewrite columns_set_col by (cbn [columns]; set_solver)|].
  rewrite get_col_set_col_eq by done.
  symmetry. apply list_eq_Forall2, Forall2_fmap_l.
  apply Forall2_same_length_lookup_2; [congruence|].
  intros i d c Hd Hc. simpl.
  apply lookup_seqZ in Hd as [-> Hi].
  destruct (lookup_lt_is_Some_2 reps i) as [r Hr]; [rewrite <- Hlen1, length_seqZ; lia|].
  assert (Hday : nth_set_of_day
                   (group_by_day pd date_format
                      (filter (λ r : gmap string Cell, r !!! "exercise" = VStr exercise)
                              (rows df)))
                   date_format (Some year) (Some month) n (1 + Z.of_nat i) = inr r).
  { eapply (Forall2_lookup_lr _ _ _ i) in Hreps; [exact Hreps| |exact Hr].
    apply lookup_seqZ. split; [done|lia]. }
  assert (Hcell : to_datetime_cell pd (r !!! "date") = Some c)
    by (eapply (Forall2_lookup_lr _ _ _ i) in Hdates; [exact Hdates|exact Hr|exact Hc]).
  rewrite (nth_set_of_day_valid _ _ _ _ ndays) in Hday by (done || lia).
  rewrite (group_by_day_nth pd Hsort) in Hday by (done || lia).
  injection Hday as <-.
  destruct (day_sets pd df exercise (date year month (1 + Z.of_nat i)) !! n) as [r0|] eqn:Hr0.
  - rewrite (proj2 (lookup_total_two_cells _ _)) in Hcell.
    apply list_elem_of_lookup_2, elem_of_day_sets in Hr0 as (_ & Hdate & _); [|done].
    rewrite Hdate in Hcell. simpl in Hcell. by injection Hcell as <-.
  - rewrite (proj2 (lookup_total_two_cells _ _)) in Hcell. simpl in Hcell.
    rewrite Hround in Hcell by lia. simpl in Hcell. by injection Hcell as <-.
Qed.

End RankedSeries.

Lemma pandas_ref_reads_november d :
  1 ≤ d ≤ 31 →
  parse_datetime pandas_ref (VStr (strftime default_date_format (date 2024 11 d))) =
  Some (date 2024 11 d).
Proof.
  intros Hd.
  assert (Hall : Forall (λ d, parse_datetime pandas_ref
                    (VStr (strftime default_date_format (date 2024 11 d))) =
                    Some (date 2024 11 d)) (seqZ 1 31)) by compute_done.
  rewrite Forall_forall in Hall. apply Hall, elem_of_seqZ. lia.
Qed.

(** What the stratifier returns for the pushups of the example, on day 2. *)
Lemma pushups_series_run :
  (run (stratify_exercise_month pandas_ref (date 2024 11 2) "pushups" default_date_format)
       pushups_month).2 = inr pushups_series.
Proof. compute_done. Qed.

Lemma second_of_november_valid : valid_date (date 2024 11 2).
Proof. compute_done. Qed.

Lemma series_count_is_busiest_day_witness : (1 ≤ length pushups_series)%nat.
Proof.
  apply (series_count_is_busiest_day pandas_ref pandas_ref_sorts_descending
           (date 2024 11 2) second_of_november_valid
           pushups_month pushups_month_normalized 2024 11 pushups_month_dated
           "pushups" pushups_month_has_pushups
           default_date_format (default_date_format_distinct 2024 11)
           pandas_ref_parses_november pushups_series pushups_series_run).
Defined.

Lemma first_series_is_daily_best_witness :
  (∀ r, r ∈ day_records pushups_month "pushups" (date 2024 11 1) →
        cell_int (r !!! "count") ≤
        series_at (default empty_frame (pushups_series !! 0%nat)) 1) ∧
  (day_records pushups_month "pushups" (date 2024 11 1) ≠ [] →
   ∃ r, r ∈ day_records pushups_month "pushups" (date 2024 11 1) ∧
        series_at (default empty_frame (pushups_series !! 0%nat)) 1 =
        cell_int (r !!! "count")).
Proof.
  apply (first_series_is_daily_best pandas_ref pandas_ref_sorts_descending
           (date 2024 11 2) second_of_november_valid
           pushups_month pushups_month_normalized 2024 11 pushups_month_dated
           "pushups" pushups_month_has_pushups
           default_date_format (default_date_format_distinct 2024 11)
           pandas_ref_parses_november pushups_series pushups_series_run
           (default empty_frame (pushups_series !! 0%nat)) 2 1).
  - compute_done.
  - compute_done.
  - lia.
Defined.

Lemma series_are_ranked_witness :
  series_at (default empty_frame (pushups_series !! 1%nat)) 1 ≤
  series_at (default empty_frame (pushups_series !! 0%nat)) 1.
Proof.
  apply (series_are_ranked pandas_ref pandas_ref_sorts_descending
           (date 2024 11 2) second_of_november_valid
           pushups_month pushups_month_normalized 2024 11 pushups_month_dated
           "pushups" pushups_month_has_pushups
           default_date_format (default_date_format_distinct 2024 11)
           pandas_ref_parses_november pushups_series pushups_series_run
           0%nat 1%nat _ _ 2 1).
  - compute_done.
  - lia.
  - compute_done.
  - compute_done.
  - compute_done.
  - lia.
Defined.

Lemma series_dates_are_the_days_witness :
  get_col "date" (default empty_frame (pushups_series !! 1%nat)) =
  [VTime (date 2024 11 1); VTime (date 2024 11 2)].
Proof.
  apply (series_dates_are_the_days pandas_ref pandas_ref_sorts_descending
           (date 2024 11 2) second_of_november_valid
           pushups_month pushups_month_normalized 2024 11 pushups_month_dated
           "pushups" pushups_month_has_pushups
           default_date_format (default_date_format_distinct 2024 11)
           pandas_ref_parses_november pushups_series pushups_series_run
           1%nat (default empty_frame (pushups_series !! 1%nat)) 2).
  - apply pandas_ref_reads_november.
  - compute_done.
  - compute_done.
Defined.

(** ** The projection, at the edges *)

Lemma sum_col_nonneg col rs :
  Forall (λ r : gmap string Cell, 0 ≤ cell_int (r !!! col)) rs → 0 ≤ sum_col col rs.
Proof.
  unfold sum_col. induction 1 as [|r rs Hr _ IH]; rewrite ?fmap_cons; cbn [foldr]; [done|lia].
Qed.

Lemma sum_col_filter_le col (P : gmap string Cell → Prop) `{∀ r, Decision (P r)} rs :
  Forall (λ r : gmap string Cell, 0 ≤ cell_int (r !!! col)) rs →
  sum_col col (filter P rs) ≤ sum_col col rs.
Proof.
  unfold sum_col. induction 1 as [|r rs Hr _ IH]; [done|].
  rewrite filter_cons. destruct (decide (P r)); rewrite ?fmap_cons; cbn [foldr]; lia.
Qed.

Section ProjectionEdges.

Context (pd : Pandas).

Lemma exercise_projection_inr doc today exercise goal_total ws p :
  exercise_projection pd doc today exercise goal_total = (ws, inr p) →
  ∃ df days_in_month,
    import_month pd doc (ts_year today) (ts_month today) = (ws, inr df) ∧
    VStr exercise ∈ get_col "exercise" df ∧
    monthrange (ts_year today) (ts_month today) = inr days_in_month ∧
    let df_subset :=
      filter (λ r : gmap string Cell, r !!! "exercise" = VStr exercise) (rows df) in
    let month_total := sum_col "count" df_subset in
    let today_total :=
      sum_col "count"
        (filter (λ r : gmap string Cell, dt ts_day (r !!! "date") = Some (ts_day today))
                df_subset) in
    p = mkProjection today_total month_total
          (true_divide (goal_total - (month_total - today_total))
                       (days_in_month - (ts_day today - 1)))
          (true_divide (goal_total - month_total) (days_in_month - ts_day today)).
Proof.
  unfold exercise_projection. cbv zeta.
  destruct (import_month pd doc _ _) as [ws' [e|df]]; [done|].
  destruct (decide (VStr exercise ∈ _)) as [Hex|]; [|done].
  destruct (monthrange _ _) as [e|days_in_month]; [done|].
  cbn [mbind Result_bind mret Result_ret]. intros [= <- <-].
  exists df, days_in_month. split; [done|]. split; [by apply elem_of_unique|]. done.
Qed.

(** X19.  On a date that exists, the pace as of this morning is always a
    number, and the pace for the end of the day is a division by zero, so
    not a number, exactly on the last day of the month. *)
Theorem projection_divides_by_zero_on_last_day doc today exercise goal_total ws p :
  valid_date today →
  exercise_projection pd doc today exercise goal_total = (ws, inr p) →
  reps_per_day_morning p ≠ NotFinite ∧
  (reps_per_day_eod p = NotFinite ↔
   monthrange (ts_year today) (ts_month today) = inr (ts_day today)).
Proof.
  intros Htoday Hp.
  apply exercise_projection_inr in Hp as (df & ndays & _ & _ & Hnd & ->).
  destruct (valid_date_inv today Htoday) as (ndays' & Hnd' & _ & Hday & _).
  rewrite Hnd in Hnd'. injection Hnd' as <-.
  cbn [reps_per_day_morning reps_per_day_eod]. unfold true_divide. split.
  - rewrite decide_False by lia. done.
  - rewrite Hnd. case_decide as Hz.
    + split; [|done]. intros _. f_equal. lia.
    + split; [done|]. intros [= Heq]. lia.
Qed.

(** X20.  When no count of the sheet is negative, the total the projection
    reports for today is between zero and the total it reports for the
    month. *)
Theorem projection_today_within_month doc today exercise goal_total ws p :
  (∀ df, import_month pd doc (ts_year today) (ts_month today) = (ws, inr df) →
         Forall (λ r : gmap string Cell, 0 ≤ cell_int (r !!! "count")) (rows df)) →
  exercise_projection pd doc today exercise goal_total = (ws, inr p) →
  0 ≤ sum_day p ≤ sum_month p.
Proof.
  intros Hpos Hp.
  apply exercise_projection_inr in Hp as (df & ndays & Himp & _ & _ & ->).
  specialize (Hpos df Himp). cbn [sum_day sum_month].
  assert (Hsub : Forall (λ r : gmap string Cell, 0 ≤ cell_int (r !!! "count"))
                   (filter (λ r : gmap string Cell, r !!! "exercise" = VStr exercise)
                           (rows df))).
  { apply Forall_forall. intros r [_ Hr]%list_elem_of_filter.
    rewrite Forall_forall in Hpos. by apply Hpos. }
  split.
  - apply sum_col_nonneg. apply Forall_forall. intros r [_ Hr]%list_elem_of_filter.
    rewrite Forall_forall in Hsub. by apply Hsub.
  - by apply sum_col_filter_le.
Qed.

End ProjectionEdges.

Lemma import_month_november :
  import_month pandas_ref november_doc 2024 11 = ([], inr november_frame).
Proof. compute_done. Qed.

Lemma projection_divides_by_zero_on_last_day_witness :
  reps_per_day_eod (mkProjection 0 100 (Finite (Qc_of_Z 200)) NotFinite) = NotFinite ↔
  monthrange 2024 11 = inr 30.
Proof.
  apply (projection_divides_by_zero_on_last_day pandas_ref november_doc (date 2024 11 30)
           "pushups" 300 [] (mkProjection 0 100 (Finite (Qc_of_Z 200)) NotFinite)).
  - compute_done.
  - compute_done.
Defined.

Lemma projection_today_within_month_witness :
  0 ≤ sum_day (mkProjection 10 100 (Finite (Qc_of_Z 10)) (Finite (Qc_of_Z 10)))
    ≤ sum_month (mkProjection 10 100 (Finite (Qc_of_Z 10)) (Finite (Qc_of_Z 10))).
Proof.
  apply (projection_today_within_month pandas_ref november_doc (date 2024 11 10)
           "pushups" 300 []).
  - intros df Himp.
    change (ts_year (date 2024 11 10)) with 2024 in Himp.
    change (ts_month (date 2024 11 10)) with 11 in Himp.
    rewrite import_month_november in Himp. injection Himp as <-. compute_done.
  - compute_done.
Defined.

(** ** The stacked bar chart *)

Lemma foldl_insert_lookup_inv {K V} (f : K → string) (l : list (K * V))
    (acc : gmap string V) s v :
  foldl (λ d kv, <[f kv.1 := kv.2]> d) acc l !! s = Some v →
  acc !! s = Some v ∨ ∃ k, (k, v) ∈ l.
Proof.
  revert acc. induction l as [|[k' v'] l IH]; intros acc; simpl; [by left|].
  intros [Hacc|(k & Hk)]%IH.
  - destruct (decide (f k' = s)) as [<-|Hne].
    + rewrite lookup_insert_eq in Hacc. injection Hacc as ->.
      right. exists k'. by left.
    + rewrite lookup_insert_ne in Hacc by done. by left.
  - right. exists k. by right.
Qed.

Section Chart.

Context (pd : Pandas) (Hsort : sorts_descending pd).

(** Every day the stratifier has grouped has at least one set. *)
Lemma group_by_day_nonempty date_format rs s g :
  group_by_day pd date_format rs !! s = Some g → (1 ≤ length g)%nat.
Proof.
  unfold group_by_day. rewrite lookup_fmap.
  destruct (foldl _ ∅ (groupby_date rs) !! s) as [g0|] eqn:Hg0; [|done].
  simpl. intros [= <-]. rewrite length_sort_values_desc by done.
  apply foldl_insert_lookup_inv in Hg0 as [Hempty|(k & Hk)]; [done|].
  apply groupby_date_elem_of in Hk as [Hk ->].
  apply groupby_date_keys in Hk as (r & Hr & Hdate).
  assert (r ∈ filter (λ r : gmap string Cell, r !!! "date" = VTime k) rs) as Hmem
    by (apply list_elem_of_filter; done).
  destruct (filter _ rs); [by apply elem_of_nil in Hmem|]. simpl. lia.
Qed.

Lemma n_sets_max_positive date_format rs n :
  py_max (length <$> (map_to_list (group_by_day pd date_format rs)).*2) = inr n →
  (1 ≤ n)%nat.
Proof.
  unfold py_max.
  destruct (length <$> _) as [|x xs] eqn:Hxs; [done|]. intros [= <-].
  assert (Hx : x ∈ length <$> (map_to_list (group_by_day pd date_format rs)).*2)
    by (rewrite Hxs; left).
  apply list_elem_of_fmap in Hx as (g & -> & Hg).
  apply list_elem_of_fmap in Hg as ([s g'] & -> & Hg).
  apply elem_of_map_to_list in Hg. apply group_by_day_nonempty in Hg.
  simpl in *. lia.
Qed.

(** The series of the stratifier are never none, and all have as many rows
    as each other. *)
Lemma strata_uniform today exercise date_format df series :
  strata pd today exercise date_format df = inr series →
  ∃ day_range : nat,
    series ≠ [] ∧ Forall (λ s, length (rows s) = day_range) series.
Proof.
  intros (year & month & n & dr & _ & _ & _ & Hmax & Hseries)%strata_inr.
  apply n_sets_max_positive in Hmax. apply mapM_inr_inv in Hseries.
  exists (Z.to_nat dr). split.
  - intros ->. apply Forall2_length in Hseries. rewrite length_seq in Hseries.
    simpl in Hseries. lia.
  - apply Forall_forall. intros s [i Hs]%list_elem_of_lookup.
    destruct (Forall2_lookup_r _ _ _ _ _ Hseries Hs) as (k & _ & Hframe).
    by apply nth_set_frame_length in Hframe as [? _].
Qed.

Lemma elements_uniform {A} (f : A → nat) (l : list A) n :
  l ≠ [] → Forall (λ x, f x = n) l →
  elements (list_to_set (C := gset nat) (f <$> l)) = [n].
Proof.
  intros Hne Hall.
  assert (list_to_set (C := gset nat) (f <$> l) = {[ n ]}) as ->.
  { apply set_eq. intros m. rewrite elem_of_list_to_set, list_elem_of_fmap, elem_of_singleton.
    rewrite Forall_forall in Hall. split.
    - intros (x & -> & Hx). by apply Hall.
    - intros ->. destruct l as [|x l]; [done|]. exists x. split; [|by left].
      symmetry. apply Hall. by left. }
  apply elements_singleton.
Qed.

(** X21.  The chart never fails with its complaint that the series have
    different lengths: the stratifier's series always have the same length,
    and there is always one at least. *)
Theorem stacked_bar_lengths_always_agree doc today exercise year month :
  (stacked_bar_exercise_month pd doc today exercise year month).2 ≠ inl NonuniformLength.
Proof.
  unfold stacked_bar_exercise_month.
  destruct (import_month pd doc year month) as [ws [e|df]]; [done|].
  rewrite stratify_exercise_month_run.
  destruct (clean_exercise_sheet pd (mkWorld df ws)) as [w' [e|[]]]; [done|].
  destruct (strata pd today exercise default_date_format (frame w'))
    as [e|series] eqn:Hs; [done|].
  apply strata_uniform in Hs as (day_range & Hne & Hall).
  cbn [snd]. cbv zeta. rewrite (elements_uniform _ _ day_range) by done.
  by destruct (stack_bars series (replicate day_range 0)).
Qed.

End Chart.

Lemma stacked_bar_lengths_always_agree_witness :
  (stacked_bar_exercise_month pandas_ref november_doc (date 2024 11 10) "pushups"
     2024 11).2 ≠ inl NonuniformLength.
Proof.
  apply (stacked_bar_lengths_always_agree pandas_ref pandas_ref_sorts_descending).
Defined.

Lemma lookup_total_zip_with_add (xs ys : list Z) i :
  (i < length xs)%nat → (i < length ys)%nat →
  zip_with Z.add xs ys !!! i = xs !!! i + ys !!! i.
Proof.
  intros [x Hx]%lookup_lt_is_Some_2 [y Hy]%lookup_lt_is_Some_2.
  rewrite (list_lookup_total_correct _ _ _ Hx), (list_lookup_total_correct _ _ _ Hy).
  apply list_lookup_total_correct, lookup_zip_with_Some. eauto.
Qed.

Lemma column_inr col df vals : column col df = inr vals → vals = get_col col df.
Proof. unfold column. case_decide; [|done]. by intros [= <-]. Qed.

(** The loop of the chart: each container holds the dates and the counts of
    its series, on bottoms that are the bottoms the loop started from plus
    the heights of the containers drawn before. *)
Lemma stack_bars_spec nth_set_list bottoms bars :
  stack_bars nth_set_list bottoms = inr bars →
  Forall (λ s, length (rows s) = length bottoms) nth_set_list →
  Forall2 (λ s b, bar_x b = get_col "date" s ∧
                  bar_height b = cell_int <$> get_col "count" s) nth_set_list bars ∧
  ∀ n b, bars !! n = Some b →
    length (bar_bottom b) = length bottoms ∧
    ∀ i, (i < length bottoms)%nat →
         bar_bottom b !!! i =
         bottoms !!! i + sum_list_Z ((λ b', bar_height b' !!! i) <$> take n bars).
Proof.
  revert bottoms bars. induction nth_set_list as [|s l IH]; intros bottoms bars.
  - intros [= <-] _. split; [constructor|]. intros n b Hb. by rewrite lookup_nil in Hb.
  - cbn [stack_bars].
    destruct (column "date" s) as [e|x] eqn:Hx; [done|]. cbn [mbind Result_bind].
    destruct (column "count" s) as [e|h] eqn:Hh; [done|]. cbn [mbind Result_bind].
    cbv zeta.
    destruct (stack_bars l _) as [e|later] eqn:Hlater; [done|].
    cbn [mbind Result_bind mret Result_ret]. intros [= <-] Hlen.
    apply column_inr in Hx as ->. apply column_inr in Hh as ->.
    apply Forall_cons in Hlen as [Hs Hl].
    assert (Hh : length (cell_int <$> get_col "count" s) = length bottoms)
      by by rewrite length_fmap, length_get_col.
    assert (Hb' : length (zip_with Z.add bottoms (cell_int <$> get_col "count" s)) =
                  length bottoms) by (rewrite length_zip_with; lia).
    destruct (IH _ _ Hlater) as [HF Hbot]; [by rewrite Hb'|].
    split; [by constructor|].
    intros [|n] b Hb.
    + injection Hb as <-. cbn [bar_bottom]. split; [done|]. intros i Hi.
      cbn [take fmap list_fmap sum_list_Z foldr]. lia.
    + cbn [lookup list_lookup] in Hb. destruct (Hbot n b Hb) as [Hlb Hsum].
      split; [by rewrite Hlb|]. intros i Hi.
      rewrite Hsum by (by rewrite Hb').
      rewrite lookup_total_zip_with_add by (done || by rewrite Hh).
      cbn [take]. rewrite fmap_cons. unfold sum_list_Z. cbn [foldr bar_height]. lia.
Qed.

Section ChartBars.

Context (pd : Pandas) (Hsort : sorts_descending pd).

Lemma stacked_bar_inr doc today exercise year month ws bars :
  stacked_bar_exercise_month pd doc today exercise year month = (ws, inr bars) →
  ∃ ws0 df w series day_range,
    import_month pd doc year month = (ws0, inr df) ∧
    stratify_exercise_month pd today exercise default_date_format (mkWorld df ws0) =
      (w, inr series) ∧
    ws = warned w ∧
    series ≠ [] ∧ Forall (λ s, length (rows s) = day_range) series ∧
    stack_bars series (replicate day_range 0) = inr bars.
Proof.
  unfold stacked_bar_exercise_month.
  destruct (import_month pd doc year month) as [ws0 [e|df]]; [done|].
  pose proof (stratify_exercise_month_run pd today exercise default_date_format
                (mkWorld df ws0)) as Hrun.
  destruct (stratify_exercise_month pd today exercise default_date_format (mkWorld df ws0))
    as [w [e|series]] eqn:Hstrat; [done|].
  destruct (clean_exercise_sheet pd (mkWorld df ws0)) as [w' [e|[]]]; [done|].
  injection Hrun as -> Hs. symmetry in Hs.
  apply (strata_uniform pd Hsort) in Hs as (day_range & Hne & Hall).
  cbv zeta. rewrite (elements_uniform _ _ day_range) by done.
  destruct (stack_bars series (replicate day_range 0)) as [e|bars'] eqn:Hbars; [done|].
  intros [= <- <-]. exists ws0, df, w', series, day_range. done.
Qed.

(** X22.  In the chart the containers are stacked: all have one bar per day
    of the same range of days, the first stands on zero, and every other
    one stands, day by day, on the sum of the heights of those drawn before
    it. *)
Theorem stacked_bars_stand_on_each_other doc today exercise year month ws bars :
  stacked_bar_exercise_month pd doc today exercise year month = (ws, inr bars) →
  ∃ day_range : nat,
    bars ≠ [] ∧
    Forall (λ b, length (bar_x b) = day_range ∧ length (bar_height b) = day_range ∧
                 length (bar_bottom b) = day_range) bars ∧
    ∀ n b i, bars !! n = Some b → (i < day_range)%nat →
      bar_bottom b !!! i = sum_list_Z ((λ b', bar_height b' !!! i) <$> take n bars).
Proof.
  intros (ws0 & df & w & series & day_range & _ & _ & _ & Hne & Hall & Hbars)%stacked_bar_inr.
  apply stack_bars_spec in Hbars as [HF Hbot];
    [|by rewrite length_replicate].
  exists day_range. split; [|split].
  - intros ->. apply Forall2_length in HF. by destruct series.
  - apply Forall_forall. intros b [n Hb]%list_elem_of_lookup.
    destruct (Forall2_lookup_r _ _ _ _ _ HF Hb) as (s & Hs & -> & ->).
    destruct (Hbot n b Hb) as [Hlb _]. rewrite length_replicate in Hlb.
    rewrite Forall_forall in Hall. apply list_elem_of_lookup_2, Hall in Hs.
    by rewrite length_fmap, !length_get_col.
  - intros n b i Hb Hi. destruct (Hbot n b Hb) as [_ Hsum].
    rewrite Hsum by (by rewrite length_replicate).
    rewrite (list_lookup_total_correct _ i 0) by (by apply lookup_replicate_2). lia.
Qed.

(** X23.  For a sheet that loads into a normalized table, the chart is
    drawn, and on each day of the day range the heights of the bars add up
    to the total logged for the exercise on that day. *)
Theorem stacked_bar_reaches_day_total doc today exercise year month ws df :
  valid_date today →
  import_month pd doc year month = (ws, inr df) →
  normalized df →
  VStr exercise ∈ get_col "exercise" df →
  (∀ d, 1 ≤ d ≤ 31 →
        is_Some (parse_datetime pd
                   (VStr (strftime default_date_format (date year month d))))) →
  ∃ day_range bars,
    day_range_of today year month = inr day_range ∧
    stacked_bar_exercise_month pd doc today exercise year month =
      (ws ++ warnings_of df, inr bars) ∧
    ∀ d, 1 ≤ d ≤ day_range →
         sum_list_Z ((λ b, bar_height b !!! Z.to_nat (d - 1)) <$> bars) =
         day_total df exercise (date year month d).
Proof.
  intros Htoday Himp Hnorm Hex Hparse.
  assert (Hdated : dated_in_month year month df).
  { apply import_month_success in Himp as [_ Hrows].
    eapply Forall_impl; [exact Hrows|]. intros r [[Hy _] [Hm _]]. done. }
  destruct (stratify_series pd today df ws exercise default_date_format year month)
    as (day_range & series & Hdr & Hrange & Hrun & Hle & _ & HF); try done.
  { apply default_date_format_distinct. }
  assert (Hlen : Forall (λ s, length (rows s) = Z.to_nat day_range) series).
  { apply Forall_forall. intros s [n Hs]%list_elem_of_lookup.
    destruct (Forall2_lookup_r _ _ _ _ _ HF Hs) as (k & _ & Hl & _). done. }
  assert (Hne : series ≠ []).
  { pose proof (stratify_exercise_month_run pd today exercise default_date_format
                  (mkWorld df ws)) as Hrun'.
    rewrite Hrun in Hrun'.
    destruct (clean_exercise_sheet pd (mkWorld df ws)) as [w' [e|[]]]; [done|].
    injection Hrun' as _ Hs. symmetry in Hs.
    by apply (strata_uniform pd Hsort) in Hs as (? & ? & _). }
  assert (Hcols : Forall (λ s, "date" ∈ columns s ∧ "count" ∈ columns s) series).
  { pose proof (stratify_exercise_month_run pd today exercise default_date_format
                  (mkWorld df ws)) as Hrun'.
    rewrite Hrun in Hrun'.
    destruct (clean_exercise_sheet pd (mkWorld df ws)) as [w' [e|[]]]; [done|].
    injection Hrun' as _ Hs. symmetry in Hs.
    apply strata_inr in Hs as (y & m & n & dr & _ & _ & _ & _ & Hseries).
    apply mapM_inr_inv in Hseries.
    apply Forall_forall. intros s [i Hs]%list_elem_of_lookup.
    destruct (Forall2_lookup_r _ _ _ _ _ Hseries Hs) as (k & _ & Hframe).
    apply nth_set_frame_inr in Hframe as (reps & dates & _ & _ & _ & ->).
    rewrite columns_set_col by (cbn [columns]; set_solver).
    cbn [columns]. set_solver. }
  assert (Hbars : ∃ bars, stack_bars series (replicate (Z.to_nat day_range) 0) = inr bars).
  { clear -Hcols. generalize (replicate (Z.to_nat day_range) 0). intros bottoms.
    revert bottoms. induction Hcols as [|s l [Hd Hc] _ IH]; intros bottoms; [by eexists|].
    cbn [stack_bars]. unfold column. rewrite !decide_True by done.
    cbn [mbind Result_bind]. cbv zeta.
    destruct (IH (zip_with Z.add bottoms (cell_int <$> get_col "count" s))) as [later ->].
    by eexists. }
  destruct Hbars as [bars Hbars].
  exists day_range, bars. split; [done|]. split.
  - unfold stacked_bar_exercise_month. rewrite Himp, Hrun. cbn [warned]. cbv zeta.
    rewrite (elements_uniform _ _ (Z.to_nat day_range)) by done.
    by rewrite Hbars.
  - intros d Hd.
    apply stack_bars_spec in Hbars as [HFb _];
      [|by rewrite length_replicate].
    assert (Hheights : (λ b, bar_height b !!! Z.to_nat (d - 1)) <$> bars =
                       (λ s, series_at s d) <$> series).
    { clear -HFb Hlen Hd. induction HFb as [|s b l k [_ Hh] _ IH]; [done|].
      apply Forall_cons in Hlen as [Hs Hl].
      rewrite !fmap_cons. f_equal; [|by apply IH].
      rewrite Hh. unfold series_at.
      apply list_lookup_total_fmap. rewrite length_get_col. lia. }
    rewrite Hheights.
    rewrite (sum_series_at series (λ d, day_sets pd df exercise (date year month d))
               day_range d) by done.
    rewrite sum_nth_count by (apply Hle; lia).
    unfold day_total, day_sets.
    rewrite (sum_col_Permutation _ _ _ (sort_values_desc_Permutation pd Hsort _ _)).
    by rewrite list_filter_filter.
Qed.

End ChartBars.

Lemma stacked_bars_stand_on_each_other_witness :
  ∃ day_range : nat,
    november_bars ≠ [] ∧
    Forall (λ b, length (bar_x b) = day_range ∧ length (bar_height b) = day_range ∧
                 length (bar_bottom b) = day_range) november_bars ∧
    ∀ n b i, november_bars !! n = Some b → (i < day_range)%nat →
      bar_bottom b !!! i =
      sum_list_Z ((λ b', bar_height b' !!! i) <$> take n november_bars).
Proof.
  apply (stacked_bars_stand_on_each_other pandas_ref pandas_ref_sorts_descending
           november_doc (date 2024 11 10) "pushups" 2024 11 []).
  compute_done.
Defined.

Lemma november_frame_normalized : normalized november_frame.
Proof.
  split; [compute_done|]. unfold november_frame. cbn [rows].
  repeat (apply Forall_cons; split; [apply record_normalized; compute_done|]).
  apply Forall_nil. done.
Qed.

Lemma stacked_bar_reaches_day_total_witness :
  ∃ day_range bars,
    day_range_of (date 2024 11 10) 2024 11 = inr day_range ∧
    stacked_bar_exercise_month pandas_ref november_doc (date 2024 11 10) "pushups" 2024 11 =
      ([] ++ warnings_of november_frame, inr bars) ∧
    ∀ d, 1 ≤ d ≤ day_range →
         sum_list_Z ((λ b, bar_height b !!! Z.to_nat (d - 1)) <$> bars) =
         day_total november_frame "pushups" (date 2024 11 d).
Proof.
  apply (stacked_bar_reaches_day_total pandas_ref pandas_ref_sorts_descending
           november_doc (date 2024 11 10) "pushups" 2024 11 [] november_frame).
  - compute_done.
  - apply import_month_november.
  - apply november_frame_normalized.
  - apply list_elem_of_lookup. by exists 0%nat.
  - apply pandas_ref_parses_november.
Defined.

(** ** The statistics *)

Lemma sum_list_Z_add {A} (f g : A → Z) (l : list A) :
  sum_list_Z ((λ x, f x + g x) <$> l) = sum_list_Z (f <$> l) + sum_list_Z (g <$> l).
Proof.
  unfold sum_list_Z. induction l as [|x l IH]; [done|].
  rewrite !fmap_cons. cbn [foldr]. lia.
Qed.

Lemma sum_list_Z_indicator `{EqDecision A} (l : list A) (x0 : A) (c : Z) :
  NoDup l → x0 ∈ l →
  sum_list_Z ((λ x, if decide (x0 = x) then c else 0) <$> l) = c.
Proof.
  unfold sum_list_Z. induction 1 as [|x l Hx Hnd IH]; intros Hin.
  - by apply elem_of_nil in Hin.
  - rewrite fmap_cons. cbn [foldr]. apply elem_of_cons in Hin as [->|Hin].
    + rewrite decide_True by done.
      assert (Hrest : foldr Z.add 0 ((λ y, if decide (x = y) then c else 0) <$> l) = 0).
      { clear IH Hnd. induction l as [|y l IH]; [done|].
        apply not_elem_of_cons in Hx as [Hne Hx].
        rewrite fmap_cons. cbn [foldr]. rewrite decide_False by done.
        by rewrite IH. }
      lia.
    + rewrite decide_False by (intros ->; done). by rewrite IH.
Qed.

Lemma sum_col_cons col r rs :
  sum_col col (r :: rs) = cell_int (r !!! col) + sum_col col rs.
Proof. done. Qed.

(** Summing the groups of a grouping by date gives back the whole, when the
    keys are distinct and every record has one of them. *)
Lemma sum_by_key (ks : list Timestamp) (rs : list (gmap string Cell)) :
  NoDup ks →
  Forall (λ r : gmap string Cell, ∃ k, k ∈ ks ∧ r !!! "date" = VTime k) rs →
  sum_list_Z ((λ k, sum_col "count"
                      (filter (λ r : gmap string Cell, r !!! "date" = VTime k) rs)) <$> ks)
  = sum_col "count" rs.
Proof.
  intros Hnd. induction 1 as [|r rs (k0 & Hk0 & Hdate) _ IH].
  - unfold sum_list_Z. induction ks as [|k ks IHk]; [done|].
    apply NoDup_cons in Hnd as [_ Hnd]. rewrite fmap_cons. cbn [foldr].
    by rewrite IHk.
  - rewrite sum_col_cons, <- IH.
    rewrite <- (sum_list_Z_indicator ks k0 (cell_int (r !!! "count"))) at 1 by done.
    rewrite <- sum_list_Z_add. f_equal. apply list_fmap_ext. intros _ k _.
    rewrite filter_cons, Hdate.
    destruct (decide (k0 = k)) as [->|Hne].
    + rewrite decide_True by done. by rewrite sum_col_cons.
    + rewrite decide_False by (intros [= ?]; done). lia.
Qed.

Lemma unique_fmap_inj `{EqDecision A, EqDecision B} (f : A → B) `{!Inj (=) (=) f}
    (l : list A) :
  unique (f <$> l) = f <$> unique l.
Proof.
  induction l as [|x l IH]; [done|].
  rewrite fmap_cons. cbn [unique]. rewrite fmap_cons. f_equal.
  rewrite IH. generalize (unique l). intros k.
  induction k as [|y k IHk]; [done|].
  rewrite fmap_cons, !filter_cons.
  destruct (decide (y ≠ x)) as [Hne|Heq].
  - rewrite decide_True by (intros ?%(inj f); done). by rewrite fmap_cons, IHk.
  - rewrite decide_False; [done|]. intros Hf. apply Heq. intros ->. done.
Qed.

Global Instance date_inj year month : Inj (=) (=) (date year month).
Proof. intros d1 d2. by intros [= ?]. Qed.

(** Looking a day up in the day totals gives the sum of the day's records,
    which is 0 when the day has none. *)
Lemma day_total_or_zero_groups rs day :
  day_total_or_zero
    ((λ kg : Timestamp * list (gmap string Cell), (kg.1, sum_col "count" kg.2))
       <$> groupby_date rs) day =
  sum_col "count" (filter (λ r : gmap string Cell, r !!! "date" = VTime day) rs).
Proof.
  unfold day_total_or_zero.
  destruct (list_find _ _) as [[i [k v]]|] eqn:Hfind.
  - apply list_find_Some in Hfind as (Hi & Hk & _). simpl in Hk. subst k.
    rewrite list_lookup_fmap in Hi.
    destruct (groupby_date rs !! i) as [[k g]|] eqn:Hg; [|done].
    simpl in Hi. injection Hi as -> <-.
    apply list_elem_of_lookup_2, groupby_date_elem_of in Hg as [_ ->]. done.
  - apply list_find_None in Hfind.
    assert (Hnone : filter (λ r : gmap string Cell, r !!! "date" = VTime day) rs = []).
    { destruct (filter _ rs) as [|r g] eqn:Hf; [done|]. exfalso.
      assert (r ∈ filter (λ r : gmap string Cell, r !!! "date" = VTime day) rs) as Hr
        by (rewrite Hf; left).
      apply list_elem_of_filter in Hr as [Hdate Hr].
      assert (day ∈ (groupby_date rs).*1) as Hkey by (apply groupby_date_keys; eauto).
      apply list_elem_of_fmap in Hkey as ([k g'] & -> & Hkg).
      rewrite Forall_forall in Hfind.
      apply (Hfind (k, sum_col "count" g')); [|done].
      apply list_elem_of_fmap. by exists (k, g'). }
    by rewrite Hnone.
Qed.

Section Statistics.

Context (pd : Pandas).

(** X24.  Asked for a month number outside 1 to 12, the statistics fail with
    the calendar's illegal-month error before the document is looked at,
    where the month loader alone would fail otherwise or later. *)
Theorem statistics_refuse_illegal_month_first doc today exercise year month :
  valid_date today →
  ¬ 1 ≤ month ≤ 12 →
  exercise_statistics pd doc today exercise year month = ([], inl IllegalMonth).
Proof.
  intros Htoday Hm. unfold exercise_statistics.
  destruct (valid_date_inv today Htoday) as (nd & Hnd%monthrange_bounds & _).
  rewrite decide_False by (intros [_ ->]; lia).
  unfold monthrange. by rewrite decide_False.
Qed.

Context (doc : gmap string (list Table)) (today : Timestamp) (exercise : string).
Context (year month : Z) (ws : list Warning) (df : DataFrame).
Context (Htoday : valid_date today).
Context (Himp : import_month pd doc year month = (ws, inr df)).
Context (Hnorm : normalized df).
Context (Hex : VStr exercise ∈ get_col "exercise" df).

Lemma statistics_month :
  ∃ ndays day_range,
    monthrange year month = inr ndays ∧ 1 ≤ year ≤ 9999 ∧
    day_range_of today year month = inr day_range ∧ 1 ≤ day_range ≤ ndays ∧
    Forall (λ r : gmap string Cell,
              ∃ d, 1 ≤ d ≤ ndays ∧ r !!! "date" = VTime (date year month d)) (rows df).
Proof.
  assert (Hdated : dated_in_month year month df).
  { apply import_month_success in Himp as [_ Hrows].
    eapply Forall_impl; [exact Hrows|]. intros r [[Hy _] [Hm _]]. done. }
  assert (Hne : rows df ≠ []).
  { intros Hnil. unfold get_col in Hex. rewrite Hnil in Hex. by apply elem_of_nil in Hex. }
  destruct (normalized_day_rows year month df Hnorm Hdated) as [_ Hmonth].
  destruct (Hmonth Hne) as (ndays & Hnd & Hyear).
  destruct (day_range_of_valid today year month ndays Htoday Hnd)
    as (day_range & Hdr & Hrange).
  exists ndays, day_range. split_and!; try (done || lia).
  destruct Hnorm as [_ Hrows]. unfold dated_in_month in Hdated.
  apply Forall_forall. intros r Hr.
  rewrite Forall_forall in Hrows, Hdated.
  destruct (Hrows r Hr) as ((d & Hd & Hvalid) & _).
  destruct (Hdated r Hr) as [Hy Hm].
  rewrite (lookup_total_correct _ _ _ Hd) in Hy, Hm |- *. simpl in Hy, Hm.
  injection Hy as Hy. injection Hm as Hm.
  destruct (valid_date_inv d Hvalid) as (nd & Hnd' & _ & Hday & Hdeq).
  rewrite Hy, Hm in Hnd', Hdeq. rewrite Hnd in Hnd'. injection Hnd' as <-.
  exists (ts_day d). split; [done|]. by rewrite Hdeq at 1.
Qed.

Lemma statistics_index ndays day_range :
  monthrange year month = inr ndays → 1 ≤ year ≤ 9999 → 1 ≤ day_range ≤ ndays →
  mapM (py_date year month) (seqZ 1 day_range) = inr (date year month <$> seqZ 1 day_range).
Proof.
  intros Hnd Hyear Hrange. apply mapM_inr. intros d Hd%elem_of_seqZ.
  apply (py_date_valid _ _ _ ndays); [done..|lia].
Qed.

(** What the statistics are on a normalized table. *)
Lemma exercise_statistics_normalized :
  ∃ ndays day_range,
    monthrange year month = inr ndays ∧
    day_range_of today year month = inr day_range ∧ 1 ≤ day_range ≤ ndays ∧
    let df_subset :=
      filter (λ r : gmap string Cell, r !!! "exercise" = VStr exercise) (rows df) in
    let day_totals :=
      (λ kg : Timestamp * list (gmap string Cell), (kg.1, sum_col "count" kg.2))
        <$> groupby_date df_subset in
    let day_totals_inc :=
      (λ d, day_total df exercise (date year month d)) <$> seqZ 1 day_range in
    exercise_statistics pd doc today exercise year month =
    (ws, inr (mkStatistics day_range
                (sum_col "count" df_subset)
                (length (unique ((λ r : gmap string Cell, dt ts_day (r !!! "date"))
                                   <$> df_subset)))
                (series_max (counts df_subset)) (series_mean (counts df_subset))
                (series_median (counts df_subset))
                (series_max day_totals.*2) (series_mean day_totals.*2)
                (series_median day_totals.*2)
                (series_mean day_totals_inc) (series_median day_totals_inc))).
Proof.
  destruct statistics_month as (ndays & day_range & Hnd & Hyear & Hdr & Hrange & _).
  exists ndays, day_range. split; [done|]. split; [done|]. split; [done|]. cbv zeta.
  unfold exercise_statistics.
  assert (Hdr' : (if decide (year = ts_year today ∧ month = ts_month today)
                  then inr (ts_day today) else monthrange year month) = inr day_range).
  { unfold day_range_of in Hdr.
    destruct (decide (year = ts_year today ∧ month = ts_month today)) as [[-> ->]|Hn].
    - by rewrite decide_True in Hdr by done.
    - by rewrite decide_False in Hdr by (intros [-> ->]; by apply Hn). }
  rewrite Hdr', Himp.
  rewrite decide_True by by apply elem_of_unique.
  rewrite (statistics_index ndays) by done. cbn [mbind Result_bind mret Result_ret].
  assert (Hinc : day_total_or_zero
                   ((λ kg : Timestamp * list (gmap string Cell),
                       (kg.1, sum_col "count" kg.2))
                      <$> groupby_date
                            (filter (λ r : gmap string Cell,
                                       r !!! "exercise" = VStr exercise) (rows df)))
                   <$> (date year month <$> seqZ 1 day_range) =
                 (λ d, day_total df exercise (date year month d)) <$> seqZ 1 day_range).
  { rewrite <- list_fmap_compose. apply list_fmap_ext. intros _ d _. simpl.
    rewrite day_total_or_zero_groups. unfold day_total. by rewrite list_filter_filter. }
  by rewrite Hinc.
Qed.

(** X25.  On a sheet that loads into a normalized table holding the
    exercise, the statistics are produced, over the stratifier's day range,
    and the total they report is the sum over the days of the month of the
    totals logged for the exercise on each day. *)
Theorem statistics_total_is_sum_of_days :
  ∃ ndays day_range st,
    monthrange year month = inr ndays ∧
    day_range_of today year month = inr day_range ∧
    exercise_statistics pd doc today exercise year month = (ws, inr st) ∧
    stat_day_range st = day_range ∧
    total st =
      sum_list_Z ((λ d, day_total df exercise (date year month d)) <$> seqZ 1 ndays).
Proof.
  destruct exercise_statistics_normalized as (ndays & day_range & Hnd & Hdr & Hrange & Hst).
  cbv zeta in Hst. eexists ndays, day_range, _. split; [done|]. split; [done|].
  split; [exact Hst|]. split; [done|]. cbn [total].
  destruct statistics_month as (ndays' & _ & Hnd' & _ & _ & _ & Hrows).
  rewrite Hnd in Hnd'. injection Hnd' as <-.
  set (rs := filter (λ r : gmap string Cell, r !!! "exercise" = VStr exercise) (rows df)).
  rewrite <- (sum_by_key (date year month <$> seqZ 1 ndays) rs).
  - rewrite <- list_fmap_compose. f_equal. apply list_fmap_ext. intros _ d _. simpl.
    unfold day_total, rs. by rewrite list_filter_filter.
  - apply (NoDup_fmap_2 _). apply NoDup_seqZ.
  - apply Forall_forall. intros r [_ Hr]%list_elem_of_filter.
    rewrite Forall_forall in Hrows. destruct (Hrows r Hr) as (d & Hd & Hdate).
    exists (date year month d). split; [|done].
    apply list_elem_of_fmap. exists d. split; [done|]. apply elem_of_seqZ. lia.
Qed.

(** X26.  The mean per day that counts the days without a set is the sum of
    the day totals over the day range divided by the day range: the days of
    the month up to today in the current month, all of them otherwise. *)
Theorem statistics_mean_counts_void_days st :
  exercise_statistics pd doc today exercise year month = (ws, inr st) →
  1 ≤ stat_day_range st ∧
  day_range_of today year month = inr (stat_day_range st) ∧
  mean_reps_in_day_inc st =
    Finite (Qc_of_Z (sum_list_Z ((λ d, day_total df exercise (date year month d))
                                   <$> seqZ 1 (stat_day_range st)))
            / Qc_of_Z (stat_day_range st))%Qc.
Proof.
  destruct exercise_statistics_normalized as (ndays & day_range & Hnd & Hdr & Hrange & Hst).
  cbv zeta in Hst. rewrite Hst. intros [= <-].
  cbn [stat_day_range mean_reps_in_day_inc].
  split; [lia|]. split; [done|]. unfold series_mean.
  destruct (_ <$> seqZ 1 day_range) as [|x xs] eqn:Hxs.
  { apply (f_equal length) in Hxs. rewrite length_fmap, length_seqZ in Hxs.
    simpl in Hxs. lia. }
  rewrite <- Hxs, length_fmap, length_seqZ. by rewrite Z2Nat.id by lia.
Qed.

(** X27.  The number of days done is the number of days with a set of the
    exercise, at least one and at most the days of the month, and the mean
    per day that leaves out the other days is the total divided by it. *)
Theorem statistics_mean_per_active_day st ndays :
  exercise_statistics pd doc today exercise year month = (ws, inr st) →
  monthrange year month = inr ndays →
  (1 ≤ days_done st)%nat ∧ Z.of_nat (days_done st) ≤ ndays ∧
  mean_reps_in_day st =
    Finite (Qc_of_Z (total st) / Qc_of_Z (Z.of_nat (days_done st)))%Qc.
Proof.
  destruct exercise_statistics_normalized as (ndays' & day_range & Hnd & Hdr & Hrange & Hst).
  cbv zeta in Hst. rewrite Hst. intros [= <-] Hnd'.
  rewrite Hnd in Hnd'. injection Hnd' as ->.
  cbn [days_done mean_reps_in_day total].
  destruct statistics_month as (ndays' & _ & Hnd' & _ & _ & _ & Hrows).
  rewrite Hnd in Hnd'. injection Hnd' as <-.
  set (rs := filter (λ r : gmap string Cell, r !!! "exercise" = VStr exercise) (rows df)).
  assert (Hrs : Forall (λ r : gmap string Cell,
                          ∃ d, 1 ≤ d ≤ ndays ∧ r !!! "date" = VTime (date year month d)) rs).
  { apply Forall_forall. intros r [_ Hr]%list_elem_of_filter.
    rewrite Forall_forall in Hrows. by apply Hrows. }
  assert (Hne : rs ≠ []).
  { unfold get_col in Hex. apply list_elem_of_fmap in Hex as (r & Hr & Hin).
    assert (r ∈ rs) as Hmem by (apply list_elem_of_filter; done).
    intros Hnil. rewrite Hnil in Hmem. by apply elem_of_nil in Hmem. }
  assert (Hdays : ∃ days : list Z,
            Forall (λ d, 1 ≤ d ≤ ndays) days ∧ days ≠ [] ∧
            (λ r : gmap string Cell, dt ts_day (r !!! "date")) <$> rs = Some <$> days ∧
            omap row_date rs = date year month <$> days).
  { clear -Hrs Hne. induction Hrs as [|r rs (d & Hd & Hdate) _ IH].
    - done.
    - destruct (decide (rs = [])) as [->|Hne'].
      + exists [d]. split_and!; try done; [by constructor| |].
        * rewrite fmap_cons, Hdate. done.
        * cbn [omap list_omap]. unfold row_date. rewrite Hdate. done.
      + destruct (IH Hne') as (days & Hall & _ & Hd1 & Hd2).
        exists (d :: days). split_and!; try done; [by constructor| |].
        * rewrite !fmap_cons, Hdate, Hd1. done.
        * cbn [omap list_omap]. unfold row_date at 1. rewrite Hdate, Hd2. done. }
  destruct Hdays as (days & Hall & Hdne & Hd1 & Hd2).
  rewrite Hd1, (unique_fmap_inj Some), length_fmap.
  assert (Hlen : (1 ≤ length (unique days))%nat).
  { destruct days as [|d days]; [done|]. simpl. lia. }
  assert (Hle : Z.of_nat (length (unique days)) ≤ ndays).
  { assert (unique days ⊆+ seqZ 1 ndays) as Hsub.
    { apply NoDup_submseteq; [apply NoDup_unique|].
      intros d Hd. rewrite elem_of_unique in Hd. rewrite Forall_forall in Hall.
      apply elem_of_seqZ. specialize (Hall d Hd). lia. }
    apply submseteq_length in Hsub. rewrite length_seqZ in Hsub. lia. }
  split; [done|]. split; [done|].
  destruct (groupby_date_keys rs) as [Hnd_keys Hkeys].
  assert (Hgroups : ((λ kg : Timestamp * list (gmap string Cell),
                        (kg.1, sum_col "count" kg.2)) <$> groupby_date rs).*2 =
                    (λ k, sum_col "count"
                            (filter (λ r : gmap string Cell, r !!! "date" = VTime k) rs))
                      <$> (groupby_date rs).*1).
  { rewrite <- !list_fmap_compose. apply list_fmap_ext. intros i [k g] Hkg. simpl.
    apply list_elem_of_lookup_2, groupby_date_elem_of in Hkg as [_ ->]. done. }
  rewrite Hgroups.
  assert (Hcount : length (groupby_date rs).*1 = length (unique days)).
  { rewrite groupby_date_fst, merge_sort_Permutation, Hd2.
    by rewrite (unique_fmap_inj (date year month)), length_fmap. }
  unfold series_mean.
  destruct (_ <$> (groupby_date rs).*1) as [|x xs] eqn:Hxs.
  { apply (f_equal length) in Hxs. rewrite length_fmap, Hcount in Hxs.
    simpl in Hxs. lia. }
  rewrite <- Hxs, length_fmap, Hcount. do 3 f_equal.
  apply sum_by_key; [done|].
  apply Forall_forall. intros r Hr.
  rewrite Forall_forall in Hrs. destruct (Hrs r Hr) as (d & _ & Hdate).
  exists (date year month d). split; [|done]. apply Hkeys. eauto.
Qed.

End Statistics.

Lemma tenth_of_november_valid : valid_date (date 2024 11 10).
Proof. compute_done. Qed.

Lemma november_frame_has_pushups : VStr "pushups" ∈ get_col "exercise" november_frame.
Proof. apply list_elem_of_lookup. by exists 0%nat. Qed.

Lemma november_statistics_run :
  exercise_statistics pandas_ref november_doc (date 2024 11 10) "pushups" 2024 11 =
  ([], inr november_statistics).
Proof. compute_done. Qed.

Lemma statistics_refuse_illegal_month_first_witness :
  exercise_statistics pandas_ref november_doc (date 2024 11 10) "pushups" 2024 13 =
  ([], inl IllegalMonth).
Proof.
  apply (statistics_refuse_illegal_month_first pandas_ref november_doc (date 2024 11 10)
           "pushups" 2024 13).
  - compute_done.
  - lia.
Defined.

Lemma statistics_total_is_sum_of_days_witness :
  ∃ ndays day_range st,
    monthrange 2024 11 = inr ndays ∧
    day_range_of (date 2024 11 10) 2024 11 = inr day_range ∧
    exercise_statistics pandas_ref november_doc (date 2024 11 10) "pushups" 2024 11 =
      ([], inr st) ∧
    stat_day_range st = day_range ∧
    total st =
      sum_list_Z ((λ d, day_total november_frame "pushups" (date 2024 11 d))
                    <$> seqZ 1 ndays).
Proof.
  apply (statistics_total_is_sum_of_days pandas_ref november_doc (date 2024 11 10)
           "pushups" 2024 11 [] november_frame tenth_of_november_valid
           import_month_november november_frame_normalized november_frame_has_pushups).
Defined.

Lemma statistics_mean_counts_void_days_witness :
  1 ≤ stat_day_range november_statistics ∧
  day_range_of (date 2024 11 10) 2024 11 = inr (stat_day_range november_statistics) ∧
  mean_reps_in_day_inc november_statistics =
    Finite (Qc_of_Z (sum_list_Z ((λ d, day_total november_frame "pushups" (date 2024 11 d))
                                   <$> seqZ 1 (stat_day_range november_statistics)))
            / Qc_of_Z (stat_day_range november_statistics))%Qc.
Proof.
  apply (statistics_mean_counts_void_days pandas_ref november_doc (date 2024 11 10)
           "pushups" 2024 11 [] november_frame tenth_of_november_valid
           import_month_november november_frame_normalized november_frame_has_pushups
           november_statistics november_statistics_run).
Defined.

Lemma statistics_mean_per_active_day_witness :
  (1 ≤ days_done november_statistics)%nat ∧
  Z.of_nat (days_done november_statistics) ≤ 30 ∧
  mean_reps_in_day november_statistics =
    Finite (Qc_of_Z (total november_statistics)
            / Qc_of_Z (Z.of_nat (days_done november_statistics)))%Qc.
Proof.
  apply (statistics_mean_per_active_day pandas_ref november_doc (date 2024 11 10)
           "pushups" 2024 11 [] november_frame tenth_of_november_valid
           import_month_november november_frame_normalized november_frame_has_pushups
           november_statistics 30 november_statistics_run).
  reflexivity.
Defined.

(** ** The cumulative plot *)

(** *** Numbers written and read back *)

Lemma digit_of_pretty_N_char (d : N) :
  (d < 10)%N → digit_of (pretty_N_char d) = Some (Z.of_N d).
Proof.
  intros Hd.
  assert (d = 0 ∨ d = 1 ∨ d = 2 ∨ d = 3 ∨ d = 4 ∨ d = 5 ∨ d = 6 ∨ d = 7 ∨ d = 8 ∨ d = 9)%N
    as Hcases by lia.
  destruct_or!; subst; reflexivity.
Qed.

Lemma pretty_N_char_not_hyphen (d : N) : pretty_N_char d ≠ "-"%char.
Proof. unfold pretty_N_char. by repeat case_match. Qed.

Lemma split_on_cons sep s : ∃ w ws, split_on sep s = w :: ws.
Proof.
  induction s as [|a s (w & ws & IH)]; simpl; [by eexists _, _|].
  case_decide; [by eexists _, _|]. rewrite IH. by eexists _, _.
Qed.

(** Reading the digits [pretty_N_go] writes in front of a text. *)
Lemma decimal_go_pretty_N_go (x : N) :
  ∃ p : Z, ∀ s acc,
    decimal_go (pretty_N_go x s) acc = decimal_go s (acc * p + Z.of_N x).
Proof.
  induction (N.lt_wf_0 x) as [x _ IH].
  destruct (decide (x = 0)%N) as [->|Hx].
  - exists 1. intros s acc. rewrite pretty_N_go_0. f_equal. lia.
  - destruct (IH (x `div` 10)%N) as [p Hp]; [apply N.div_lt; lia|].
    exists (10 * p). intros s acc.
    rewrite pretty_N_go_step by lia. rewrite Hp. cbn [decimal_go].
    rewrite digit_of_pretty_N_char by (apply N.mod_lt; lia).
    cbn [mbind option_bind]. f_equal.
    pose proof (N.div_mod x 10 ltac:(lia)) as Hdm.
    rewrite Hdm at 3. rewrite N2Z.inj_add, N2Z.inj_mul. simpl (Z.of_N 10). lia.
Qed.

(** The digits are written in one piece: no hyphen among them. *)
Lemma split_on_pretty_N_go (x : N) s :
  split_on "-" (pretty_N_go x s) =
  match split_on "-" s with
  | w :: ws => pretty_N_go x w :: ws
  | [] => []
  end.
Proof.
  revert s. induction (N.lt_wf_0 x) as [x _ IH]. intros s.
  destruct (decide (x = 0)%N) as [->|Hx].
  - rewrite pretty_N_go_0. destruct (split_on_cons "-" s) as (w & ws & ->).
    by rewrite pretty_N_go_0.
  - rewrite pretty_N_go_step by lia. rewrite IH by (apply N.div_lt; lia).
    cbn [split_on]. rewrite decide_False by apply pretty_N_char_not_hyphen.
    destruct (split_on_cons "-" s) as (w & ws & ->).
    by rewrite (pretty_N_go_step x w) by lia.
Qed.

Lemma pretty_N_go_app (x : N) s t : pretty_N_go x s +:+ t = pretty_N_go x (s +:+ t).
Proof.
  revert s. induction (N.lt_wf_0 x) as [x _ IH]. intros s.
  destruct (decide (x = 0)%N) as [->|Hx]; [by rewrite !pretty_N_go_0|].
  rewrite (pretty_N_go_step x s), (pretty_N_go_step x (s +:+ t)) by lia.
  by rewrite IH by (apply N.div_lt; lia).
Qed.

Lemma pretty_N_go_nonempty (x : N) : (0 < x)%N → pretty_N_go x "" ≠ "".
Proof.
  intros Hx Hnil. destruct (decimal_go_pretty_N_go x) as [p Hp].
  specialize (Hp "" 0). rewrite Hnil in Hp. simpl in Hp. injection Hp as Hp. lia.
Qed.

(** A number that is not negative is written [pretty_N_go x ""] for some
    [x], or ["0"]. *)
Lemma pretty_nonneg (n : Z) :
  0 ≤ n → pretty n = "0" ∧ n = 0 ∨ ∃ x, (0 < x)%N ∧ n = Z.of_N x ∧ pretty n = pretty_N_go x "".
Proof.
  intros Hn. destruct n as [|q|q]; [by left| |lia].
  right. exists (Npos q). split; [lia|]. split; [done|].
  reflexivity.
Qed.

Lemma decimal_pretty (n : Z) : 0 ≤ n → decimal (pretty n) = Some n.
Proof.
  intros [[-> ->]|(x & Hx & -> & ->)]%pretty_nonneg; [done|].
  unfold decimal. destruct (pretty_N_go x "") as [|a s] eqn:Hs.
  { by apply pretty_N_go_nonempty in Hs. }
  rewrite <- Hs. destruct (decimal_go_pretty_N_go x) as [p Hp].
  rewrite Hp. simpl. done.
Qed.

Lemma split_on_pretty (n : Z) s :
  0 ≤ n →
  split_on "-" (pretty n +:+ s) =
  match split_on "-" s with
  | w :: ws => (pretty n +:+ w) :: ws
  | [] => []
  end.
Proof.
  intros [[-> ->]|(x & Hx & -> & ->)]%pretty_nonneg.
  - change ("0" +:+ s) with (String "0" s). cbn [split_on].
    rewrite decide_False by done.
    destruct (split_on_cons "-" s) as (w & ws & ->). done.
  - rewrite pretty_N_go_app. change ("" +:+ s) with s. rewrite split_on_pretty_N_go.
    destruct (split_on_cons "-" s) as (w & ws & ->). by rewrite pretty_N_go_app.
Qed.

Lemma string_app_empty_r (s : string) : s +:+ "" = s.
Proof.
  induction s as [|a s IH]; [done|].
  change (String a (s +:+ "") = String a s). by f_equal.
Qed.

(** The label of a month, split on the hyphen and read back. *)
Lemma split_on_label (year month : Z) :
  0 ≤ year → 0 ≤ month →
  split_on "-" (pretty year +:+ "-" +:+ pretty month) = [pretty year; pretty month].
Proof.
  intros Hy Hm. rewrite split_on_pretty by done.
  change ("-" +:+ pretty month) with (String "-" (pretty month)).
  cbn [split_on]. rewrite decide_True by done.
  rewrite <- (string_app_empty_r (pretty month)) at 1.
  rewrite split_on_pretty by done. cbn [split_on].
  by rewrite !string_app_empty_r.
Qed.

(** *** The lines *)

Global Instance ts_le_trans : Transitive ts_le.
Proof. intros [] [] []. unfold ts_le. simpl. lia. Qed.

Global Instance ts_le_total : Total ts_le.
Proof. intros [] []. unfold ts_le. simpl. lia. Qed.

Lemma length_cumsum_from acc xs : length (cumsum_from acc xs) = length xs.
Proof. revert acc. induction xs as [|x xs IH]; intros acc; simpl; [done|]. by rewrite IH. Qed.

(** The running total at a position is the sum up to that position. *)
Lemma cumsum_from_lookup acc xs k :
  (k < length xs)%nat →
  cumsum_from acc xs !! k = Some (acc + sum_list_Z (take (S k) xs)).
Proof.
  revert acc k. induction xs as [|x xs IH]; intros acc k Hk; [simpl in Hk; lia|].
  destruct k as [|k].
  - simpl. f_equal. unfold sum_list_Z. simpl. lia.
  - cbn [cumsum_from lookup list_lookup]. rewrite IH by (simpl in Hk; lia).
    f_equal. unfold sum_list_Z. cbn [take foldr]. lia.
Qed.

(** A filter that implies another makes the other redundant. *)
Lemma filter_filter_eq {A} (P Q : A → Prop) `{∀ x, Decision (P x)} `{∀ x, Decision (Q x)}
    (l : list A) :
  (∀ x, x ∈ l → P x → Q x) → filter P (filter Q l) = filter P l.
Proof.
  intros HPQ. rewrite list_filter_filter. apply filter_ext_in.
  intros x Hx. split; [by intros [? _]|]. intros HP. split; [done|]. by apply HPQ.
Qed.

Section Lines.

Context (pd : Pandas).

Lemma import_exercise_sheet_not_exercise_error doc sheetname ws e :
  import_exercise_sheet pd doc sheetname ≠ (ws, inl (ExerciseNotFound e)).
Proof.
  unfold import_exercise_sheet. destruct (doc !! sheetname) as [[|t [|t' ts]]|]; try done.
  cbv zeta.
  pose proof (clean_exercise_sheet_outcome pd
                (dropna_columns (dropna_rows (frame_of_table t))) []) as Hout.
  destruct (clean_exercise_sheet pd _) as [w [e'|[]]]; [|done].
  cbn [fst snd] in Hout. intros [= _ ->]. inversion Hout.
Qed.

Lemma import_month_not_exercise_error doc year month ws e :
  import_month pd doc year month ≠ (ws, inl (ExerciseNotFound e)).
Proof.
  unfold import_month. destruct (month_name month) as [monthname|]; [|done].
  destruct (import_exercise_sheet pd doc _) as [ws' [e'|df]] eqn:Hsheet.
  - intros [= -> ->]. by apply import_exercise_sheet_not_exercise_error in Hsheet.
  - intros [= _ Hchk]. revert Hchk.
    destruct (check_field_cases ts_year year OutsideDesiredYear df)
      as [[_ ->]|[(_ & _ & ->)|(_ & _ & ->)]]; try done.
    cbn [mbind Result_bind].
    destruct (check_field_cases ts_month month OutsideDesiredMonth df)
      as [[_ ->]|[(_ & _ & ->)|(_ & _ & ->)]]; done.
Qed.

Lemma plot_months_not_exercise_error doc exercise monthlist e :
  (plot_months pd doc exercise monthlist).2 ≠ inl (PlotRaised (ExerciseNotFound e)).
Proof.
  induction monthlist as [|year_month rest IH]; [done|].
  cbn [plot_months].
  destruct (split_on "-" year_month) as [|y [|m ms]]; [done|..].
  - unfold py_int. by destruct (decimal y).
  - unfold py_int. destruct (decimal y) as [year|]; [|done].
    destruct (decimal m) as [month|]; [|done].
    destruct (import_month pd doc year month) as [ws [e'|df]] eqn:Himp.
    + cbn [snd]. intros [= ->]. by apply import_month_not_exercise_error in Himp.
    + cbv zeta. by destruct (plot_months pd doc exercise rest) as [ws' [e'|lines]].
Qed.

(** X28.  The cumulative plot has no check that the exercise occurs: it
    never fails with the exercise-not-found error, whatever it is asked, and
    a month without the exercise gives a line without points. *)
Theorem cumsum_plot_never_misses_exercise date_range_MS doc exercise kwargs :
  (∀ e, (cumsum_exercise_plot pd date_range_MS doc exercise kwargs).2 ≠
        inl (PlotRaised (ExerciseNotFound e))) ∧
  (∀ df year_month, VStr exercise ∉ get_col "exercise" df →
     cumulative_line df exercise year_month = mkLine2D [] [] year_month).
Proof.
  split.
  - intros e. unfold cumsum_exercise_plot.
    case_decide; [done|]. case_decide; [done|].
    destruct (kw_month kwargs) as [[year month]|].
    + apply plot_months_not_exercise_error.
    + destruct (kw_startmonth kwargs) as [[sy sm]|]; [|done].
      destruct (kw_endmonth kwargs) as [[ey em]|]; [|done].
      cbv zeta. destruct (date_range_MS _ _); [|done].
      apply plot_months_not_exercise_error.
  - intros df year_month Hex. unfold cumulative_line. cbv zeta.
    assert (filter (λ r : gmap string Cell, r !!! "exercise" = VStr exercise) (rows df) = [])
      as ->; [|done].
    destruct (filter _ (rows df)) as [|r rs] eqn:Hf; [done|]. exfalso.
    assert (r ∈ filter (λ r : gmap string Cell, r !!! "exercise" = VStr exercise) (rows df))
      as [Hr Hin]%list_elem_of_filter by (rewrite Hf; left).
    apply Hex. unfold get_col. apply list_elem_of_fmap. eauto.
Qed.

(** X29.  Asked for one month, by a year and a month number that are not
    negative, the cumulative plot loads exactly that month: the label it
    writes and reads back gives the same numbers, a failure of the month
    loader is passed on, and otherwise there is the one line of that
    month. *)
Theorem cumsum_plot_loads_the_month_asked date_range_MS doc exercise year month :
  0 ≤ year → 0 ≤ month →
  cumsum_exercise_plot pd date_range_MS doc exercise (mkKwargs (Some (year, month)) None None) =
  match import_month pd doc year month with
  | (ws, inl e) => (ws, inl (PlotRaised e))
  | (ws, inr df) =>
      (ws, inr [cumulative_line df exercise (pretty year +:+ "-" +:+ pretty month)])
  end.
Proof.
  intros Hy Hm. unfold cumsum_exercise_plot. cbn [kw_month kw_startmonth kw_endmonth].
  rewrite decide_False by (intros [_ [[? [=]]|[? [=]]]]).
  rewrite decide_False by (intros [[=] _]).
  cbn [plot_months]. rewrite split_on_label by done.
  unfold py_int. rewrite !decimal_pretty by done.
  destruct (import_month pd doc year month) as [ws [e|df]]; [done|].
  cbv zeta. by rewrite app_nil_r.
Qed.

Lemma imported_month_rows doc year month ws df :
  import_month pd doc year month = (ws, inr df) →
  normalized df →
  ∃ ndays, monthrange year month = inr ndays ∧ 1 ≤ year ≤ 9999 ∧
    Forall (λ r : gmap string Cell,
              ∃ d, 1 ≤ d ≤ ndays ∧ r !!! "date" = VTime (date year month d)) (rows df).
Proof.
  intros Himp Hnorm.
  apply import_month_success in Himp as [Hne Hrows].
  assert (Hdated : dated_in_month year month df).
  { eapply Forall_impl; [exact Hrows|]. intros r [[Hy _] [Hm _]]. done. }
  destruct (normalized_day_rows year month df Hnorm Hdated) as [_ Hmonth].
  destruct (Hmonth Hne) as (ndays & Hnd & Hyear).
  exists ndays. split; [done|]. split; [done|].
  destruct Hnorm as [_ Hnrows]. unfold dated_in_month in Hdated.
  apply Forall_forall. intros r Hr.
  rewrite Forall_forall in Hnrows, Hdated.
  destruct (Hnrows r Hr) as ((d & Hd & Hvalid) & _).
  destruct (Hdated r Hr) as [Hy Hm].
  rewrite (lookup_total_correct _ _ _ Hd) in Hy, Hm |- *. simpl in Hy, Hm.
  injection Hy as Hy. injection Hm as Hm.
  destruct (valid_date_inv d Hvalid) as (nd & Hnd' & _ & Hday & Hdeq).
  rewrite Hy, Hm in Hnd', Hdeq. rewrite Hnd in Hnd'. injection Hnd' as <-.
  exists (ts_day d). split; [done|]. by rewrite Hdeq at 1.
Qed.

(** The keys of the grouping of records of one month: the days with a
    record, in ascending order. *)
Lemma groupby_date_days year month (rs : list (gmap string Cell)) :
  Forall (λ r : gmap string Cell, ∃ d, r !!! "date" = VTime (date year month d)) rs →
  ∃ ds : list Z,
    (groupby_date rs).*1 = date year month <$> ds ∧
    StronglySorted Z.lt ds ∧
    ∀ d, d ∈ ds ↔ ∃ r, r ∈ rs ∧ r !!! "date" = VTime (date year month d).
Proof.
  intros Hrs. destruct (groupby_date_keys rs) as [Hnd Hkeys].
  assert (Hform : ∀ k, k ∈ (groupby_date rs).*1 → k = date year month (ts_day k)).
  { intros k (r & Hr & Hk)%Hkeys. rewrite Forall_forall in Hrs.
    destruct (Hrs r Hr) as (d & Hd). rewrite Hd in Hk. by injection Hk as <-. }
  assert (Hsorted : StronglySorted ts_le (groupby_date rs).*1).
  { rewrite groupby_date_fst. apply (StronglySorted_merge_sort _). }
  exists (ts_day <$> (groupby_date rs).*1). split; [|split].
  - rewrite <- list_fmap_compose. rewrite <- (list_fmap_id (groupby_date rs).*1) at 1.
    apply list_fmap_ext. intros i k Hk. simpl. apply Hform. by eapply list_elem_of_lookup_2.
  - clear Hkeys. induction Hsorted as [|k ks Hs IH Hall]; [constructor|].
    apply NoDup_cons in Hnd as [Hk Hnd]. rewrite fmap_cons. constructor.
    + apply IH; [done|]. intros k' Hk'. apply Hform. by right.
    + apply Forall_fmap, Forall_forall. intros k' Hk'. simpl.
      rewrite Forall_forall in Hall. specialize (Hall k' Hk').
      assert (k ≠ k') by (intros ->; done).
      rewrite (Hform k) in Hall, H by left.
      rewrite (Hform k') in Hall, H by (by right).
      unfold ts_le, date in Hall. simpl in Hall.
      destruct (decide (ts_day k = ts_day k')) as [Heq|]; [|lia].
      by rewrite Heq in H.
  - intros d. rewrite list_elem_of_fmap. split.
    + intros (k & -> & Hk). pose proof (Hform k Hk) as Hkd.
      apply Hkeys in Hk as (r & Hr & Hdate). exists r. split; [done|]. by rewrite <- Hkd.
    + intros (r & Hr & Hdate). exists (date year month d). split; [done|].
      apply Hkeys. eauto.
Qed.

Lemma StronglySorted_lt_NoDup (ds : list Z) : StronglySorted Z.lt ds → NoDup ds.
Proof.
  induction 1 as [|d ds _ IH Hall]; constructor; [|done].
  intros Hd. rewrite Forall_forall in Hall. specialize (Hall d Hd). lia.
Qed.

Lemma StronglySorted_lt_lookup (ds : list Z) i j a b :
  StronglySorted Z.lt ds → ds !! i = Some a → ds !! j = Some b → a ≤ b → (i ≤ j)%nat.
Proof.
  intros Hs Hi Hj Hab. destruct (decide (i ≤ j)%nat) as [|Hgt]; [done|].
  assert (b < a); [|lia].
  apply (StronglySorted_lookup_lt Z.lt ds j i); [done|lia|done..].
Qed.

(** X30.  Asked for one month that loads into a normalized table, the
    cumulative plot draws one line; the line has one point for each day with
    a set of the exercise, the days in ascending order, and at each of these
    days it stands at the sum of the day totals of the exercise from the
    first of the month to that day. *)
Theorem cumsum_line_is_running_total date_range_MS doc exercise year month ws df :
  import_month pd doc year month = (ws, inr df) →
  normalized df →
  ∃ line,
    cumsum_exercise_plot pd date_range_MS doc exercise
      (mkKwargs (Some (year, month)) None None) = (ws, inr [line]) ∧
    length (line_y line) = length (line_x line) ∧
    StronglySorted Z.lt (line_x line) ∧
    (∀ d, d ∈ line_x line ↔ day_records df exercise (date year month d) ≠ []) ∧
    (∀ k d, line_x line !! k = Some d →
       line_y line !! k =
       Some (sum_list_Z ((λ d', day_total df exercise (date year month d')) <$> seqZ 1 d))).
Proof.
  intros Himp Hnorm.
  destruct (imported_month_rows _ _ _ _ _ Himp Hnorm) as (ndays & Hnd & Hyear & Hrows).
  pose proof (monthrange_bounds _ _ _ Hnd) as [Hmonth _].
  eexists. split.
  { rewrite cumsum_plot_loads_the_month_asked by lia. by rewrite Himp. }
  unfold cumulative_line. cbv zeta. cbn [line_x line_y].
  set (rs := filter (λ r : gmap string Cell, r !!! "exercise" = VStr exercise) (rows df)).
  assert (Hrs : Forall (λ r : gmap string Cell,
                          ∃ d, 1 ≤ d ∧ r !!! "date" = VTime (date year month d)) rs).
  { apply Forall_forall. intros r [_ Hr]%list_elem_of_filter.
    rewrite Forall_forall in Hrows. destruct (Hrows r Hr) as (d & Hd & Hdate).
    exists d. split; [lia|done]. }
  destruct (groupby_date_days year month rs) as (ds & Hkeys & Hsorted & Hds).
  { eapply Forall_impl; [exact Hrs|]. intros r (d & _ & Hd). eauto. }
  assert (Hfst : ((λ kg : Timestamp * list (gmap string Cell),
                     (kg.1, sum_col "count" kg.2)) <$> groupby_date rs).*1 =
                 date year month <$> ds).
  { rewrite <- Hkeys, <- !list_fmap_compose. done. }
  assert (Hsnd : ((λ kg : Timestamp * list (gmap string Cell),
                     (kg.1, sum_col "count" kg.2)) <$> groupby_date rs).*2 =
                 (λ d, sum_col "count"
                         (filter (λ r : gmap string Cell,
                                    r !!! "date" = VTime (date year month d)) rs)) <$> ds).
  { transitivity ((λ k, sum_col "count"
                          (filter (λ r : gmap string Cell, r !!! "date" = VTime k) rs))
                    <$> (groupby_date rs).*1).
    - rewrite <- !list_fmap_compose. apply list_fmap_ext. intros i [k g] Hkg. simpl.
      apply list_elem_of_lookup_2, groupby_date_elem_of in Hkg as [_ ->]. done.
    - rewrite Hkeys, <- list_fmap_compose. done. }
  rewrite Hfst, Hsnd. rewrite <- list_fmap_compose.
  assert (Hx : ts_day ∘ date year month <$> ds = ds).
  { rewrite <- (list_fmap_id ds) at 2. by apply list_fmap_ext. }
  rewrite Hx. split; [|split; [|split]].
  - unfold cumsum. by rewrite length_cumsum_from, length_fmap.
  - done.
  - intros d. rewrite Hds. unfold day_records. split.
    + intros (r & Hr & Hdate) Hnil.
      assert (r ∈ filter (λ r : gmap string Cell,
                            r !!! "date" = VTime (date year month d) ∧
                            r !!! "exercise" = VStr exercise) (rows df)) as Hmem.
      { apply list_elem_of_filter in Hr as [Hre Hr]. by apply list_elem_of_filter. }
      rewrite Hnil in Hmem. by apply elem_of_nil in Hmem.
    + intros Hne.
      destruct (filter (λ r : gmap string Cell,
                          r !!! "date" = VTime (date year month d) ∧
                          r !!! "exercise" = VStr exercise) (rows df))
        as [|r g] eqn:Hf; [done|].
      assert (r ∈ filter (λ r : gmap string Cell,
                            r !!! "date" = VTime (date year month d) ∧
                            r !!! "exercise" = VStr exercise) (rows df))
        as [[Hdate Hre] Hr]%list_elem_of_filter by (rewrite Hf; left).
      exists r. split; [|done]. by apply list_elem_of_filter.
  - intros k d Hk. unfold cumsum.
    rewrite cumsum_from_lookup by (rewrite length_fmap; by eapply lookup_lt_Some).
    f_equal. rewrite Z.add_0_l. rewrite <- fmap_take.
    set (day_of := λ r : gmap string Cell,
           match r !!! "date" with VTime t => ts_day t | _ => 0 end).
    set (rs_d := filter (λ r, day_of r ≤ d) rs).
    assert (Hday_of : ∀ r d', r !!! "date" = VTime (date year month d') → day_of r = d').
    { intros r d' Hdate. unfold day_of. by rewrite Hdate. }
    assert (Hsame : ∀ d', d' ≤ d →
              filter (λ r : gmap string Cell, r !!! "date" = VTime (date year month d')) rs_d
              = filter (λ r : gmap string Cell, r !!! "date" = VTime (date year month d')) rs).
    { intros d' Hd'. unfold rs_d. apply filter_filter_eq.
      intros r _ Hdate. by rewrite (Hday_of r d'). }
    assert (Htake : ∀ d', d' ∈ take (S k) ds → d' ≤ d ∧ d' ∈ ds).
    { intros d' [j Hj]%list_elem_of_lookup.
      apply lookup_take_Some in Hj as [Hj Hjk].
      split; [|by eapply list_elem_of_lookup_2].
      destruct (decide (j = k)) as [->|Hne]; [simplify_eq; lia|].
      assert (d' < d); [|lia].
      apply (StronglySorted_lookup_lt Z.lt ds j k); [done|lia|done..]. }
    transitivity (sum_col "count" rs_d).
    + rewrite <- (sum_by_key (date year month <$> take (S k) ds) rs_d).
      * rewrite <- list_fmap_compose. f_equal.
        apply list_fmap_ext. intros i d' Hd'. simpl.
        rewrite Hsame; [done|]. apply list_elem_of_lookup_2, Htake in Hd'. lia.
      * apply (NoDup_fmap_2 _). eapply sublist_NoDup; [|apply sublist_take].
        by apply StronglySorted_lt_NoDup.
      * apply Forall_forall. intros r [Hle Hr]%list_elem_of_filter.
        rewrite Forall_forall in Hrs. destruct (Hrs r Hr) as (d' & Hd' & Hdate).
        rewrite (Hday_of r d' Hdate) in Hle.
        exists (date year month d'). split; [|done].
        apply list_elem_of_fmap. exists d'. split; [done|].
        assert (d' ∈ ds) as [j Hj]%list_elem_of_lookup by (apply Hds; eauto).
        apply list_elem_of_lookup. exists j. apply lookup_take_Some. split; [done|].
        pose proof (StronglySorted_lt_lookup ds j k d' d Hsorted Hj Hk Hle). lia.
    + assert (1 ≤ d) as Hd1.
      { assert (d ∈ ds) as (r & Hr & Hdate)%Hds by by eapply list_elem_of_lookup_2.
        rewrite Forall_forall in Hrs. destruct (Hrs r Hr) as (d' & Hd' & Hdate').
        rewrite Hdate in Hdate'. injection Hdate' as ->. done. }
      rewrite <- (sum_by_key (date year month <$> seqZ 1 d) rs_d).
      * rewrite <- list_fmap_compose. f_equal.
        apply list_fmap_ext. intros i d' Hd'. simpl.
        apply list_elem_of_lookup_2, elem_of_seqZ in Hd'.
        rewrite Hsame by lia. unfold day_total, rs. by rewrite list_filter_filter.
      * apply (NoDup_fmap_2 _). apply NoDup_seqZ.
      * apply Forall_forall. intros r [Hle Hr]%list_elem_of_filter.
        rewrite Forall_forall in Hrs. destruct (Hrs r Hr) as (d' & Hd' & Hdate).
        rewrite (Hday_of r d' Hdate) in Hle.
        exists (date year month d'). split; [|done].
        apply list_elem_of_fmap. exists d'. split; [done|]. apply elem_of_seqZ. lia.
Qed.

End Lines.

Lemma cumsum_plot_loads_the_month_asked_witness :
  cumsum_exercise_plot pandas_ref (λ _ _, None) november_doc "pushups"
    (mkKwargs (Some (2024, 11)) None None) =
  match import_month pandas_ref november_doc 2024 11 with
  | (ws, inl e) => (ws, inl (PlotRaised e))
  | (ws, inr df) => (ws, inr [cumulative_line df "pushups" (pretty 2024 +:+ "-" +:+ pretty 11)])
  end.
Proof.
  apply (cumsum_plot_loads_the_month_asked pandas_ref (λ _ _, None) november_doc "pushups"
           2024 11); lia.
Defined.

Lemma cumsum_line_is_running_total_witness :
  ∃ line,
    cumsum_exercise_plot pandas_ref (λ _ _, None) november_doc "pushups"
      (mkKwargs (Some (2024, 11)) None None) = ([], inr [line]) ∧
    length (line_y line) = length (line_x line) ∧
    StronglySorted Z.lt (line_x line) ∧
    (∀ d, d ∈ line_x line ↔ day_records november_frame "pushups" (date 2024 11 d) ≠ []) ∧
    (∀ k d, line_x line !! k = Some d →
       line_y line !! k =
       Some (sum_list_Z ((λ d', day_total november_frame "pushups" (date 2024 11 d'))
                           <$> seqZ 1 d))).
Proof.
  apply (cumsum_line_is_running_total pandas_ref (λ _ _, None) november_doc "pushups"
           2024 11 [] november_frame import_month_november november_frame_normalized).
Defined.
